(** * GBIF occurrence curation pipeline: a shallow embedding

    The development follows [gbifcurador.py] (fetch, clean, validate,
    georeference, taxonomic validation, enrichment, report) and
    [vsSHP_BUFFER.py] (point-in-boundary flags).

    Python values are an inductive type; a pandas [DataFrame] is a list of
    column names together with labelled rows of cells; exceptions are an
    explicit error type threaded through a small monad; the network services
    (occurrence search, name backbone, reverse geocoder), the date parser,
    numeric rounding, the conversion of a cell to a float and the polygon
    predicate are parameters of a section. The rounding of the numeric
    library is also followed in binary floating point, for the intervals of
    the rounded coordinates. *)

From Stdlib Require Import List String Ascii ZArith QArith Qpower Qround Bool Lia
  Lqa Arith PeanoNat.
Import ListNotations.

Close Scope Q_scope.

Local Open Scope string_scope.
Local Open Scope Z_scope.

Set Implicit Arguments.

(* ================================================================== *)
(** * Exceptions and results *)

Inductive exn : Type :=
| KeyError (keys : list string)      (* a missing column or dictionary key *)
| TypeError                          (* an unsupported comparison *)
| ValueError                         (* a value that cannot be converted or assigned *)
| GeocoderTimedOut                   (* geopy.exc.GeocoderTimedOut *)
| ServiceError (msg : string).       (* any other failure of a collaborator *)

Inductive result (A : Type) : Type :=
| Ok (a : A)
| Raise (e : exn).

Arguments Ok {A} a.
Arguments Raise {A} e.

Definition bind {A B} (m : result A) (k : A -> result B) : result B :=
  match m with
  | Ok a => k a
  | Raise e => Raise e
  end.

Notation "x <- m ;; k" := (bind m (fun x => k))
  (at level 61, m at next level, right associativity).
Notation "' pat <- m ;; k" := (bind m (fun x => match x with pat => k end))
  (at level 61, pat pattern, m at next level, right associativity).

Fixpoint mapM {A B} (f : A -> result B) (l : list A) : result (list B) :=
  match l with
  | [] => Ok []
  | a :: t => b <- f a ;; bs <- mapM f t ;; Ok (b :: bs)
  end.

(* ================================================================== *)
(** * Python strings *)

Definition dot : ascii := "."%char.
Definition space : ascii := " "%char.

(** [s.split(sep)] for a one-character separator: always at least one
    piece, the pieces in order. *)
Fixpoint split_char (sep : ascii) (s : string) : list string :=
  match s with
  | EmptyString => [EmptyString]
  | String c s' =>
      if Ascii.eqb c sep then EmptyString :: split_char sep s'
      else match split_char sep s' with
           | [] => [String c EmptyString]
           | h :: t => String c h :: t
           end
  end.

(** [s.replace(old, new)]: left to right, occurrences of [old] that do not
    overlap; [fuel] bounds the scan and [String.length s + 1] is enough.
    The empty pattern is not used by the program and is left alone. *)
Fixpoint replace_aux (fuel : nat) (old new s : string) : string :=
  match fuel with
  | O => s
  | S fuel' =>
      match s with
      | EmptyString => EmptyString
      | String c s' =>
          if (String.prefix old s && negb (String.eqb old EmptyString))%bool
          then new ++ replace_aux fuel' old new
                        (substring (String.length old)
                           (String.length s - String.length old) s)
          else String c (replace_aux fuel' old new s')
      end
  end.

Definition str_replace (s old new : string) : string :=
  replace_aux (S (String.length s)) old new s.

(** Every space written out as the three characters of its escape. *)
Fixpoint expand_spaces (s : string) : string :=
  match s with
  | EmptyString => EmptyString
  | String c s' =>
      if Ascii.eqb c space then String "%" (String "2" (String "0" (expand_spaces s')))
      else String c (expand_spaces s')
  end.

Definition is_digit (c : ascii) : bool :=
  let n := nat_of_ascii c in ((48 <=? n)%nat && (n <=? 57)%nat)%bool.

Fixpoint str_forallb (p : ascii -> bool) (s : string) : bool :=
  match s with
  | EmptyString => true
  | String c s' => p c && str_forallb p s'
  end.

Fixpoint str_count (p : ascii -> bool) (s : string) : nat :=
  match s with
  | EmptyString => O
  | String c s' => ((if p c then 1 else 0) + str_count p s')%nat
  end.

Definition str_mem (c : ascii) (s : string) : bool :=
  negb (str_forallb (fun x => negb (Ascii.eqb x c)) s).

(** ** The precision rule in the specification's words

    The text after the first decimal point, the run of digits it starts with,
    and the rule "between 3 and 8 digits after the decimal separator; no
    separator fails". *)
Fixpoint after_point (s : string) : option string :=
  match s with
  | EmptyString => None
  | String c s' => if Ascii.eqb c dot then Some s' else after_point s'
  end.

Fixpoint leading_digits (s : string) : nat :=
  match s with
  | EmptyString => O
  | String c s' => if is_digit c then S (leading_digits s') else O
  end.

Definition fraction_digits (s : string) : option nat :=
  option_map leading_digits (after_point s).

Definition precision_rule (s : string) : bool :=
  match fraction_digits s with
  | Some n => ((3 <=? n)%nat && (n <=? 8)%nat)%bool
  | None => false
  end.

(* ================================================================== *)
(** * Python numbers *)

Inductive digit : Type := d0 | d1 | d2 | d3 | d4 | d5 | d6 | d7 | d8 | d9.

Definition digit_char (d : digit) : ascii :=
  match d with
  | d0 => "0" | d1 => "1" | d2 => "2" | d3 => "3" | d4 => "4"
  | d5 => "5" | d6 => "6" | d7 => "7" | d8 => "8" | d9 => "9"
  end%char.

Definition digit_val (d : digit) : Z :=
  match d with
  | d0 => 0 | d1 => 1 | d2 => 2 | d3 => 3 | d4 => 4
  | d5 => 5 | d6 => 6 | d7 => 7 | d8 => 8 | d9 => 9
  end.

Definition digit_of_Z (z : Z) : digit :=
  match z with
  | 1 => d1 | 2 => d2 | 3 => d3 | 4 => d4
  | 5 => d5 | 6 => d6 | 7 => d7 | 8 => d8 | 9 => d9
  | _ => d0
  end.

Fixpoint digits_str (ds : list digit) : string :=
  match ds with
  | [] => EmptyString
  | d :: t => String (digit_char d) (digits_str t)
  end.

Definition digits_value (ds : list digit) : Z :=
  fold_left (fun acc d => 10 * acc + digit_val d) ds 0.

(** Decimal digits of a natural number, most significant first; [fuel]
    bounds the number of digits. *)
Fixpoint digits_of_aux (fuel : nat) (n : Z) (acc : list digit) : list digit :=
  match fuel with
  | O => acc
  | S fuel' =>
      let acc' := digit_of_Z (n mod 10) :: acc in
      if n / 10 =? 0 then acc' else digits_of_aux fuel' (n / 10) acc'
  end.

Definition digits_of_Z (n : Z) : list digit :=
  digits_of_aux (S (Z.to_nat (Z.log2 (Z.abs n)))) (Z.abs n) [].

(** [str(n)] for a Python [int]. *)
Definition int_str (n : Z) : string :=
  (if n <? 0 then "-" else "") ++ digits_str (digits_of_Z n).

(** A Python [float], given the way the interpreter's shortest-digits
    conversion presents it: a sign, the significant digits and the position
    [decpt] of the decimal point relative to their start, so that the value is
    [0.d1d2...dn * 10^decpt]. [12.345] is digits 12345 with [decpt = 2];
    [1.5e-05] is digits 15 with [decpt = -4]; zero is the digit 0 with
    [decpt = 1]. The digits are the shortest that read back as the same
    float, so two floats differ exactly when their digits or [decpt] do, and
    the decimal lies on the same side of every integer as the float does:
    ordering the float against an integer is ordering the decimal. *)
Inductive pyfloat : Type :=
| FNaN
| FInf (neg : bool)
| FFin (neg : bool) (digits : list digit) (decpt : Z).

Definition zeros (n : Z) : string := digits_str (repeat d0 (Z.to_nat n)).

(** Drop a decimal point that ends the text. *)
Fixpoint strip_trailing_dot (s : string) : string :=
  match s with
  | EmptyString => EmptyString
  | String c s' =>
      match s' with
      | EmptyString => if Ascii.eqb c dot then EmptyString else s
      | _ => String c (strip_trailing_dot s')
      end
  end.

(** The exponent suffix, printed as [%+.02d]. *)
Definition exp_str (e : Z) : string :=
  let ds := digits_of_Z e in
  (if e <? 0 then "-" else "+") ++
  (if (List.length ds <? 2)%nat then "0" else "") ++ digits_str ds.

(** [repr] of a finite float (format code ['r'], a [.0] added to integers):
    exponent notation when [decpt <= -4] or [decpt > 16], positional
    otherwise. The layout follows the interpreter's formatting routine: zero
    padding on the left, the digits with the point inside them, zero padding
    on the right, a trailing point removed, then the exponent. *)
Definition format_float_short (neg : bool) (digits : list digit) (decpt : Z)
  : string :=
  let digits_len := Z.of_nat (List.length digits) in
  let use_exp := ((decpt <=? -4) || (16 <? decpt))%bool in
  let exp := decpt - 1 in
  let decpt := if use_exp then 1 else decpt in
  let vdigits_start := if decpt <=? 0 then decpt - 1 else 0 in
  let vdigits_end :=
    if use_exp then Z.max digits_len decpt else Z.max digits_len (decpt + 1) in
  let left :=
    if decpt <=? 0
    then zeros (decpt - vdigits_start) ++ "." ++ zeros (0 - decpt)
    else zeros (0 - vdigits_start) in
  let middle :=
    if ((0 <? decpt) && (decpt <=? digits_len))%bool
    then digits_str (firstn (Z.to_nat decpt) digits) ++ "." ++
         digits_str (skipn (Z.to_nat decpt) digits)
    else digits_str digits in
  let right :=
    if digits_len <? decpt
    then zeros (decpt - digits_len) ++ "." ++ zeros (vdigits_end - decpt)
    else zeros (vdigits_end - digits_len) in
  (if neg then "-" else "") ++
  strip_trailing_dot (left ++ middle ++ right) ++
  (if use_exp then "e" ++ exp_str exp else "").

Definition float_str (f : pyfloat) : string :=
  match f with
  | FNaN => "nan"
  | FInf neg => if neg then "-inf" else "inf"
  | FFin neg ds decpt => format_float_short neg ds decpt
  end.

(** The exact value of a finite float is [m * 10^e] with [float_mant] and
    [float_exp10]; comparisons against integers are exact. *)
Definition float_mant (neg : bool) (ds : list digit) : Z :=
  if neg then - digits_value ds else digits_value ds.

Definition float_exp10 (ds : list digit) (decpt : Z) : Z :=
  decpt - Z.of_nat (List.length ds).

(** [m * 10^e <= k] and [k <= m * 10^e] for an integer [k]. *)
Definition dec_le_int (m e k : Z) : bool :=
  if 0 <=? e then m * 10 ^ e <=? k else m <=? k * 10 ^ (- e).

Definition int_le_dec (k m e : Z) : bool :=
  if 0 <=? e then k <=? m * 10 ^ e else k * 10 ^ (- e) <=? m.

Definition float_le_int (f : pyfloat) (k : Z) : bool :=
  match f with
  | FNaN => false
  | FInf neg => neg
  | FFin neg ds decpt => dec_le_int (float_mant neg ds) (float_exp10 ds decpt) k
  end.

Definition int_le_float (k : Z) (f : pyfloat) : bool :=
  match f with
  | FNaN => false
  | FInf neg => negb neg
  | FFin neg ds decpt => int_le_dec k (float_mant neg ds) (float_exp10 ds decpt)
  end.

(** ** Floats that are integers

    A float holds an integer exactly up to 53 bits; a larger one is held
    rounded to 53 significant bits, a tie going to the even neighbour.
    [nearest_double n] is the integer held for [n >= 0]. *)
Definition nearest_double (n : Z) : Z :=
  let bits := Z.log2 n + 1 in
  if bits <=? 53 then n
  else
    let s := bits - 53 in
    let q := Z.shiftr n s in
    let r := n - Z.shiftl q s in
    let half := Z.shiftl 1 (s - 1) in
    let q' := if r <? half then q
              else if half <? r then q + 1
              else if Z.even q then q else q + 1 in
    Z.shiftl q' s.

(** The integer a float is equal to, when it is equal to one: its digits
    then have no fractional part, and the float is the nearest one to the
    integer they spell. *)
Definition float_integer (f : pyfloat) : option Z :=
  match f with
  | FFin neg ds decpt =>
      if Z.of_nat (List.length ds) <=? decpt
      then let n := nearest_double
                      (digits_value ds * 10 ^ (decpt - Z.of_nat (List.length ds))) in
           Some (if neg then - n else n)
      else None
  | _ => None
  end.

(* ================================================================== *)
(** * Python values and table cells *)

(** A pandas [Timestamp] (or a [datetime]): an instant in nanoseconds since
    the epoch, and whether it carries a time zone. Ordering a zone-aware
    against a naive one raises [TypeError]. *)
Record timestamp : Type := { ts_aware : bool; ts_instant : Z }.

Inductive pyval : Type :=
| PNone
| PNaT
| PBool (b : bool)
| PInt (n : Z)
| PFloat (f : pyfloat)
| PStr (s : string)
| PTimestamp (t : timestamp)
| PPoint (x y : pyval).              (* shapely Point(x, y) *)

Definition NaN : pyval := PFloat FNaN.

Definition digit_eq_dec (a b : digit) : {a = b} + {a <> b}.
Proof. decide equality. Defined.

Definition digits_eq_dec : forall a b : list digit, {a = b} + {a <> b} :=
  list_eq_dec digit_eq_dec.

Definition pyfloat_eq_dec (a b : pyfloat) : {a = b} + {a <> b}.
Proof.
  decide equality; auto using Z.eq_dec, Bool.bool_dec, digits_eq_dec.
Defined.

Definition timestamp_eq_dec (a b : timestamp) : {a = b} + {a <> b}.
Proof. decide equality; auto using Z.eq_dec, Bool.bool_dec. Defined.

Definition pyval_eq_dec (a b : pyval) : {a = b} + {a <> b}.
Proof.
  decide equality;
    auto using Z.eq_dec, Bool.bool_dec, string_dec, pyfloat_eq_dec,
      timestamp_eq_dec.
Defined.

Definition pyval_eqb (a b : pyval) : bool :=
  if pyval_eq_dec a b then true else false.

(** [pd.isnull]: the missing-value markers. *)
Definition isnull (v : pyval) : bool :=
  match v with
  | PNone | PNaT | PFloat FNaN => true
  | _ => false
  end.

Definition notnull (v : pyval) : bool := negb (isnull v).

(** Python truthiness, as used by [if x:]. *)
Definition truthy (v : pyval) : bool :=
  match v with
  | PNone => false
  | PBool b => b
  | PInt n => negb (n =? 0)
  | PFloat (FFin _ ds _) => negb (digits_value ds =? 0)
  | PFloat _ => true
  | PStr s => negb (String.eqb s "")
  | PNaT | PTimestamp _ | PPoint _ _ => true
  end.

(** [a <= b] on timestamps: [None] stands for the [TypeError] raised when one
    side is zone-aware and the other is not. *)
Definition ts_le (a b : timestamp) : option bool :=
  if Bool.eqb (ts_aware a) (ts_aware b)
  then Some (ts_instant a <=? ts_instant b)
  else None.

(* ================================================================== *)
(** * Dictionaries and data frames *)

(** A Python [dict] with string keys, in insertion order: a JSON record of
    the occurrence service, or a backbone match. *)
Definition pydict : Type := list (string * pyval).

Fixpoint dict_find (k : string) (d : pydict) : option pyval :=
  match d with
  | [] => None
  | (k', v) :: t => if String.eqb k k' then Some v else dict_find k t
  end.

(** [d[k]] *)
Definition dict_get (d : pydict) (k : string) : result pyval :=
  match dict_find k d with
  | Some v => Ok v
  | None => Raise (KeyError [k])
  end.

(** A row is an index label and its cells, aligned with the frame's columns;
    a cell that a row does not have reads as NaN. The frames that the
    pipeline builds have distinct column names and distinct labels. *)
Definition row : Type := (Z * list pyval)%type.

Record DataFrame : Type := { columns : list string; rows : list row }.

Definition len (df : DataFrame) : nat := List.length (rows df).

Fixpoint index_of (c : string) (cols : list string) : option nat :=
  match cols with
  | [] => None
  | c' :: t => if String.eqb c c' then Some O
               else option_map S (index_of c t)
  end.

Definition cell (i : nat) (r : row) : pyval := nth i (snd r) NaN.

Definition cell_of (cols : list string) (c : string) (r : row) : pyval :=
  match index_of c cols with
  | Some i => cell i r
  | None => NaN
  end.

Fixpoint set_nth (i : nat) (v : pyval) (cells : list pyval) : list pyval :=
  match i, cells with
  | O, [] => [v]
  | O, _ :: t => v :: t
  | S i', [] => NaN :: set_nth i' v []
  | S i', x :: t => x :: set_nth i' v t
  end.

(** [df[c]]: one column as a series of cells, [KeyError] when absent. *)
Definition getitem (df : DataFrame) (c : string) : result (list pyval) :=
  match index_of c (columns df) with
  | Some i => Ok (map (cell i) (rows df))
  | None => Raise (KeyError [c])
  end.

(** [row[c]] for a row handed out by [iterrows]. *)
Definition row_get (cols : list string) (r : row) (c : string) : result pyval :=
  match index_of c cols with
  | Some i => Ok (cell i r)
  | None => Raise (KeyError [c])
  end.

Definition mem_str (c : string) (l : list string) : bool :=
  existsb (String.eqb c) l.

(** [df[cols]]: the listed columns in the listed order, [KeyError] naming
    the absent ones. *)
Definition select (df : DataFrame) (cols : list string) : result DataFrame :=
  match filter (fun c => negb (mem_str c (columns df))) cols with
  | [] => Ok {| columns := cols;
                rows := map (fun r => (fst r, map (fun c => cell_of (columns df) c r) cols))
                            (rows df) |}
  | missing => Raise (KeyError missing)
  end.

(** [df[mask]]: the rows whose mask entry is true, labels kept. *)
Fixpoint mask_rows {A} (l : list A) (m : list bool) : list A :=
  match l, m with
  | a :: l', b :: m' => if b then a :: mask_rows l' m' else mask_rows l' m'
  | _, _ => []
  end.

Definition filter_mask (df : DataFrame) (m : list bool) : DataFrame :=
  {| columns := columns df; rows := mask_rows (rows df) m |}.

Fixpoint and_mask (a b : list bool) : list bool :=
  match a, b with
  | x :: a', y :: b' => (x && y)%bool :: and_mask a' b'
  | _, _ => []
  end.

Fixpoint set_cells (i : nat) (rs : list row) (series : list pyval) : list row :=
  match rs, series with
  | r :: rs', v :: series' => (fst r, set_nth i v (snd r)) :: set_cells i rs' series'
  | _, _ => rs
  end.

(** [df.loc[:, c] = series] and [df[c] = series]: overwrite the column, or
    append it when the frame does not have it. *)
Definition set_column (df : DataFrame) (c : string) (series : list pyval)
  : DataFrame :=
  match index_of c (columns df) with
  | Some i => {| columns := columns df; rows := set_cells i (rows df) series |}
  | None => {| columns := columns df ++ [c];
               rows := set_cells (List.length (columns df)) (rows df) series |}
  end.

(** Duplicate detection compares cells as Python values, all missing-value
    markers alike: [True], [1] and [1.0] are one value, and so are [0.0] and
    [-0.0]. The key of a cell is the same for equal values and for no
    others. *)
Definition dedup_key (v : pyval) : pyval :=
  if isnull v then PNone
  else match v with
       | PBool b => PInt (Z.b2z b)
       | PFloat f =>
           match float_integer f with
           | Some n => PInt n
           | None => v
           end
       | _ => v
       end.

Definition row_key (r : row) : list pyval := map dedup_key (snd r).

Definition key_mem (k : list pyval) (seen : list (list pyval)) : bool :=
  existsb (fun k' => if list_eq_dec pyval_eq_dec k k' then true else false) seen.

(** [df.drop_duplicates()]: one pass that keeps the first row of every group
    of rows equal in all columns. *)
Fixpoint drop_dups (seen : list (list pyval)) (rs : list row) : list row :=
  match rs with
  | [] => []
  | r :: t =>
      if key_mem (row_key r) seen then drop_dups seen t
      else r :: drop_dups (row_key r :: seen) t
  end.

Definition drop_duplicates (df : DataFrame) : DataFrame :=
  {| columns := columns df; rows := drop_dups [] (rows df) |}.

(** [series.unique()]: distinct values in first-seen order. *)
Fixpoint unique_aux (seen : list pyval) (l : list pyval) : list pyval :=
  match l with
  | [] => []
  | v :: t =>
      if existsb (pyval_eqb v) seen then unique_aux seen t
      else v :: unique_aux (v :: seen) t
  end.

Definition unique (l : list pyval) : list pyval := unique_aux [] l.

(** [series.isin(values)] *)
Definition isin (values : list pyval) (series : list pyval) : list bool :=
  map (fun v => existsb (pyval_eqb v) values) series.

(** Union of the records' keys, in first-seen order. *)
Fixpoint add_keys (ks : list string) (cols : list string) : list string :=
  match ks with
  | [] => cols
  | k :: t => if mem_str k cols then add_keys t cols else add_keys t (cols ++ [k])
  end.

Definition record_columns (recs : list pydict) : list string :=
  fold_left (fun cols r => add_keys (map fst r) cols) recs [].

Fixpoint label_from (i : Z) (l : list (list pyval)) : list row :=
  match l with
  | [] => []
  | cells :: t => (i, cells) :: label_from (i + 1) t
  end.

(** [pd.DataFrame(records)] for a list of dictionaries: a key that a record
    lacks gives NaN, rows are labelled 0, 1, 2, ...; an empty list gives a frame
    without columns. The cells are the values of the records: the common
    type that the library gives the numbers of a column (an integer beside a
    float or a missing value held as a float, [None] among numbers as NaN)
    is not followed here. *)
Definition DataFrame_of_records (recs : list pydict) : DataFrame :=
  let cols := record_columns recs in
  {| columns := cols;
     rows := label_from 0
               (map (fun r => map (fun c => match dict_find c r with
                                            | Some v => v
                                            | None => NaN
                                            end) cols) recs) |}.

(** [pd.DataFrame(series_list)] for rows collected from [iterrows] of a frame
    with columns [cols]: the rows with their labels; an empty list gives a
    frame without columns. The rows are taken as the frame holds them: a
    frame whose columns are all numeric hands its rows out in one numeric
    type, which is not followed here. *)
Definition DataFrame_of_rows (cols : list string) (rs : list row) : DataFrame :=
  match rs with
  | [] => {| columns := []; rows := [] |}
  | _ => {| columns := cols; rows := rs |}
  end.

(* ================================================================== *)
(** * Files written by a run *)

Inductive output : Type :=
| CsvFile (name : string) (content : DataFrame)     (* to_csv(name, index=False) *)
| TextFile (name : string) (content : string).

(** Outcome of [pd.to_datetime(x, errors='coerce')] on one cell. *)
Inductive dt_outcome : Type :=
| DtTimestamp (t : timestamp)
| DtNaT
| DtNone
| DtRaise.

Definition nine_columns : list string :=
  ["species"; "decimalLatitude"; "decimalLongitude"; "country"; "eventDate";
   "basisOfRecord"; "institutionCode"; "identificationID"; "identifiedBy"].

(** [sub] is [l] with some of its elements left out, the others in their
    order. *)
Inductive subseq {A : Type} : list A -> list A -> Prop :=
| subseq_nil : subseq [] []
| subseq_skip (x : A) (sub l : list A) : subseq sub l -> subseq sub (x :: l)
| subseq_keep (x : A) (sub l : list A) : subseq sub l -> subseq (x :: sub) (x :: l).


(* ================================================================== *)
(** * The value of a float *)

(** The value of the digits [d1 d2 ... dn] with the decimal point [decpt]
    places after their start, as a rational: the sum of the [di] times
    [10^(decpt - i)]. *)
Fixpoint place_value (ds : list digit) (decpt : Z) : Q :=
  match ds with
  | [] => 0%Q
  | d :: t =>
      (inject_Z (digit_val d) * (10 # 1) ^ (decpt - 1) +
       place_value t (decpt - 1))%Q
  end.

Definition float_value (f : pyfloat) : option Q :=
  match f with
  | FFin neg ds decpt =>
      Some (if neg then (- place_value ds decpt)%Q else place_value ds decpt)
  | _ => None
  end.


(** The same as a test on a cell: a number by its value, anything else
    not. *)
Definition within (lo hi : Z) (v : pyval) : bool :=
  match v with
  | PInt n => ((lo <=? n) && (n <=? hi))%bool
  | PBool b => ((lo <=? Z.b2z b) && (Z.b2z b <=? hi))%bool
  | PFloat f =>
      match float_value f with
      | Some q => (Qle_bool (inject_Z lo) q && Qle_bool q (inject_Z hi))%bool
      | None => false
      end
  | _ => false
  end.

(* ================================================================== *)
(** * Rounding to eight decimals

    [series.round(8)] on a column of floats is the numeric library's
    [round]: each value is multiplied by 10^8, rounded to an integer and
    divided by 10^8, in binary floating point. A float is a significand of
    at most 53 bits times a power of two; an operation gives the float
    nearest the exact result, a tie going to the even significand. The
    values are followed as rationals. *)

(** [q] rounded to the nearest integer, a tie going to the even one. *)
Definition Qhalf_even (q : Q) : Z :=
  let f := Qfloor q in
  match (q - inject_Z f ?= 1 # 2)%Q with
  | Lt => f
  | Gt => f + 1
  | Eq => if Z.even f then f else f + 1
  end.

(** The power of two that the last bit of the significand stands for in
    the float nearest [q >= 0]: the significand then has 53 bits, unless the
    power would be below -1074, where the floats are evenly spaced down to
    zero. *)
Definition binary_exponent (q : Q) : Z :=
  let e0 := Z.log2 (Qnum q) - Z.log2 (Zpos (Qden q)) - 52 in
  let e1 := if Qle_bool ((2 # 1) ^ 52) (q * (2 # 1) ^ (- e0))
            then e0 else e0 - 1 in
  Z.max e1 (-1074).

(** The value of the float nearest [q >= 0]; nothing when that float is
    infinite. *)
Definition nearest_binary64 (q : Q) : option Q :=
  let e := binary_exponent q in
  let v := (inject_Z (Qhalf_even (q * (2 # 1) ^ (- e))) * (2 # 1) ^ e)%Q in
  if Qle_bool ((2 # 1) ^ 1024) v then None else Some (Qred v).

(** The digits without their trailing zeros. *)
Fixpoint strip_zeros (ds : list digit) : list digit :=
  match ds with
  | [] => []
  | d :: t =>
      match strip_zeros t with
      | [] => match d with d0 => [] | _ => [d] end
      | t' => d :: t'
      end
  end.

(** The position of the decimal point of [q > 0], the [k] with
    [10^(k-1) <= q < 10^k]: the number of digits of the integer part,
    lowered while [q] is below [10^(k-1)]. *)
Fixpoint lower_exponent (fuel : nat) (q : Q) (k : Z) : Z :=
  if Qle_bool ((10 # 1) ^ (k - 1)) q then k
  else match fuel with
       | O => k
       | S fuel' => lower_exponent fuel' q (k - 1)
       end.

Definition decimal_exponent (q : Q) : Z :=
  lower_exponent 400 q (Z.of_nat (List.length (digits_of_Z (Qfloor q)))).

(** Whether the decimal [z * 10^g] reads back as the float of value [q]. *)
Definition reads_back (q : Q) (z g : Z) : bool :=
  match nearest_binary64 (inject_Z z * (10 # 1) ^ g) with
  | Some v => Qeq_bool v q
  | None => false
  end.

(** The shortest decimal that reads back as the float of value [q], as
    an integer and a power of ten: with one digit more at each turn, the two
    decimals around [q] are tried, and of those that read back the closer
    one is taken, the even one when they are as close. Seventeen digits
    always read back, so the search ends before its fuel does. *)
Fixpoint shortest_from (fuel : nat) (q : Q) (g : Z) : Z * Z :=
  let s := (q * (10 # 1) ^ (- g))%Q in
  let lo := Qfloor s in
  let exact := Qeq_bool (inject_Z lo) s in
  let a_lo := reads_back q lo g in
  let a_hi := (negb exact && reads_back q (lo + 1) g)%bool in
  if (a_lo && a_hi)%bool then
    match (s - inject_Z lo ?= 1 # 2)%Q with
    | Lt => (lo, g)
    | Gt => (lo + 1, g)
    | Eq => if Z.even lo then (lo, g) else (lo + 1, g)
    end
  else if a_lo then (lo, g)
  else if a_hi then (lo + 1, g)
  else match fuel with
       | O => (lo, g)
       | S fuel' => shortest_from fuel' q (g - 1)
       end.

(** The float of value [q >= 0] with the sign [neg], by its shortest
    digits. *)
Definition float_of_value (neg : bool) (q : Q) : pyfloat :=
  if Qeq_bool q 0 then FFin neg [d0] 1
  else
    let '(z, g) := shortest_from 16 q (decimal_exponent q - 1) in
    let ds := digits_of_Z z in
    FFin neg (strip_zeros ds) (Z.of_nat (List.length ds) + g).

(** [numpy.round(x, 8)]: [rint(x * 1e8) / 1e8], each operation rounded to
    the nearest float; a product too large for a float is infinite. The
    sign goes through unchanged, also on a zero. *)
Definition numpy_round8 (f : pyfloat) : pyfloat :=
  match f with
  | FFin neg ds decpt =>
      match nearest_binary64 (place_value ds decpt) with
      | None => FInf neg
      | Some x =>
          match nearest_binary64 (x * inject_Z (10 ^ 8)) with
          | None => FInf neg
          | Some y =>
              match nearest_binary64
                      (inject_Z (Qhalf_even y) / inject_Z (10 ^ 8)) with
              | None => FInf neg
              | Some w => float_of_value neg w
              end
          end
      end
  | _ => f
  end.

(* ================================================================== *)
(** * Calendar dates *)

(** [datetime(year, month, day)] of the standard library: a naive instant
    at midnight, and an exception ([None] here) for a year outside 1..9999, a
    month outside 1..12 or a day the month does not have. The exception is
    [ValueError], or [OverflowError] for a number that does not fit a machine
    integer; the two are not told apart. The ordinal of a date counts days
    from 1 January of year 1; the epoch, 1 January 1970, has ordinal 719163. *)
Definition is_leap (year : Z) : bool :=
  ((year mod 4 =? 0) && (negb (year mod 100 =? 0) || (year mod 400 =? 0)))%bool.

Definition days_before_year (year : Z) : Z :=
  let y := year - 1 in y * 365 + y / 4 - y / 100 + y / 400.

Definition DAYS_IN_MONTH : list Z :=
  [-1; 31; 28; 31; 30; 31; 30; 31; 31; 30; 31; 30; 31].

Definition DAYS_BEFORE_MONTH : list Z :=
  [-1; 0; 31; 59; 90; 120; 151; 181; 212; 243; 273; 304; 334].

Definition days_in_month (year month : Z) : Z :=
  if ((month =? 2) && is_leap year)%bool then 29
  else nth (Z.to_nat month) DAYS_IN_MONTH (-1).

Definition days_before_month (year month : Z) : Z :=
  nth (Z.to_nat month) DAYS_BEFORE_MONTH (-1) +
  (if ((2 <? month) && is_leap year)%bool then 1 else 0).

Definition ymd2ord (year month day : Z) : Z :=
  days_before_year year + days_before_month year month + day.

Definition nanoseconds_per_day : Z := 86400 * 1000000000.

Definition datetime (year month day : Z) : option timestamp :=
  if ((1 <=? year) && (year <=? 9999) && (1 <=? month) && (month <=? 12) &&
      (1 <=? day) && (day <=? days_in_month year month))%bool
  then Some {| ts_aware := false;
               ts_instant := (ymd2ord year month day - 719163) *
                             nanoseconds_per_day |}
  else None.

(** What a run of a [main] comes to. *)
Inductive main_outcome : Type :=
| DateError                                     (* [datetime] raised *)
| Running                                       (* the fetch has not ended *)
| Failed (files : list output) (e : exn)
| Completed (files : list output) (printed : list string).

(** [series.sum()] on a Boolean column: the number of [True] cells. *)
Definition series_sum (series : list pyval) : nat :=
  List.length (filter (fun v => pyval_eqb v (PBool true)) series).

(** [~series] on a Boolean column. *)
Definition series_invert (series : list pyval) : list pyval :=
  map (fun v => match v with PBool b => PBool (negb b) | _ => v end) series.

(** The column list after [df[c] = ...]. *)
Definition with_column (cols : list string) (c : string) : list string :=
  if mem_str c cols then cols else (cols ++ [c])%list.


(* ================================================================== *)
(** * Sample values *)

(** The coordinates of the specification's precision examples. *)
Definition f_12_345 : pyfloat := FFin false [d1; d2; d3; d4; d5] 2.
Definition f_12_12345678 : pyfloat :=
  FFin false [d1; d2; d1; d2; d3; d4; d5; d6; d7; d8] 2.
Definition f_12_3 : pyfloat := FFin false [d1; d2; d3] 2.
Definition f_12_0 : pyfloat := FFin false [d1; d2] 2.
Definition f_12_123456789 : pyfloat :=
  FFin false [d1; d2; d1; d2; d3; d4; d5; d6; d7; d8; d9] 2.

(** Two small coordinates that [repr] prints with an exponent:
    [1.23456e-05] and [1.5e-08]. *)
Definition f_1_23456e_05 : pyfloat := FFin false [d1; d2; d3; d4; d5; d6] (-4).
Definition f_1_5e_08 : pyfloat := FFin false [d1; d5] (-7).

Definition f_m45_6789 : pyfloat := FFin true [d4; d5; d6; d7; d8; d9] 2.

(** [1.2345e-07], and [1.2e-07], which it rounds to. *)
Definition f_1_2345e_07 : pyfloat := FFin false [d1; d2; d3; d4; d5] (-6).
Definition f_1_2e_07 : pyfloat := FFin false [d1; d2] (-6).

(** 2020-06-15, 2000-01-01 and 2023-12-31 at midnight, without time zone. *)
Definition ts_2020_06_15 : timestamp :=
  {| ts_aware := false; ts_instant := 1592179200000000000 |}.
Definition ts_2000_01_01 : timestamp :=
  {| ts_aware := false; ts_instant := 946684800000000000 |}.
Definition ts_2023_12_31 : timestamp :=
  {| ts_aware := false; ts_instant := 1703980800000000000 |}.

Definition onca_row (label : Z) (lat lon : pyfloat) (date : string) : row :=
  (label,
   [PStr "Panthera onca"; PFloat lat; PFloat lon; PStr "Brazil"; PStr date;
    PStr "HUMAN_OBSERVATION"; PStr "INPA"; PStr "det-1"; PStr "A. Silva"]).

(** Five occurrences: a good one, a copy of it, one whose latitude has a
    single decimal, one whose date is not a date, and one whose latitude has
    more than eight decimals. *)
Definition sample_frame : DataFrame :=
  {| columns := nine_columns;
     rows := [onca_row 0 f_12_345 f_m45_6789 "2020-06-15";
              onca_row 1 f_12_345 f_m45_6789 "2020-06-15";
              onca_row 2 f_12_3 f_m45_6789 "2020-06-15";
              onca_row 3 f_12_345 f_m45_6789 "not a date";
              onca_row 4 f_1_2345e_07 f_m45_6789 "2020-06-15"] |}.

Definition validated_row (label : Z) (lat : pyfloat) : row :=
  (label,
   [PStr "Panthera onca"; PFloat lat; PFloat f_m45_6789; PStr "Brazil";
    PTimestamp ts_2020_06_15;
    PStr "HUMAN_OBSERVATION"; PStr "INPA"; PStr "det-1"; PStr "A. Silva"]).

Definition sample_validated : DataFrame :=
  {| columns := nine_columns;
     rows := [validated_row 0 f_12_345; validated_row 1 f_12_345;
              validated_row 4 f_1_2e_07] |}.

Definition sample_cleaned : DataFrame :=
  {| columns := nine_columns;
     rows := [onca_row 0 f_12_345 f_m45_6789 "2020-06-15";
              onca_row 2 f_12_3 f_m45_6789 "2020-06-15";
              onca_row 3 f_12_345 f_m45_6789 "not a date";
              onca_row 4 f_1_2345e_07 f_m45_6789 "2020-06-15"] |}.

Definition sample_record : pydict :=
  [("key", PInt 4011960805); ("species", PStr "Panthera onca");
   ("decimalLatitude", PFloat f_12_345); ("decimalLongitude", PFloat f_m45_6789);
   ("country", PStr "Brazil"); ("eventDate", PStr "2020-06-15");
   ("basisOfRecord", PStr "HUMAN_OBSERVATION"); ("institutionCode", PStr "INPA");
   ("identificationID", PStr "det-1"); ("identifiedBy", PStr "A. Silva")].

(** Sample collaborators. *)
Definition sample_to_datetime (v : pyval) : dt_outcome :=
  match v with
  | PStr s => if String.eqb s "2020-06-15" then DtTimestamp ts_2020_06_15 else DtNaT
  | PNone => DtNone
  | _ => DtNaT
  end.

Definition sample_str_object (v : pyval) : string := "".

(** Pages of 5000, 5000 and 1200 records, then nothing. *)
Definition page_5000 : list pydict := repeat sample_record (Z.to_nat 5000).
Definition page_1200 : list pydict := repeat sample_record (Z.to_nat 1200).

Definition sample_search (n : nat) (name : string) (limit offset : Z)
  : result (list pydict) :=
  match n with
  | 0%nat | 1%nat => Ok page_5000
  | 2%nat => Ok page_1200
  | _ => Ok []
  end.

Definition empty_search (n : nat) (name : string) (limit offset : Z)
  : result (list pydict) := Ok [].

Definition one_record_search (n : nat) (name : string) (limit offset : Z)
  : result (list pydict) :=
  match n with
  | 0%nat => Ok [sample_record]
  | _ => Ok []
  end.

Definition sample_backbone (name : pyval) : result pydict :=
  if pyval_eqb name (PStr "Panthera onca")
  then Ok [("usageKey", PInt 5219426); ("matchType", PStr "EXACT")]
  else Ok [("matchType", PStr "NONE")].

(** A backbone whose match carries the usage key 0. *)
Definition zero_key_backbone (name : pyval) : result pydict :=
  Ok [("usageKey", PInt 0); ("matchType", PStr "EXACT")].

(** The first lookup finds a place, the second times out, the others find
    nothing. *)
Definition sample_reverse (i : nat) (lat lon : pyval) : result (option string) :=
  match i with
  | 0%nat => Ok (Some "Brazil")
  | 1%nat => Raise GeocoderTimedOut
  | _ => Ok None
  end.

Definition nowhere_reverse (i : nat) (lat lon : pyval) : result (option string) :=
  Ok None.

(** Boundary polygons of the samples: rectangles with integer corners. *)
Record box : Type := { x_min : Z; x_max : Z; y_min : Z; y_max : Z }.

Definition box_contains (b : box) (point : pyval) : bool :=
  match point with
  | PPoint (PFloat x) (PFloat y) =>
      (int_le_float (x_min b) x && float_le_int x (x_max b) &&
       int_le_float (y_min b) y && float_le_int y (y_max b))%bool
  | _ => false
  end.

Definition brazil_boxes : list box :=
  [{| x_min := -75; x_max := -50; y_min := -10; y_max := 5 |};
   {| x_min := -50; x_max := -34; y_min := -34; y_max := 20 |};
   {| x_min := -48; x_max := -40; y_min := 10; y_max := 15 |}].

Definition far_boxes : list box :=
  [{| x_min := 100; x_max := 120; y_min := 30; y_max := 40 |}].

(** The invariant of the data model in the specification's words: every
    row of [out] is, cell by cell on the columns the two frames share, a row
    of [inp]. *)
Definition rows_by_value (out inp : DataFrame) : Prop :=
  forall r', In r' (rows out) ->
    exists r, In r (rows inp) /\
      forall c, In c (columns out) -> In c (columns inp) ->
                cell_of (columns out) c r' = cell_of (columns inp) c r.

Definition f_1_0 : pyfloat := FFin false [d1] 1.





(** Three occurrences that differ in their identification only, which is
    the integer 1, the float 1.0 and the integer 2. *)
Definition numbered_row (label : Z) (identification : pyval) : row :=
  (label,
   [PStr "Panthera onca"; PFloat f_12_345; PFloat f_m45_6789; PStr "Brazil";
    PStr "2020-06-15"; PStr "HUMAN_OBSERVATION"; PStr "INPA"; identification;
    PStr "A. Silva"]).

Definition numbered_frame : DataFrame :=
  {| columns := nine_columns;
     rows := [numbered_row 0 (PInt 1); numbered_row 1 (PFloat f_1_0);
              numbered_row 2 (PInt 2)] |}.

(** The numbers that the texts of the samples spell: [12.345] is one, the
    other texts are none. *)
Definition sample_float_of_text (s : string) : option pyfloat :=
  if String.eqb s "12.345" then Some f_12_345 else None.

(** The conversion to [float64] of the other cells of the samples: a
    missing value becomes NaN, and a date is not converted. *)
Definition sample_float64 (v : pyval) : result pyfloat :=
  match v with
  | PNone => Ok FNaN
  | _ => Raise TypeError
  end.

(** A point whose latitude is a text that is not a number. *)
Definition unknown_latitude_frame : DataFrame :=
  {| columns := ["decimalLatitude"; "decimalLongitude"];
     rows := [(0, [PFloat f_12_345; PFloat f_m45_6789]);
              (1, [PStr "unknown"; PFloat f_m45_6789])] |}.

(** A service whose first request is served and whose second fails; one
    that always has one more record; a backbone that is down; and a geocoder
    that finds the first point, times out on the second and fails on the
    third. *)
Definition failing_search (n : nat) (name : string) (limit offset : Z)
  : result (list pydict) :=
  match n with
  | 0%nat => Ok [sample_record]
  | _ => Raise (ServiceError "503 Service Unavailable")
  end.

Definition endless_search (n : nat) (name : string) (limit offset : Z)
  : result (list pydict) := Ok [sample_record].

Definition failing_backbone (name : pyval) : result pydict :=
  Raise (ServiceError "backbone unavailable").

Definition failing_reverse (i : nat) (lat lon : pyval)
  : result (option string) :=
  match i with
  | 0%nat => Ok (Some "Brazil")
  | 1%nat => Raise GeocoderTimedOut
  | _ => Raise (ServiceError "geocoder unavailable")
  end.

(** One occurrence whose latitude is a text. *)
Definition text_latitude_frame : DataFrame :=
  {| columns := nine_columns;
     rows := [(0, [PStr "Panthera onca"; PStr "12.345"; PFloat f_m45_6789;
                   PStr "Brazil"; PStr "2020-06-15"; PStr "HUMAN_OBSERVATION";
                   PStr "INPA"; PStr "det-1"; PStr "A. Silva"])] |}.


(* ================================================================== *)
(** * The programs *)

Section Pipeline.

Set Default Proof Using "Type".

(** Collaborators outside the repository. A service is a function of the
    number of calls already made to it and of the call's arguments, so that
    two calls with equal arguments may be answered differently. *)

(** [occurrences.search(scientificName, limit, offset)['results']] *)
Variable search : nat -> string -> Z -> Z -> result (list pydict).
(** [species.name_backbone(name)] *)
Variable name_backbone : pyval -> result pydict.
(** [geolocator.reverse((lat, lon), timeout=10)]: a location, [None], or an
    exception, [GeocoderTimedOut] among them. *)
Variable reverse : nat -> pyval -> pyval -> result (option string).
(** [pd.to_datetime(x, errors='coerce')] *)
Variable to_datetime : pyval -> dt_outcome.
(** [round(8)] of one float of a numeric series; the numeric library's is
    [numpy_round8]. *)
Variable round8 : pyfloat -> pyfloat.
(** [str] of the values whose text the programs never inspect. *)
Variable str_object : pyval -> string.
(** A boundary geometry and shapely's [contains]. *)
Variable geometry : Type.
Variable contains : geometry -> pyval -> bool.
(** [float(text)]: the number a text spells, [None] when it spells none. *)
Variable float_of_text : string -> option pyfloat.
(** [np.asarray(column, dtype='float64')] on one cell that is neither a
    float nor a text: the float it is converted to, or the exception
    raised. *)
Variable float64 : pyval -> result pyfloat.

(** Propositional steps are taken with the collaborators out of sight, so
    that a fact depends only on the collaborators it mentions. *)
Ltac forget_collaborators :=
  try clear search; try clear name_backbone; try clear reverse;
  try clear to_datetime; try clear round8; try clear str_object;
  try clear contains; try clear float_of_text; try clear float64.
Ltac ptauto := forget_collaborators; tauto.

(** [str(value)] *)
Definition py_str (value : pyval) : string :=
  match value with
  | PNone => "None"
  | PNaT => "NaT"
  | PBool b => if b then "True" else "False"
  | PInt n => int_str n
  | PFloat f => float_str f
  | PStr s => s
  | PTimestamp _ | PPoint _ _ => str_object value
  end.

(** ** [fetch_all_gbif_data] *)

(** The [while True] loop. [n] counts the requests made so far and
    [requests] records their offsets; [None] is the loop still running when
    the fuel is spent. *)
Fixpoint fetch_loop (fuel n : nat) (species_name : string) (limit offset : Z)
    (all_records : list pydict) (requests : list Z)
  : option (list Z * result (list pydict)) :=
  match fuel with
  | O => None
  | S fuel' =>
      match search n species_name limit offset with
      | Raise e => Some ((requests ++ [offset])%list, Raise e)
      | Ok [] => Some ((requests ++ [offset])%list, Ok all_records)
      | Ok records =>
          fetch_loop fuel' (S n) species_name limit (offset + limit)
            (all_records ++ records)%list (requests ++ [offset])%list
      end
  end.

Definition gbif_url (species_name : string) : string :=
  "https://www.gbif.org/occurrence/search?scientificName=" ++
  str_replace species_name " " "%20".

Definition fetch_all_gbif_data (fuel : nat) (species_name : string)
    (limit_per_request : Z)
  : option (list Z * result (DataFrame * string)) :=
  match fetch_loop fuel 0 species_name limit_per_request 0 [] [] with
  | None => None
  | Some (requests, Raise e) => Some (requests, Raise e)
  | Some (requests, Ok all_records) =>
      Some (requests, Ok (DataFrame_of_records all_records, gbif_url species_name))
  end.

(** ** [initial_cleaning] *)

Definition initial_cleaning (df : DataFrame) : result DataFrame :=
  df <- select df nine_columns ;;
  Ok (drop_duplicates df).

(** ** [validate_data] *)

Definition valid_decimals (value : pyval) : bool :=
  match nth_error (split_char dot (py_str value)) 1 with
  | Some decimal_places =>
      ((3 <=? String.length decimal_places)%nat &&
       (String.length decimal_places <=? 8)%nat)%bool
  | None => false                                     (* IndexError *)
  end.

(** One cell of [series.between(lo, hi)]: a missing value compares false,
    text and dates cannot be ordered against an integer. *)
Definition between (lo hi : Z) (v : pyval) : result bool :=
  match v with
  | PInt n => Ok ((lo <=? n) && (n <=? hi))%bool
  | PBool b => Ok ((lo <=? Z.b2z b) && (Z.b2z b <=? hi))%bool
  | PFloat f => Ok (int_le_float lo f && float_le_int f hi)%bool
  | PNone | PNaT => Ok false
  | PStr _ | PTimestamp _ | PPoint _ _ => Raise TypeError
  end.

(** One cell of [series.round(8)] on a column of numbers: a float is
    rounded, an integer is left as it is. *)
Definition round_cell (v : pyval) : pyval :=
  match v with
  | PFloat f => PFloat (round8 f)
  | _ => v
  end.

Definition is_valid_date (min_date max_date : timestamp) (date : pyval) : pyval :=
  match to_datetime date with
  | DtTimestamp t =>
      match ts_le min_date t with
      | Some true =>
          match ts_le t max_date with
          | Some true => PTimestamp t
          | _ => PNaT
          end
      | _ => PNaT
      end
  | DtNaT | DtNone | DtRaise => PNaT
  end.

Definition validate_data (df : DataFrame) (min_date max_date : timestamp)
  : result (DataFrame * nat * nat * nat) :=
  let initial_count := len df in
  lat <- getitem df "decimalLatitude" ;;
  lat_range <- mapM (between (-90) 90) lat ;;
  lon <- getitem df "decimalLongitude" ;;
  lon_range <- mapM (between (-180) 180) lon ;;
  let mask := and_mask (and_mask (and_mask lat_range lon_range)
                                 (map valid_decimals lat))
                       (map valid_decimals lon) in
  let df := filter_mask df mask in
  lat <- getitem df "decimalLatitude" ;;
  let df := set_column df "decimalLatitude" (map round_cell lat) in
  lon <- getitem df "decimalLongitude" ;;
  let df := set_column df "decimalLongitude" (map round_cell lon) in
  let coord_valid_count := len df in
  dates <- getitem df "eventDate" ;;
  let df := set_column df "eventDate"
              (map (is_valid_date min_date max_date) dates) in
  dates <- getitem df "eventDate" ;;
  let df := filter_mask df (map notnull dates) in
  let date_valid_count := len df in
  Ok (df, initial_count, coord_valid_count, date_valid_count).

(** ** [validate_taxonomic_name] and [taxonomic_validation] *)

Definition validate_taxonomic_name (name : pyval) : result pyval :=
  match_ <- name_backbone name ;;
  matchType <- dict_get match_ "matchType" ;;
  if negb (pyval_eqb matchType (PStr "NONE"))
  then dict_get match_ "usageKey"
  else Ok PNone.

Fixpoint taxonomic_loop (names valid_species : list pyval)
  : result (list pyval) :=
  match names with
  | [] => Ok valid_species
  | name :: rest =>
      key <- validate_taxonomic_name name ;;
      taxonomic_loop rest
        (if truthy key then (valid_species ++ [name])%list else valid_species)
  end.

Definition taxonomic_validation (df : DataFrame) : result (DataFrame * nat) :=
  species <- getitem df "species" ;;
  valid_species <- taxonomic_loop (unique species) [] ;;
  species <- getitem df "species" ;;
  Ok (filter_mask df (isin valid_species species), List.length valid_species).

(** ** [validate_georeferencing] *)

Definition geocode_point (i : nat) (lat lon : pyval) : result bool :=
  match reverse i lat lon with
  | Ok (Some _) => Ok true
  | Ok None => Ok false
  | Raise GeocoderTimedOut => Ok false
  | Raise e => Raise e
  end.

(** The loop over [df.iterrows()]; the [i]-th row makes the [i]-th lookup. *)
Fixpoint georef_loop (cols : list string) (i : nat) (rs : list row)
    (valid_geolocation : list row) : result (list row) :=
  match rs with
  | [] => Ok valid_geolocation
  | r :: rest =>
      lat <- row_get cols r "decimalLatitude" ;;
      lon <- row_get cols r "decimalLongitude" ;;
      found <- geocode_point i lat lon ;;
      georef_loop cols (S i) rest
        (if found then (valid_geolocation ++ [r])%list else valid_geolocation)
  end.

Definition validate_georeferencing (df : DataFrame) : result DataFrame :=
  valid_geolocation <- georef_loop (columns df) 0 (rows df) [] ;;
  Ok (DataFrame_of_rows (columns df) valid_geolocation).

(** ** [enrich_data] *)

Definition enrich_data (df : DataFrame) : DataFrame :=
  set_column df "dataSource" (repeat (PStr "GBIF") (len df)).

(** ** [curate_data] *)

Definition nat_str (n : nat) : string := int_str (Z.of_nat n).

Definition newline : string := String (ascii_of_nat 10) EmptyString.

Definition file_stem (species_name : string) : string :=
  str_replace species_name " " "_".

Definition report_text (species_name url : string)
    (initial_count coord_valid_count date_valid_count georef_count
     valid_species_count curated_count : nat) : string :=
  "Species: " ++ species_name ++ newline ++
  "GBIF Data URL: " ++ url ++ newline ++
  "Total records fetched: " ++ nat_str initial_count ++ newline ++
  "Records after coordinate validation: " ++ nat_str coord_valid_count ++ newline ++
  "Records after date validation: " ++ nat_str date_valid_count ++ newline ++
  "Records after georeferencing validation: " ++ nat_str georef_count ++ newline ++
  "Valid species names found: " ++ nat_str valid_species_count ++ newline ++
  "Total curated records: " ++ nat_str curated_count ++ newline.

(** The stages between the two [to_csv] calls. *)
Definition curate_stages (species_name url : string) (raw_data : DataFrame)
    (min_date max_date : timestamp) : result (DataFrame * string) :=
  cleaned_data <- initial_cleaning raw_data ;;
  '(validated_data, initial_count, coord_valid_count, date_valid_count) <-
      validate_data cleaned_data min_date max_date ;;
  validated_georeferencing_data <- validate_georeferencing validated_data ;;
  '(taxonomically_validated_data, valid_species_count) <-
      taxonomic_validation validated_georeferencing_data ;;
  let enriched_data := enrich_data taxonomically_validated_data in
  Ok (enriched_data,
      report_text species_name url initial_count coord_valid_count
        date_valid_count (len validated_georeferencing_data)
        valid_species_count (len enriched_data)).

(** A run yields the files written, in order, and the returned frame or the
    exception that ended it; [None] when the fetch loop does not end within
    the fuel. Failures of the file system are not modelled. *)
Definition curate_data (fuel : nat) (species_name : string)
    (min_date max_date : timestamp) (limit_per_request : Z)
  : option (list output * result DataFrame) :=
  match fetch_all_gbif_data fuel species_name limit_per_request with
  | None => None
  | Some (_, Raise e) => Some ([], Raise e)
  | Some (_, Ok (raw_data, url)) =>
      let raw_file :=
        CsvFile (file_stem species_name ++ "_gbif_raw_data.csv") raw_data in
      match curate_stages species_name url raw_data min_date max_date with
      | Raise e => Some ([raw_file], Raise e)
      | Ok (enriched_data, report) =>
          Some ([raw_file;
                 CsvFile (file_stem species_name ++ "_gbif_curated_data.csv")
                   enriched_data;
                 TextFile (file_stem species_name ++ "_gbif_report.txt") report],
                Ok enriched_data)
      end
  end.

(** ** [validate_points_within_shapefile] *)

(** One cell of a column converted to [float64]: a float is kept, a text
    is read as a number and raises [ValueError] when it is not one, and any
    other cell is left to the library. *)
Definition to_float64 (v : pyval) : result pyfloat :=
  match v with
  | PFloat f => Ok f
  | PStr s =>
      match float_of_text s with
      | Some f => Ok f
      | None => Raise ValueError
      end
  | _ => float64 v
  end.

(** [shapely.points(x, y)] *)
Fixpoint shapely_points (x y : list pyfloat) : list pyval :=
  match x, y with
  | a :: x', b :: y' => PPoint (PFloat a) (PFloat b) :: shapely_points x' y'
  | _, _ => []
  end.

(** [gpd.points_from_xy(x, y)]: the two columns are converted to floats,
    [x] first, and paired. *)
Definition points_from_xy (x y : list pyval) : result (list pyval) :=
  x <- mapM to_float64 x ;;
  y <- mapM to_float64 y ;;
  Ok (shapely_points x y).

(** [any(shp.contains(point))] *)
Definition within_any (shp : list geometry) (point : pyval) : bool :=
  existsb (fun polygon => contains polygon point) shp.

(** [apply(..., axis=1)] over a frame without rows does not call the
    function: it returns a copy of the frame, and a frame of several columns
    cannot be assigned to the one column [within_shapefile]. *)
Definition validate_points_within_shapefile (df : DataFrame)
    (shp : list geometry) : result DataFrame :=
  xs <- getitem df "decimalLongitude" ;;
  ys <- getitem df "decimalLatitude" ;;
  points <- points_from_xy xs ys ;;
  let gdf_points := set_column df "geometry" points in
  match rows gdf_points with
  | [] => Raise ValueError
  | _ :: _ =>
      geoms <- getitem gdf_points "geometry" ;;
      Ok (set_column gdf_points "within_shapefile"
            (map (fun g => PBool (within_any shp g)) geoms))
  end.

(** A number whose text is written without an exponent: an integer, a
    float that [repr] prints positionally, an infinity or NaN. *)
Definition positional (v : pyval) : bool :=
  match v with
  | PInt _ => true
  | PFloat (FFin _ _ decpt) => ((-4 <? decpt) && (decpt <=? 16))%bool
  | PFloat _ => true
  | _ => false
  end.


(** A name is accepted when the backbone answers with a classification
    other than ['NONE'] and with a usage key that is truthy. *)
Definition name_accepted (name : pyval) : bool :=
  match name_backbone name with
  | Ok match_ =>
      match dict_find "matchType" match_, dict_find "usageKey" match_ with
      | Some matchType, Some usageKey =>
          (negb (pyval_eqb matchType (PStr "NONE")) && truthy usageKey)%bool
      | _, _ => false
      end
  | Raise _ => false
  end.

(** The backbone classifies the name, and not as ['NONE']. *)
Definition name_matched (name : pyval) : bool :=
  match name_backbone name with
  | Ok match_ =>
      match dict_find "matchType" match_ with
      | Some matchType => negb (pyval_eqb matchType (PStr "NONE"))
      | None => false
      end
  | Raise _ => false
  end.

(** The lookup numbered [i], made for row [r], returns a location. *)
Definition located (cols : list string) (i : nat) (r : row) : bool :=
  match reverse i (cell_of cols "decimalLatitude" r)
                  (cell_of cols "decimalLongitude" r) with
  | Ok (Some _) => true
  | _ => false
  end.

(** The rows that pass a test which also sees their position. *)
Fixpoint filter_from (i : nat) (p : nat -> row -> bool) (rs : list row)
  : list row :=
  match rs with
  | [] => []
  | r :: rest =>
      if p i r then r :: filter_from (S i) p rest
      else filter_from (S i) p rest
  end.

(** A cell that can be ordered against an integer: anything but a text, a
    date or a point. *)
Definition orderable (v : pyval) : bool :=
  match v with
  | PStr _ | PTimestamp _ | PPoint _ _ => false
  | _ => true
  end.

(** The backbone answers for [name] with a match that has a classification
    and, unless the classification is ['NONE'], a usage key. *)
Definition answered (name : pyval) : Prop :=
  exists match_ matchType,
    name_backbone name = Ok match_ /\
    dict_find "matchType" match_ = Some matchType /\
    (matchType = PStr "NONE" \/
     exists usageKey, dict_find "usageKey" match_ = Some usageKey).

(** The test a row has to pass at the coordinate stage. *)
Definition coord_ok (cols : list string) (r : row) : bool :=
  let lat := cell_of cols "decimalLatitude" r in
  let lon := cell_of cols "decimalLongitude" r in
  (match between (-90) 90 lat with Ok b => b | Raise _ => false end &&
   match between (-180) 180 lon with Ok b => b | Raise _ => false end &&
   valid_decimals lat && valid_decimals lon)%bool.

(** ** Definitions used to state the facts below *)

(** Digits before and after the point of a float printed positionally. *)
Definition int_part (ds : list digit) (decpt : Z) : list digit :=
  if decpt <=? 0 then [d0]
  else if decpt <=? Z.of_nat (List.length ds) then firstn (Z.to_nat decpt) ds
  else (ds ++ repeat d0 (Z.to_nat (decpt - Z.of_nat (List.length ds))))%list.

Definition frac_part (ds : list digit) (decpt : Z) : list digit :=
  let n := Z.of_nat (List.length ds) in
  let pad := repeat d0 (Z.to_nat (Z.max n (decpt + 1) - n)) in
  if decpt <=? 0 then (repeat d0 (Z.to_nat (- decpt)) ++ ds ++ pad)%list
  else if decpt <=? n then (skipn (Z.to_nat decpt) ds ++ pad)%list
  else [d0].

Definition ok_or_false (m : result bool) : bool :=
  match m with Ok b => b | Raise _ => false end.

(** Rewrite one cell of a row. *)
Definition update_cell (i : nat) (g : pyval -> pyval) (r : row) : row :=
  (fst r, set_nth i (g (cell i r)) (snd r)).

(** What the stage does to a row that is kept. *)
Definition validated_rows (i j k : nat) (min_date max_date : timestamp)
    (cols : list string) (rs : list row) : list row :=
  filter (fun r => notnull (cell k r))
    (map (update_cell k (is_valid_date min_date max_date))
       (map (update_cell j round_cell)
          (map (update_cell i round_cell) (filter (coord_ok cols) rs)))).

(** The coordinate test in the specification's words: the latitude and the
    longitude lie in their intervals, bounds included, and each passes the
    precision check. *)
Definition coord_spec (cols : list string) (r : row) : bool :=
  (within (-90) 90 (cell_of cols "decimalLatitude" r) &&
   within (-180) 180 (cell_of cols "decimalLongitude" r) &&
   valid_decimals (cell_of cols "decimalLatitude" r) &&
   valid_decimals (cell_of cols "decimalLongitude" r))%bool.


(** The occurrence service answers the requests numbered [n], [n+1], ...
    at offsets [offset], [offset + p], ... with the non-empty [pages], one
    after the other, and the next request with an empty page. *)
Fixpoint serves_from (n : nat) (species_name : string) (p offset : Z)
    (pages : list (list pydict)) : Prop :=
  match pages with
  | [] => search n species_name p offset = Ok []
  | page :: rest =>
      search n species_name p offset = Ok page /\ page <> [] /\
      serves_from (S n) species_name p (offset + p) rest
  end.

Fixpoint offsets_from (offset p : Z) (count : nat) : list Z :=
  match count with
  | O => []
  | S count' => offset :: offsets_from (offset + p) p count'
  end.

(** The backbone's answer for [name] carries the classification
    [matchType] and the usage key [usageKey]. *)
Definition classified (name matchType usageKey : pyval) : Prop :=
  exists match_,
    name_backbone name = Ok match_ /\
    dict_find "matchType" match_ = Some matchType /\
    dict_find "usageKey" match_ = Some usageKey.

(** The position at which [set_column] writes column [c]. *)
Definition column_slot (df : DataFrame) (c : string) : nat :=
  match index_of c (columns df) with
  | Some i => i
  | None => List.length (columns df)
  end.

(** ** The two [main] functions *)

(** [main] of [gbifcurador.py], from the point where the three answers
    have been read and the two years parsed by [int]: the species name, then
    the maximum year, then the minimum year. *)
Definition main (fuel : nat) (species_name : string) (max_year min_year : Z)
  : main_outcome :=
  match datetime min_year 1 1 with
  | None => DateError
  | Some min_date =>
      match datetime max_year 12 31 with
      | None => DateError
      | Some max_date =>
          match curate_data fuel species_name min_date max_date 5000 with
          | None => Running
          | Some (files, Raise e) => Failed files e
          | Some (files, Ok curated_data) =>
              Completed files
                ["Curated data for " ++ species_name ++ " has been saved."]
          end
      end
  end.

(** [main] of [vsSHP_BUFFER.py], from the point where [load_data] has read
    the points and the boundary set. *)
Definition vsSHP_BUFFER_main (df : DataFrame) (shp : list geometry)
  : result (list output * list string) :=
  validated_gdf <- validate_points_within_shapefile df shp ;;
  inside <- getitem validated_gdf "within_shapefile" ;;
  outside <- getitem validated_gdf "within_shapefile" ;;
  Ok ([CsvFile "validated_points_within_shapefile.csv" validated_gdf],
      ["Validation complete. Points within shapefile: " ++
         nat_str (series_sum inside) ++
         ". Points not within shapefile: " ++
         nat_str (series_sum (series_invert outside)) ++ ".";
       "Results saved to 'validated_points_within_shapefile.csv'."]).

(** ** Definitions used to state further facts *)

(** The float a cell is converted to, for a cell that converts. *)
Definition converted (v : pyval) : pyfloat :=
  match to_float64 v with
  | Ok f => f
  | Raise _ => FNaN
  end.

(** The service answers the successive requests with the non-empty [pages]
    and fails on the next one with [e]. *)
Fixpoint fails_after (n : nat) (species_name : string) (p offset : Z)
    (pages : list (list pydict)) (e : exn) : Prop :=
  match pages with
  | [] => search n species_name p offset = Raise e
  | page :: rest =>
      search n species_name p offset = Ok page /\ page <> [] /\
      fails_after (S n) species_name p (offset + p) rest e
  end.


(* ================================================================ *)
(** * Facts about texts *)

Lemma string_app_assoc (a b c : string) : (a ++ b) ++ c = a ++ (b ++ c).
Proof. induction a as [|x a IH]; simpl; [reflexivity | now rewrite IH]. Qed.

Lemma string_app_nil_r (a : string) : a ++ "" = a.
Proof. induction a as [|x a IH]; simpl; [reflexivity | now rewrite IH]. Qed.

Lemma digits_str_app (a b : list digit) :
  digits_str (a ++ b) = digits_str a ++ digits_str b.
Proof. induction a as [|x a IH]; simpl; [reflexivity | now rewrite IH]. Qed.

Lemma digits_str_length (ds : list digit) :
  String.length (digits_str ds) = List.length ds.
Proof. induction ds as [|x ds IH]; simpl; [reflexivity | now rewrite IH]. Qed.

Lemma digit_char_not_dot (d : digit) : Ascii.eqb (digit_char d) dot = false.
Proof. destruct d; reflexivity. Qed.

Lemma digit_char_is_digit (d : digit) : is_digit (digit_char d) = true.
Proof. destruct d; reflexivity. Qed.

Lemma leading_digits_digits (ds : list digit) :
  leading_digits (digits_str ds) = List.length ds.
Proof.
  induction ds as [|x ds IH]; simpl; [reflexivity |].
  now rewrite digit_char_is_digit, IH.
Qed.

Lemma split_digits (ds : list digit) :
  split_char dot (digits_str ds) = [digits_str ds].
Proof.
  induction ds as [|x ds IH]; simpl; [reflexivity |].
  now rewrite digit_char_not_dot, IH.
Qed.

Lemma split_digits_dot (a : list digit) (t : string) :
  split_char dot (digits_str a ++ String dot t) =
  digits_str a :: split_char dot t.
Proof.
  induction a as [|x a IH]; simpl; [reflexivity |].
  now rewrite digit_char_not_dot, IH.
Qed.

Lemma after_point_digits (ds : list digit) : after_point (digits_str ds) = None.
Proof.
  induction ds as [|x ds IH]; simpl; [reflexivity |].
  now rewrite digit_char_not_dot.
Qed.

Lemma after_point_digits_dot (a : list digit) (t : string) :
  after_point (digits_str a ++ String dot t) = Some t.
Proof.
  induction a as [|x a IH]; simpl; [reflexivity |].
  now rewrite digit_char_not_dot.
Qed.

Lemma strip_trailing_dot_app (s t : string) :
  t <> EmptyString ->
  strip_trailing_dot (s ++ t) = s ++ strip_trailing_dot t.
Proof.
  intros Ht. induction s as [|c s IH]; [reflexivity |].
  change (String c s ++ t) with (String c (s ++ t)).
  change (String c s ++ strip_trailing_dot t)
    with (String c (s ++ strip_trailing_dot t)).
  rewrite <- IH.
  destruct (s ++ t) as [|a u] eqn:E.
  - destruct s; simpl in E; [contradiction | discriminate].
  - reflexivity.
Qed.

Lemma strip_trailing_dot_digits (ds : list digit) :
  strip_trailing_dot (digits_str ds) = digits_str ds.
Proof.
  induction ds as [|d ds IH]; [reflexivity |].
  destruct ds as [|e ds].
  - simpl. now rewrite digit_char_not_dot.
  - change (digits_str (d :: e :: ds))
      with (String (digit_char d) (digits_str (e :: ds))).
    change (strip_trailing_dot (String (digit_char d) (digits_str (e :: ds))))
      with (String (digit_char d) (strip_trailing_dot (digits_str (e :: ds)))).
    now rewrite IH.
Qed.

(* ================================================================ *)
(** * The text of a positional float *)

Lemma frac_part_nonempty (ds : list digit) (decpt : Z) :
  frac_part ds decpt <> [].
Proof.
  unfold frac_part.
  destruct (decpt <=? 0) eqn:E0.
  - apply Z.leb_le in E0. destruct ds as [|d ds].
    + simpl List.length. simpl Z.of_nat.
      destruct (Z.eq_dec decpt 0) as [->|Hn].
      * simpl. discriminate.
      * destruct (Z.to_nat (- decpt)) eqn:En; [lia | simpl; discriminate].
    + intros H. apply app_eq_nil in H. destruct H as [_ H].
      apply app_eq_nil in H. destruct H as [H _]. discriminate.
  - apply Z.leb_gt in E0.
    destruct (decpt <=? Z.of_nat (List.length ds)) eqn:E1; [| discriminate].
    apply Z.leb_le in E1.
    destruct (Z.eq_dec decpt (Z.of_nat (List.length ds))) as [He|Hn].
    + rewrite He. replace (Z.max _ _ - _) with 1 by lia.
      intros H. apply app_eq_nil in H. destruct H as [_ H]. discriminate.
    + intros H. apply app_eq_nil in H. destruct H as [H _].
      apply (f_equal (@List.length digit)) in H.
      rewrite length_skipn in H. simpl in H. lia.
Qed.

Lemma format_float_positional (neg : bool) (ds : list digit) (decpt : Z) :
  -4 < decpt <= 16 ->
  format_float_short neg ds decpt =
  (if neg then "-" else "") ++
  digits_str (int_part ds decpt) ++ String dot (digits_str (frac_part ds decpt)).
Proof.
  intros [Hlo Hhi].
  pose proof (frac_part_nonempty ds decpt) as Hne.
  unfold format_float_short.
  replace (decpt <=? -4) with false by (symmetry; apply Z.leb_gt; lia).
  replace (16 <? decpt) with false by (symmetry; apply Z.ltb_ge; lia).
  cbn [orb]. cbv zeta.
  assert (Hbody :
    (if decpt <=? 0
     then zeros (decpt - (if decpt <=? 0 then decpt - 1 else 0)) ++
          "." ++ zeros (0 - decpt)
     else zeros (0 - (if decpt <=? 0 then decpt - 1 else 0))) ++
    (if ((0 <? decpt) && (decpt <=? Z.of_nat (List.length ds)))%bool
     then digits_str (firstn (Z.to_nat decpt) ds) ++ "." ++
          digits_str (skipn (Z.to_nat decpt) ds)
     else digits_str ds) ++
    (if Z.of_nat (List.length ds) <? decpt
     then zeros (decpt - Z.of_nat (List.length ds)) ++ "." ++
          zeros (Z.max (Z.of_nat (List.length ds)) (decpt + 1) - decpt)
     else zeros (Z.max (Z.of_nat (List.length ds)) (decpt + 1) -
                 Z.of_nat (List.length ds))) =
    digits_str (int_part ds decpt) ++
    String dot (digits_str (frac_part ds decpt))).
  { unfold int_part, frac_part, zeros.
    destruct (decpt <=? 0) eqn:E0.
    - apply Z.leb_le in E0.
      replace (0 <? decpt) with false by (symmetry; apply Z.ltb_ge; lia).
      replace (Z.of_nat (List.length ds) <? decpt) with false
        by (symmetry; apply Z.ltb_ge; lia).
      cbn [andb].
      replace (decpt - (decpt - 1)) with 1 by lia.
      replace (0 - decpt) with (- decpt) by lia.
      rewrite !digits_str_app. simpl.
      now rewrite ?string_app_assoc.
    - apply Z.leb_gt in E0.
      replace (0 <? decpt) with true by (symmetry; apply Z.ltb_lt; lia).
      cbn [andb].
      replace (0 - 0) with 0 by lia.
      destruct (decpt <=? Z.of_nat (List.length ds)) eqn:E1.
      + apply Z.leb_le in E1.
        replace (Z.of_nat (List.length ds) <? decpt) with false
          by (symmetry; apply Z.ltb_ge; lia).
        rewrite !digits_str_app. simpl.
        now rewrite ?string_app_assoc.
      + apply Z.leb_gt in E1.
        replace (Z.of_nat (List.length ds) <? decpt) with true
          by (symmetry; apply Z.ltb_lt; lia).
        replace (Z.max (Z.of_nat (List.length ds)) (decpt + 1) - decpt)
          with 1 by lia.
        rewrite !digits_str_app. simpl.
        now rewrite ?string_app_assoc. }
  rewrite Hbody, string_app_nil_r. f_equal.
  destruct (frac_part ds decpt) as [|d fs]; [contradiction |].
  change (String dot (digits_str (d :: fs)))
    with ("." ++ digits_str (d :: fs)).
  rewrite (strip_trailing_dot_app (digits_str (int_part ds decpt)))
    by discriminate.
  rewrite (strip_trailing_dot_app ".") by discriminate.
  now rewrite strip_trailing_dot_digits.
Qed.

(* ================================================================ *)
(** * The precision check *)

Lemma split_no_point (s : string) :
  after_point s = None -> split_char dot s = [s].
Proof.
  induction s as [|c s IH]; simpl; [reflexivity |].
  destruct (Ascii.eqb c dot); [discriminate |].
  intros H. now rewrite (IH H).
Qed.

Lemma valid_decimals_no_point (v : pyval) :
  after_point (py_str v) = None -> valid_decimals v = false.
Proof.
  intros H. unfold valid_decimals. now rewrite (split_no_point _ H).
Qed.

Lemma precision_rule_no_point (s : string) :
  after_point s = None -> precision_rule s = false.
Proof. intros H. unfold precision_rule, fraction_digits. now rewrite H. Qed.

Lemma int_str_no_point (n : Z) : after_point (int_str n) = None.
Proof.
  unfold int_str. destruct (n <? 0); simpl; apply after_point_digits.
Qed.

Lemma signed_split (neg : bool) (a b : list digit) :
  split_char dot ((if neg then "-" else "") ++
                  digits_str a ++ String dot (digits_str b)) =
  [(if neg then "-" else "") ++ digits_str a; digits_str b].
Proof.
  destruct neg; simpl; now rewrite split_digits_dot, split_digits.
Qed.

Lemma signed_after_point (neg : bool) (a b : list digit) :
  after_point ((if neg then "-" else "") ++
               digits_str a ++ String dot (digits_str b)) =
  Some (digits_str b).
Proof. destruct neg; simpl; apply after_point_digits_dot. Qed.

(** For a float printed positionally both counts are the number of digits
    of its fractional part. *)
Lemma valid_decimals_float_positional (neg : bool) (ds : list digit) (decpt : Z) :
  -4 < decpt <= 16 ->
  valid_decimals (PFloat (FFin neg ds decpt)) =
  ((3 <=? List.length (frac_part ds decpt))%nat &&
   (List.length (frac_part ds decpt) <=? 8)%nat)%bool.
Proof.
  intros H. unfold valid_decimals, py_str, float_str.
  rewrite (format_float_positional neg ds H), signed_split. simpl.
  now rewrite digits_str_length.
Qed.

Lemma precision_rule_float_positional (neg : bool) (ds : list digit) (decpt : Z) :
  -4 < decpt <= 16 ->
  precision_rule (float_str (FFin neg ds decpt)) =
  ((3 <=? List.length (frac_part ds decpt))%nat &&
   (List.length (frac_part ds decpt) <=? 8)%nat)%bool.
Proof.
  intros H. unfold precision_rule, fraction_digits, float_str.
  rewrite (format_float_positional neg ds H), signed_after_point. simpl.
  now rewrite leading_digits_digits.
Qed.

Lemma valid_decimals_positional (v : pyval) :
  positional v = true -> valid_decimals v = precision_rule (py_str v).
Proof.
  destruct v as [| | b | n | f | s | t | x y]; try discriminate.
  - intros _.
    rewrite valid_decimals_no_point by apply int_str_no_point.
    simpl py_str. now rewrite precision_rule_no_point by apply int_str_no_point.
  - destruct f as [| neg | neg ds decpt]; intros H.
    + reflexivity.
    + destruct neg; reflexivity.
    + simpl in H. apply andb_true_iff in H. destruct H as [H1 H2].
      apply Z.ltb_lt in H1. apply Z.leb_le in H2.
      rewrite valid_decimals_float_positional by lia.
      change (py_str (PFloat (FFin neg ds decpt)))
        with (float_str (FFin neg ds decpt)).
      now rewrite precision_rule_float_positional by lia.
Qed.

(* ================================================================ *)
(** * Facts about frames *)

Lemma mask_rows_map {A} (f : A -> bool) (l : list A) :
  mask_rows l (map f l) = filter f l.
Proof.
  induction l as [|a l IH]; simpl; [reflexivity |].
  destruct (f a); now rewrite IH.
Qed.

Lemma and_mask_map {A} (f g : A -> bool) (l : list A) :
  and_mask (map f l) (map g l) = map (fun a => (f a && g a)%bool) l.
Proof. induction l as [|a l IH]; simpl; [reflexivity | now rewrite IH]. Qed.

Lemma mapM_ok_map {A} (f : A -> result bool) (l : list A) (bs : list bool) :
  mapM f l = Ok bs -> bs = map (fun a => ok_or_false (f a)) l.
Proof.
  revert bs. induction l as [|a l IH]; simpl; intros bs H.
  - now inversion H.
  - destruct (f a) as [b|e]; simpl in H; [| discriminate].
    destruct (mapM f l) as [bs'|e]; simpl in H; [| discriminate].
    inversion H. simpl. now rewrite (IH bs' eq_refl).
Qed.

Lemma mapM_total {A} (f : A -> result bool) (l : list A) :
  (forall a, In a l -> exists b, f a = Ok b) -> exists bs, mapM f l = Ok bs.
Proof.
  induction l as [|a l IH]; simpl; intros H; [now exists [] |].
  destruct (H a (or_introl eq_refl)) as [b Hb]. rewrite Hb. simpl.
  destruct IH as [bs Hbs]; [intros x Hx; apply H; now right |].
  rewrite Hbs. simpl. now eexists.
Qed.

Lemma index_of_inj (a b : string) (cols : list string) (i : nat) :
  index_of a cols = Some i -> index_of b cols = Some i -> a = b.
Proof.
  revert i. induction cols as [|c cols IH]; simpl; intros i Ha Hb; [discriminate |].
  destruct (String.eqb a c) eqn:Eac, (String.eqb b c) eqn:Ebc.
  - apply String.eqb_eq in Eac, Ebc. congruence.
  - inversion Ha; subst. destruct (index_of b cols); discriminate.
  - inversion Hb; subst. destruct (index_of a cols); discriminate.
  - destruct (index_of a cols) as [x|] eqn:Ea; [| discriminate].
    destruct (index_of b cols) as [y|] eqn:Eb; [| discriminate].
    simpl in Ha, Hb. destruct i as [|i]; [discriminate |].
    inversion Ha; inversion Hb; subst. now apply (IH i).
Qed.

Lemma index_of_mem (c : string) (cols : list string) :
  mem_str c cols = true <-> exists i, index_of c cols = Some i.
Proof.
  unfold mem_str. induction cols as [|x cols IH]; simpl.
  - split; [discriminate | intros [i H]; discriminate].
  - destruct (String.eqb c x); simpl.
    + split; [now exists O | reflexivity].
    + rewrite IH. split; intros [i H].
      * exists (S i). now rewrite H.
      * destruct (index_of c cols) as [j|]; [now exists j | discriminate].
Qed.

Lemma nth_set_nth (i j : nat) (v : pyval) (cells : list pyval) :
  nth j (set_nth i v cells) NaN = if Nat.eqb j i then v else nth j cells NaN.
Proof.
  revert j cells. induction i as [|i IH]; intros j cells.
  - destruct cells, j; simpl; try reflexivity. now destruct j.
  - destruct cells as [|x cells], j as [|j]; simpl; try reflexivity.
    + rewrite IH. destruct (Nat.eqb j i); [reflexivity | now destruct j].
    + apply IH.
Qed.

Lemma cell_update_cell (i j : nat) (g : pyval -> pyval) (r : row) :
  cell j (update_cell i g r) = if Nat.eqb j i then g (cell i r) else cell j r.
Proof. unfold cell, update_cell. simpl. apply nth_set_nth. Qed.

Lemma set_cells_map (i : nat) (h : row -> pyval) (rs : list row) :
  set_cells i rs (map h rs) = map (fun r => (fst r, set_nth i (h r) (snd r))) rs.
Proof. induction rs as [|r rs IH]; simpl; [reflexivity | now rewrite IH]. Qed.

Lemma set_column_update (df : DataFrame) (c : string) (i : nat)
    (g : pyval -> pyval) :
  index_of c (columns df) = Some i ->
  set_column df c (map g (map (cell i) (rows df))) =
  {| columns := columns df; rows := map (update_cell i g) (rows df) |}.
Proof.
  intros H. unfold set_column. rewrite H, map_map.
  now rewrite (set_cells_map i (fun r => g (cell i r))).
Qed.

(* ================================================================ *)
(** * [validate_data] *)

Lemma coordinate_mask (df : DataFrame) (i j : nat) (lat_range lon_range : list bool) :
  index_of "decimalLatitude" (columns df) = Some i ->
  index_of "decimalLongitude" (columns df) = Some j ->
  mapM (between (-90) 90) (map (cell i) (rows df)) = Ok lat_range ->
  mapM (between (-180) 180) (map (cell j) (rows df)) = Ok lon_range ->
  mask_rows (rows df)
    (and_mask (and_mask (and_mask lat_range lon_range)
                        (map valid_decimals (map (cell i) (rows df))))
              (map valid_decimals (map (cell j) (rows df)))) =
  filter (coord_ok (columns df)) (rows df).
Proof.
  intros Hi Hj Hlat Hlon.
  rewrite (mapM_ok_map _ _ Hlat), (mapM_ok_map _ _ Hlon), !map_map.
  rewrite !and_mask_map, mask_rows_map.
  apply filter_ext. intros r. unfold coord_ok, cell_of.
  now rewrite Hi, Hj.
Qed.

Lemma validate_data_rows (df out : DataFrame) (min_date max_date : timestamp)
    (n0 n1 n2 : nat) :
  validate_data df min_date max_date = Ok (out, n0, n1, n2) ->
  exists i j k,
    index_of "decimalLatitude" (columns df) = Some i /\
    index_of "decimalLongitude" (columns df) = Some j /\
    index_of "eventDate" (columns df) = Some k /\
    out = {| columns := columns df;
             rows := validated_rows i j k min_date max_date (columns df) (rows df) |} /\
    n0 = List.length (rows df) /\
    n1 = List.length (filter (coord_ok (columns df)) (rows df)) /\
    n2 = List.length (rows out).
Proof.
  unfold validate_data, getitem.
  destruct (index_of "decimalLatitude" (columns df)) as [i|] eqn:Hi;
    [| discriminate].
  cbn [bind].
  destruct (mapM (between (-90) 90) (map (cell i) (rows df)))
    as [lat_range|] eqn:Hlat; [| discriminate].
  cbn [bind].
  destruct (index_of "decimalLongitude" (columns df)) as [j|] eqn:Hj;
    [| discriminate].
  cbn [bind].
  destruct (mapM (between (-180) 180) (map (cell j) (rows df)))
    as [lon_range|] eqn:Hlon; [| discriminate].
  cbn [bind].
  assert (Hm : filter_mask df
            (and_mask (and_mask (and_mask lat_range lon_range)
                                (map valid_decimals (map (cell i) (rows df))))
                      (map valid_decimals (map (cell j) (rows df)))) =
          {| columns := columns df;
             rows := filter (coord_ok (columns df)) (rows df) |}).
  { unfold filter_mask. now rewrite (coordinate_mask df Hi Hj Hlat Hlon). }
  rewrite Hm. clear Hm.
  cbn [columns]. rewrite Hi. cbn [bind].
  rewrite set_column_update by exact Hi.
  cbn [columns]. rewrite Hj. cbn [bind].
  rewrite set_column_update by exact Hj.
  cbn [columns rows len].
  destruct (index_of "eventDate" (columns df)) as [k|] eqn:Hk;
    [| discriminate].
  cbn [bind].
  rewrite set_column_update by exact Hk.
  cbn [columns rows]. rewrite Hk. cbn [bind].
  intros H. inversion H; subst; clear H.
  exists i, j, k. unfold validated_rows, filter_mask.
  unfold len. cbn [columns rows].
  rewrite (map_map (cell k) notnull), mask_rows_map.
  repeat split; try reflexivity.
  now rewrite !length_map.
Qed.



Lemma is_valid_date_timestamp (min_date max_date : timestamp) (v : pyval) :
  notnull (is_valid_date min_date max_date v) = true ->
  exists t, to_datetime v = DtTimestamp t /\
            is_valid_date min_date max_date v = PTimestamp t /\
            ts_le min_date t = Some true /\ ts_le t max_date = Some true.
Proof.
  unfold is_valid_date.
  destruct (to_datetime v) as [t| | |]; try discriminate.
  destruct (ts_le min_date t) as [[|]|] eqn:E1; try discriminate.
  destruct (ts_le t max_date) as [[|]|] eqn:E2; try discriminate.
  intros _. now exists t.
Qed.



Lemma fold_digits (ds : list digit) (a : Z) :
  fold_left (fun acc d => 10 * acc + digit_val d) ds a =
  a * 10 ^ Z.of_nat (List.length ds) + digits_value ds.
Proof.
  unfold digits_value. revert a. induction ds as [|d ds IH]; intros a.
  - simpl. lia.
  - cbn [fold_left List.length]. rewrite IH, (IH (10 * 0 + digit_val d)).
    rewrite Nat2Z.inj_succ, Z.pow_succ_r by lia. lia.
Qed.

Lemma digits_value_cons (d : digit) (ds : list digit) :
  digits_value (d :: ds) =
  digit_val d * 10 ^ Z.of_nat (List.length ds) + digits_value ds.
Proof.
  unfold digits_value at 1. cbn [fold_left]. rewrite fold_digits. lia.
Qed.

Lemma ten_nonzero : ~ ((10 # 1) == 0)%Q.
Proof. discriminate. Qed.

Lemma ten_power_pos (e : Z) : (0 < (10 # 1) ^ e)%Q.
Proof. apply Qpower_0_lt. reflexivity. Qed.

(** The place-value sum is the number the digits spell, scaled. *)
Lemma place_value_digits (ds : list digit) (decpt : Z) :
  (place_value ds decpt ==
   inject_Z (digits_value ds) * (10 # 1) ^ (decpt - Z.of_nat (List.length ds)))%Q.
Proof.
  revert decpt. induction ds as [|d ds IH]; intros decpt.
  - simpl. unfold digits_value. simpl. ring.
  - cbn [place_value]. rewrite IH, digits_value_cons.
    rewrite inject_Z_plus, inject_Z_mult.
    rewrite Zpower_Qpower by lia.
    replace (decpt - Z.of_nat (List.length (d :: ds)))
      with (decpt - 1 - Z.of_nat (List.length ds)) by (simpl List.length; lia).
    replace (decpt - 1)
      with (Z.of_nat (List.length ds) + (decpt - 1 - Z.of_nat (List.length ds)))
      at 1 by lia.
    rewrite (Qpower_plus _ _ _ ten_nonzero).
    change (inject_Z 10) with (10 # 1)%Q. ring.
Qed.

Lemma int_le_dec_value (k m e : Z) :
  int_le_dec k m e = true <-> (inject_Z k <= inject_Z m * (10 # 1) ^ e)%Q.
Proof.
  unfold int_le_dec. destruct (0 <=? e) eqn:E.
  - apply Z.leb_le in E. rewrite Z.leb_le, Zle_Qle.
    rewrite inject_Z_mult, Zpower_Qpower by lia. reflexivity.
  - apply Z.leb_gt in E. rewrite Z.leb_le, Zle_Qle.
    rewrite inject_Z_mult, Zpower_Qpower by lia.
    change (inject_Z 10) with (10 # 1)%Q.
    assert (H : (inject_Z m * (10 # 1) ^ e * (10 # 1) ^ (- e) == inject_Z m)%Q).
    { rewrite <- Qmult_assoc, <- (Qpower_plus _ _ _ ten_nonzero).
      replace (e + - e) with 0 by lia. apply Qmult_1_r. }
    rewrite <- (Qmult_le_r (inject_Z k) (inject_Z m * (10 # 1) ^ e)
                  ((10 # 1) ^ (- e)) (ten_power_pos (- e))).
    rewrite H. reflexivity.
Qed.

Lemma dec_le_int_value (m e k : Z) :
  dec_le_int m e k = true <-> (inject_Z m * (10 # 1) ^ e <= inject_Z k)%Q.
Proof.
  unfold dec_le_int. destruct (0 <=? e) eqn:E.
  - apply Z.leb_le in E. rewrite Z.leb_le, Zle_Qle.
    rewrite inject_Z_mult, Zpower_Qpower by lia. reflexivity.
  - apply Z.leb_gt in E. rewrite Z.leb_le, Zle_Qle.
    rewrite inject_Z_mult, Zpower_Qpower by lia.
    change (inject_Z 10) with (10 # 1)%Q.
    assert (H : (inject_Z m * (10 # 1) ^ e * (10 # 1) ^ (- e) == inject_Z m)%Q).
    { rewrite <- Qmult_assoc, <- (Qpower_plus _ _ _ ten_nonzero).
      replace (e + - e) with 0 by lia. apply Qmult_1_r. }
    rewrite <- (Qmult_le_r (inject_Z m * (10 # 1) ^ e) (inject_Z k)
                  ((10 # 1) ^ (- e)) (ten_power_pos (- e))).
    rewrite H. reflexivity.
Qed.

Lemma float_value_mant (neg : bool) (ds : list digit) (decpt : Z) :
  ((if neg then - place_value ds decpt else place_value ds decpt) ==
   inject_Z (float_mant neg ds) * (10 # 1) ^ float_exp10 ds decpt)%Q.
Proof.
  unfold float_mant, float_exp10.
  destruct neg; rewrite place_value_digits;
    [rewrite inject_Z_opp; ring | reflexivity].
Qed.

(** The comparisons of the program against an integer are comparisons of
    the float's value. *)
Lemma int_le_float_value (k : Z) (neg : bool) (ds : list digit) (decpt : Z) :
  int_le_float k (FFin neg ds decpt) =
  Qle_bool (inject_Z k)
    (if neg then (- place_value ds decpt)%Q else place_value ds decpt).
Proof.
  apply Bool.eq_iff_eq_true. cbn [int_le_float].
  now rewrite int_le_dec_value, Qle_bool_iff, float_value_mant.
Qed.

Lemma float_le_int_value (k : Z) (neg : bool) (ds : list digit) (decpt : Z) :
  float_le_int (FFin neg ds decpt) k =
  Qle_bool (if neg then (- place_value ds decpt)%Q else place_value ds decpt)
    (inject_Z k).
Proof.
  apply Bool.eq_iff_eq_true. cbn [float_le_int].
  now rewrite dec_le_int_value, Qle_bool_iff, float_value_mant.
Qed.

Lemma between_within (lo hi : Z) (v : pyval) :
  ok_or_false (between lo hi v) = within lo hi v.
Proof.
  destruct v as [| | b | n | f | s | t | x y]; try reflexivity.
  destruct f as [| neg | neg ds decpt]; cbn [between ok_or_false within float_value].
  - reflexivity.
  - now destruct neg.
  - now rewrite int_le_float_value, float_le_int_value.
Qed.





Lemma coord_ok_spec (cols : list string) (r : row) :
  coord_ok cols r = coord_spec cols r.
Proof.
  unfold coord_ok, coord_spec.
  change (match between (-90) 90 (cell_of cols "decimalLatitude" r) with
          | Ok b => b | Raise _ => false end)
    with (ok_or_false (between (-90) 90 (cell_of cols "decimalLatitude" r))).
  change (match between (-180) 180 (cell_of cols "decimalLongitude" r) with
          | Ok b => b | Raise _ => false end)
    with (ok_or_false (between (-180) 180 (cell_of cols "decimalLongitude" r))).
  now rewrite !between_within.
Qed.




Lemma between_orderable (lo hi : Z) (v : pyval) :
  orderable v = true -> exists b, between lo hi v = Ok b.
Proof. destruct v; simpl; intros H; try discriminate; now eexists. Qed.


(** X22. The precision check on texts without an exponent. For a
    coordinate whose text is written without an exponent, the check passes
    exactly when the text has between 3 and 8 digits after the decimal
    point; a value whose text has no point fails; 12.345 and 12.12345678
    pass, 12.3, 12 and 12.123456789 fail; and the rows counted after the
    coordinate stage are those whose latitude and whose longitude, each on
    its own, pass the check and lie in their interval. *)
Theorem precision_check_positional :
  (forall v, positional v = true ->
             valid_decimals v = precision_rule (py_str v)) /\
  (forall v, after_point (py_str v) = None -> valid_decimals v = false) /\
  (valid_decimals (PFloat f_12_345) = true /\
   valid_decimals (PFloat f_12_12345678) = true /\
   valid_decimals (PFloat f_12_3) = false /\
   valid_decimals (PInt 12) = false /\
   valid_decimals (PFloat f_12_0) = false /\
   valid_decimals (PFloat f_12_123456789) = false) /\
  (forall df out min_date max_date n0 n1 n2,
     validate_data df min_date max_date = Ok (out, n0, n1, n2) ->
     n1 = List.length
            (filter (fun r =>
               (within (-90) 90 (cell_of (columns df) "decimalLatitude" r) &&
                within (-180) 180 (cell_of (columns df) "decimalLongitude" r) &&
                valid_decimals (cell_of (columns df) "decimalLatitude" r) &&
                valid_decimals (cell_of (columns df) "decimalLongitude" r))%bool)
               (rows df))).
Proof.
  split; [exact valid_decimals_positional |].
  split; [exact valid_decimals_no_point |].
  split; [repeat split; reflexivity |].
  intros df out min_date max_date n0 n1 n2 H.
  destruct (validate_data_rows _ _ _ H)
    as (i & j & k & _ & _ & _ & _ & _ & H1 & _).
  rewrite H1. f_equal. apply filter_ext. intros r. apply coord_ok_spec.
Qed.

(* ================================================================ *)
(** * [fetch_all_gbif_data] *)

Lemma substring_full (s : string) : substring 0 (String.length s) s = s.
Proof. induction s as [|c s IH]; simpl; [reflexivity | now rewrite IH]. Qed.

Lemma prefix_empty (s : string) : String.prefix "" s = true.
Proof. now destruct s. Qed.

Lemma replace_spaces (fuel : nat) (s : string) :
  (String.length s < fuel)%nat ->
  replace_aux fuel " " "%20" s = expand_spaces s.
Proof.
  revert s. induction fuel as [|fuel IH]; intros s Hlen; [lia |].
  destruct s as [|c s]; [reflexivity |].
  simpl in Hlen.
  cbn [replace_aux String.prefix expand_spaces].
  destruct (ascii_dec " " c) as [<-|Hne].
  - rewrite prefix_empty. cbn [andb negb String.eqb Ascii.eqb Bool.eqb].
    change (Ascii.eqb " " space) with true. cbv iota.
    cbn [String.length Nat.sub substring].
    rewrite Nat.sub_0_r, substring_full, IH by lia.
    reflexivity.
  - cbn [andb].
    replace (Ascii.eqb c space) with false.
    + now rewrite IH by lia.
    + symmetry. apply Ascii.eqb_neq. intros ->. now apply Hne.
Qed.

Lemma gbif_url_spaces (species_name : string) :
  gbif_url species_name =
  "https://www.gbif.org/occurrence/search?scientificName=" ++
  expand_spaces species_name.
Proof.
  unfold gbif_url, str_replace. now rewrite replace_spaces by lia.
Qed.

Lemma expand_spaces_no_space (s : string) :
  str_mem space (expand_spaces s) = false.
Proof.
  unfold str_mem. apply negb_false_iff.
  induction s as [|c s IH]; [reflexivity |].
  cbn [expand_spaces]. destruct (Ascii.eqb c space) eqn:E.
  - cbn [str_forallb]. rewrite IH. reflexivity.
  - cbn [str_forallb]. now rewrite E, IH.
Qed.

Lemma fetch_loop_pages (pages : list (list pydict)) :
  forall fuel n species_name p offset all_records requests,
    serves_from n species_name p offset pages ->
    (List.length pages < fuel)%nat ->
    fetch_loop fuel n species_name p offset all_records requests =
    Some ((requests ++ offsets_from offset p (S (List.length pages)))%list,
          Ok (all_records ++ List.concat pages)%list).
Proof.
  induction pages as [|page rest IH];
    intros fuel n species_name p offset all_records requests Hs Hfuel.
  - destruct fuel as [|fuel]; [simpl in Hfuel; lia |].
    simpl in Hs. simpl. rewrite Hs. now rewrite app_nil_r.
  - destruct fuel as [|fuel]; [simpl in Hfuel; lia |].
    destruct Hs as (Hpage & Hne & Hrest).
    cbn [fetch_loop]. rewrite Hpage.
    destruct page as [|rec page]; [contradiction |].
    rewrite (IH fuel (S n) species_name p (offset + p)) by
      (try exact Hrest; simpl in Hfuel; lia).
    cbn [List.length offsets_from List.concat].
    now rewrite <- !app_assoc.
Qed.

Lemma label_from_length (i : Z) (l : list (list pyval)) :
  List.length (label_from i l) = List.length l.
Proof.
  revert i. induction l as [|x l IH]; intros i; simpl; [reflexivity |].
  now rewrite IH.
Qed.

Lemma len_DataFrame_of_records (recs : list pydict) :
  len (DataFrame_of_records recs) = List.length recs.
Proof.
  unfold len, DataFrame_of_records. cbn [rows].
  now rewrite label_from_length, length_map.
Qed.

(** C3. When the service answers the successive requests with the
    non-empty [pages] and then with an empty page, the fetch makes one
    request per page and one more, at offsets 0, p, 2p, ..., and returns the
    pages' records concatenated in request order, with the search URL in
    which every space of the name is written [%20]; with pages of 5000, 5000
    and 1200 records and p = 5000 it makes the 4 requests at offsets 0,
    5000, 10000 and 15000 and returns 11200 records. *)
Theorem fetch_all_gbif_data_pages (species_name : string) (p : Z)
    (pages : list (list pydict)) (fuel : nat) :
  serves_from 0 species_name p 0 pages ->
  (List.length pages < fuel)%nat ->
  fetch_all_gbif_data fuel species_name p =
    Some (offsets_from 0 p (S (List.length pages)),
          Ok (DataFrame_of_records (List.concat pages), gbif_url species_name)) /\
  len (DataFrame_of_records (List.concat pages)) = List.length (List.concat pages) /\
  gbif_url species_name =
    "https://www.gbif.org/occurrence/search?scientificName=" ++
    expand_spaces species_name /\
  str_mem space (expand_spaces species_name) = false /\
  (forall a b c,
     pages = [a; b; c] -> p = 5000 ->
     Z.of_nat (List.length a) = 5000 -> Z.of_nat (List.length b) = 5000 ->
     Z.of_nat (List.length c) = 1200 ->
     exists df url,
       fetch_all_gbif_data fuel species_name p =
         Some ([0; 5000; 10000; 15000], Ok (df, url)) /\
       Z.of_nat (len df) = 11200).
Proof.
  intros Hs Hfuel.
  assert (Hfetch : fetch_all_gbif_data fuel species_name p =
    Some (offsets_from 0 p (S (List.length pages)),
          Ok (DataFrame_of_records (List.concat pages), gbif_url species_name))).
  { unfold fetch_all_gbif_data.
    now rewrite (@fetch_loop_pages pages fuel 0%nat species_name p 0 [] [] Hs Hfuel). }
  split; [exact Hfetch |].
  split; [apply len_DataFrame_of_records |].
  split; [apply gbif_url_spaces |].
  split; [apply expand_spaces_no_space |].
  intros a b c -> -> Ha Hb Hc.
  eexists _, _. split; [exact Hfetch |].
  rewrite len_DataFrame_of_records. simpl List.concat.
  rewrite !length_app. simpl List.length. lia.
Qed.

(* ================================================================ *)
(** * [taxonomic_validation] *)

Lemma pyval_eqb_eq (a b : pyval) : pyval_eqb a b = true <-> a = b.
Proof.
  unfold pyval_eqb. destruct (pyval_eq_dec a b); split; congruence.
Qed.

Lemma existsb_pyval_eqb (v : pyval) (l : list pyval) :
  existsb (pyval_eqb v) l = true <-> In v l.
Proof.
  rewrite existsb_exists. split.
  - intros (x & Hx & E). apply pyval_eqb_eq in E. now subst.
  - intros H. exists v. split; [exact H | now apply pyval_eqb_eq].
Qed.

Lemma unique_aux_In (l seen : list pyval) (x : pyval) :
  In x (unique_aux seen l) <-> In x l /\ ~ In x seen.
Proof.
  revert seen. induction l as [|v l IH]; intros seen; simpl.
  - ptauto.
  - destruct (existsb (pyval_eqb v) seen) eqn:E.
    + apply existsb_pyval_eqb in E. rewrite IH.
      split; [ptauto |]. intros [[->|H] Hn]; ptauto.
    + assert (Hv : ~ In v seen).
      { intros H. apply existsb_pyval_eqb in H. congruence. }
      simpl. rewrite IH. simpl.
      destruct (pyval_eq_dec v x) as [->|Hne]; [ptauto |].
      split; [ptauto |]. intros [[H|H] Hn]; [contradiction | right; ptauto].
Qed.

Lemma unique_aux_NoDup (l seen : list pyval) : NoDup (unique_aux seen l).
Proof.
  revert seen. induction l as [|v l IH]; intros seen; simpl; [constructor |].
  destruct (existsb (pyval_eqb v) seen); [apply IH |].
  constructor; [| apply IH].
  rewrite unique_aux_In. simpl. ptauto.
Qed.

Lemma unique_In (l : list pyval) (x : pyval) : In x (unique l) <-> In x l.
Proof. unfold unique. rewrite unique_aux_In. simpl. ptauto. Qed.

Lemma unique_NoDup (l : list pyval) : NoDup (unique l).
Proof. apply unique_aux_NoDup. Qed.

Lemma NoDup_filter {A} (p : A -> bool) (l : list A) :
  NoDup l -> NoDup (filter p l).
Proof.
  induction 1 as [|x l Hx Hl IH]; simpl; [constructor |].
  destruct (p x); [| exact IH].
  constructor; [| exact IH]. rewrite filter_In. ptauto.
Qed.

Lemma validate_taxonomic_name_truthy (name key : pyval) :
  validate_taxonomic_name name = Ok key -> truthy key = name_accepted name.
Proof.
  unfold validate_taxonomic_name, name_accepted, dict_get.
  destruct (name_backbone name) as [m|e]; [| discriminate].
  cbn [bind].
  destruct (dict_find "matchType" m) as [mt|]; [| discriminate].
  cbn [bind].
  destruct (pyval_eqb mt (PStr "NONE")); cbn [negb].
  - intros H. inversion H. now destruct (dict_find "usageKey" m).
  - destruct (dict_find "usageKey" m) as [k|]; [| discriminate].
    intros H. now inversion H.
Qed.

Lemma taxonomic_loop_filter (names valid_species result : list pyval) :
  taxonomic_loop names valid_species = Ok result ->
  result = (valid_species ++ filter name_accepted names)%list.
Proof.
  revert valid_species. induction names as [|name rest IH];
    intros valid_species; simpl.
  - intros H. inversion H. now rewrite app_nil_r.
  - destruct (validate_taxonomic_name name) as [key|e] eqn:E; [| discriminate].
    cbn [bind]. rewrite (validate_taxonomic_name_truthy _ E).
    intros H. apply IH in H.
    destruct (name_accepted name); [now rewrite <- app_assoc in H | exact H].
Qed.

Lemma taxonomic_loop_returns (names valid_species : list pyval) :
  (forall name, In name names ->
     exists key, validate_taxonomic_name name = Ok key) ->
  exists result, taxonomic_loop names valid_species = Ok result.
Proof.
  revert valid_species. induction names as [|name rest IH];
    intros valid_species H; simpl; [now eexists |].
  destruct (H name (or_introl eq_refl)) as [key ->]. cbn [bind].
  apply IH. intros x Hx. apply H. now right.
Qed.

(** The frame and the count that the stage returns. *)
Lemma taxonomic_validation_rows (df out : DataFrame) (n : nat) :
  taxonomic_validation df = Ok (out, n) ->
  exists i,
    index_of "species" (columns df) = Some i /\
    out = {| columns := columns df;
             rows := filter (fun r => name_accepted (cell i r)) (rows df) |} /\
    n = List.length (filter name_accepted (unique (map (cell i) (rows df)))).
Proof.
  unfold taxonomic_validation, getitem.
  destruct (index_of "species" (columns df)) as [i|] eqn:Hi; [| discriminate].
  cbn [bind].
  destruct (taxonomic_loop (unique (map (cell i) (rows df))) [])
    as [valid_species|e] eqn:Hloop; [| discriminate].
  cbn [bind]. intros H. inversion H; subst; clear H.
  apply taxonomic_loop_filter in Hloop. simpl in Hloop. subst valid_species.
  exists i. split; [reflexivity |]. split; [| reflexivity].
  unfold filter_mask, isin. f_equal.
  rewrite map_map, mask_rows_map.
  apply filter_ext_in. intros r Hr.
  destruct (name_accepted (cell i r)) eqn:E.
  - apply existsb_pyval_eqb, filter_In. split; [| exact E].
    apply unique_In, in_map_iff. now exists r.
  - apply not_true_iff_false. intros H.
    apply existsb_pyval_eqb, filter_In in H. destruct H as [_ H]. congruence.
Qed.

Lemma validate_taxonomic_name_answered (name : pyval) :
  answered name -> exists key, validate_taxonomic_name name = Ok key.
Proof.
  intros (m & mt & Hm & Hmt & Hkey).
  unfold validate_taxonomic_name, dict_get. rewrite Hm. cbn [bind].
  rewrite Hmt. cbn [bind].
  destruct (pyval_eqb mt (PStr "NONE")) eqn:E; cbn [negb]; [now eexists |].
  destruct Hkey as [->|[key ->]]; [| now eexists].
  assert (pyval_eqb (PStr "NONE") (PStr "NONE") = true) by now apply pyval_eqb_eq.
  congruence.
Qed.

Lemma taxonomic_validation_returns (df : DataFrame) :
  mem_str "species" (columns df) = true ->
  (forall r, In r (rows df) -> answered (cell_of (columns df) "species" r)) ->
  exists out n, taxonomic_validation df = Ok (out, n).
Proof.
  intros Hc Hans.
  assert (Hall : forall r, In r (rows df) ->
     exists key,
       validate_taxonomic_name (cell_of (columns df) "species" r) = Ok key)
    by (intros r Hr; now apply validate_taxonomic_name_answered, Hans).
  clear Hans.
  apply index_of_mem in Hc. destruct Hc as [i Hi].
  unfold taxonomic_validation, getitem. rewrite Hi. cbn [bind].
  destruct (taxonomic_loop_returns (unique (map (cell i) (rows df))) [])
    as [vs Hvs].
  { intros name Hn. apply unique_In, in_map_iff in Hn.
    destruct Hn as (r & <- & Hr). specialize (Hall r Hr).
    unfold cell_of in Hall. now rewrite Hi in Hall. }
  rewrite Hvs. cbn [bind]. now eexists _, _.
Qed.

Lemma name_accepted_iff (name : pyval) :
  name_accepted name = true <->
  exists matchType usageKey,
    classified name matchType usageKey /\
    matchType <> PStr "NONE" /\ truthy usageKey = true.
Proof.
  unfold name_accepted, classified. split.
  - destruct (name_backbone name) as [m|e]; [| discriminate].
    destruct (dict_find "matchType" m) as [mt|] eqn:E1; [| discriminate].
    destruct (dict_find "usageKey" m) as [k|] eqn:E2; [| discriminate].
    intros H. apply andb_true_iff in H. destruct H as [H1 H2].
    exists mt, k. split; [now exists m |]. split; [| exact H2].
    intros ->. apply negb_true_iff in H1.
    assert (pyval_eqb (PStr "NONE") (PStr "NONE") = true)
      by now apply pyval_eqb_eq.
    congruence.
  - intros (mt & k & (m & -> & -> & ->) & Hne & Hk).
    rewrite Hk, andb_true_r. apply negb_true_iff, not_true_iff_false.
    intros H. now apply pyval_eqb_eq in H.
Qed.

Lemma taxonomic_validation_valid_set (df out : DataFrame) (n : nat) :
  taxonomic_validation df = Ok (out, n) ->
  exists valid_species,
    (forall name,
       In name valid_species <->
       (exists r, In r (rows df) /\ cell_of (columns df) "species" r = name) /\
       exists matchType usageKey,
         classified name matchType usageKey /\
         matchType <> PStr "NONE" /\ truthy usageKey = true) /\
    NoDup valid_species /\
    n = List.length valid_species /\
    columns out = columns df /\
    rows out =
      filter (fun r => if in_dec pyval_eq_dec
                            (cell_of (columns df) "species" r) valid_species
                       then true else false)
             (rows df).
Proof.
  intros H. destruct (taxonomic_validation_rows _ H) as (i & Hi & -> & ->).
  exists (filter name_accepted (unique (map (cell i) (rows df)))).
  split; [| split; [| split; [| split]]].
  - intros name. rewrite filter_In, unique_In, in_map_iff, name_accepted_iff.
    unfold cell_of. rewrite Hi.
    split; intros [(r & A & B) C]; (split; [exists r |]; ptauto).
  - apply NoDup_filter, unique_NoDup.
  - reflexivity.
  - reflexivity.
  - cbn [rows]. apply filter_ext_in. intros r Hr.
    unfold cell_of. rewrite Hi.
    destruct (in_dec pyval_eq_dec (cell i r)
                (filter name_accepted (unique (map (cell i) (rows df)))))
      as [Hin|Hout].
    + apply filter_In in Hin. ptauto.
    + apply not_true_iff_false. intros Ha. apply Hout, filter_In.
      split; [| exact Ha]. apply unique_In, in_map_iff. now exists r.
Qed.

Lemma taxonomic_validation_kept_rows (df out : DataFrame) (n : nat) :
  taxonomic_validation df = Ok (out, n) ->
  (forall r,
     In r (rows out) <->
     In r (rows df) /\
     exists matchType usageKey,
       classified (cell_of (columns df) "species" r) matchType usageKey /\
       matchType <> PStr "NONE" /\ truthy usageKey = true) /\
  (forall r matchType usageKey,
     classified (cell_of (columns df) "species" r) matchType usageKey ->
     matchType <> PStr "NONE" -> truthy usageKey = false ->
     ~ In r (rows out)) /\
  truthy (PInt 0) = false.
Proof.
  intros H. destruct (taxonomic_validation_rows _ H) as (i & Hi & -> & ->).
  assert (Hrows : forall r,
    In r (filter (fun r => name_accepted (cell i r)) (rows df)) <->
    In r (rows df) /\
    exists matchType usageKey,
      classified (cell_of (columns df) "species" r) matchType usageKey /\
      matchType <> PStr "NONE" /\ truthy usageKey = true).
  { intros r. rewrite filter_In, name_accepted_iff.
    unfold cell_of. now rewrite Hi. }
  split; [exact Hrows |]. split; [| reflexivity].
  intros r mt key (m & Hm & Hmt & Hkey) Hne Hfalsy Hin.
  apply Hrows in Hin. destruct Hin as (_ & mt' & key' & (m' & Hm' & Hmt' & Hkey') & _ & Ht).
  rewrite Hm in Hm'. inversion Hm'; subst m'. congruence.
Qed.

(** C4, with the usage key. Whenever the frame has the species column and the
    backbone answers for every name in it, the stage returns. A species name
    is valid exactly when the backbone classifies it otherwise than ['NONE']
    and the usage key it returns is truthy. The stage returns the input rows
    whose species name is valid, in their order and unchanged, under the same
    columns, together with the number of distinct valid names. *)
Theorem taxonomic_validation_valid_names (df : DataFrame) :
  (mem_str "species" (columns df) = true ->
   (forall r, In r (rows df) -> answered (cell_of (columns df) "species" r)) ->
   exists out n, taxonomic_validation df = Ok (out, n)) /\
  (forall out n,
     taxonomic_validation df = Ok (out, n) ->
     exists valid_species,
       (forall name,
          In name valid_species <->
          (exists r, In r (rows df) /\ cell_of (columns df) "species" r = name) /\
          exists matchType usageKey,
            classified name matchType usageKey /\
            matchType <> PStr "NONE" /\ truthy usageKey = true) /\
       NoDup valid_species /\
       n = List.length valid_species /\
       columns out = columns df /\
       rows out =
         filter (fun r => if in_dec pyval_eq_dec
                               (cell_of (columns df) "species" r) valid_species
                          then true else false)
                (rows df)).
Proof.
  split.
  - apply taxonomic_validation_returns.
  - intros out n. apply taxonomic_validation_valid_set.
Qed.

(** C10. Whenever the frame has the species column and the backbone
    answers for every name in it, the stage returns. It keeps a row exactly
    when the backbone's answer for the row's species name has a classification
    other than ['NONE'] and a truthy usage key; a name classified otherwise
    than ['NONE'] whose usage key is falsy, such as 0, has its rows
    dropped. *)
Theorem taxonomic_validation_usage_key (df : DataFrame) :
  (mem_str "species" (columns df) = true ->
   (forall r, In r (rows df) -> answered (cell_of (columns df) "species" r)) ->
   exists out n, taxonomic_validation df = Ok (out, n)) /\
  (forall out n,
     taxonomic_validation df = Ok (out, n) ->
     (forall r,
        In r (rows out) <->
        In r (rows df) /\
        exists matchType usageKey,
          classified (cell_of (columns df) "species" r) matchType usageKey /\
          matchType <> PStr "NONE" /\ truthy usageKey = true) /\
     (forall r matchType usageKey,
        classified (cell_of (columns df) "species" r) matchType usageKey ->
        matchType <> PStr "NONE" -> truthy usageKey = false ->
        ~ In r (rows out)) /\
     truthy (PInt 0) = false).
Proof.
  split.
  - apply taxonomic_validation_returns.
  - intros out n. apply taxonomic_validation_kept_rows.
Qed.

(* ================================================================ *)
(** * [validate_georeferencing] *)

Lemma rows_DataFrame_of_rows (cols : list string) (rs : list row) :
  rows (DataFrame_of_rows cols rs) = rs.
Proof. now destruct rs. Qed.

Lemma geocode_point_located (cols : list string) (i : nat) (r : row) (b : bool) :
  geocode_point i (cell_of cols "decimalLatitude" r)
                  (cell_of cols "decimalLongitude" r) = Ok b ->
  b = located cols i r.
Proof.
  unfold geocode_point, located.
  destruct (reverse i _ _) as [[loc|]|e]; try (intros H; now inversion H).
  destruct e; intros H; now inversion H.
Qed.

Lemma row_get_cell_of (cols : list string) (r : row) (c : string) (v : pyval) :
  row_get cols r c = Ok v -> v = cell_of cols c r.
Proof.
  unfold row_get, cell_of. destruct (index_of c cols); intros H; now inversion H.
Qed.

Lemma georef_loop_filter (cols : list string) (rs : list row) :
  forall i valid_geolocation result,
    georef_loop cols i rs valid_geolocation = Ok result ->
    result = (valid_geolocation ++ filter_from i (located cols) rs)%list.
Proof.
  induction rs as [|r rest IH]; intros i acc result; simpl.
  - intros H. inversion H. now rewrite app_nil_r.
  - destruct (row_get cols r "decimalLatitude") as [lat|e] eqn:Elat;
      [| discriminate].
    destruct (row_get cols r "decimalLongitude") as [lon|e] eqn:Elon;
      [| discriminate].
    cbn [bind].
    apply row_get_cell_of in Elat, Elon. subst lat lon.
    destruct (geocode_point i _ _) as [found|e] eqn:Eg; [| discriminate].
    cbn [bind]. apply geocode_point_located in Eg. subst found.
    intros H. apply IH in H.
    destruct (located cols i r); [now rewrite <- app_assoc in H | exact H].
Qed.

Lemma georef_loop_returns (cols : list string) (rs : list row) :
  mem_str "decimalLatitude" cols = true ->
  mem_str "decimalLongitude" cols = true ->
  forall i valid_geolocation,
    (forall k r, nth_error rs k = Some r ->
       (exists location,
          reverse (i + k) (cell_of cols "decimalLatitude" r)
                          (cell_of cols "decimalLongitude" r) = Ok location) \/
       reverse (i + k) (cell_of cols "decimalLatitude" r)
                       (cell_of cols "decimalLongitude" r) =
         Raise GeocoderTimedOut) ->
    exists result, georef_loop cols i rs valid_geolocation = Ok result.
Proof.
  intros Hlat Hlon. apply index_of_mem in Hlat, Hlon.
  destruct Hlat as [a Ha], Hlon as [b Hb].
  induction rs as [|r rest IH]; intros i acc H; simpl; [now eexists |].
  unfold row_get. rewrite Ha, Hb. cbn [bind].
  specialize (H O r eq_refl) as H0. rewrite Nat.add_0_r in H0.
  unfold cell_of in H0. rewrite Ha, Hb in H0.
  assert (Hg : exists found, geocode_point i (cell a r) (cell b r) = Ok found).
  { unfold geocode_point. destruct H0 as [[[loc|] ->] | ->]; now eexists. }
  destruct Hg as [found ->]. cbn [bind].
  apply IH. intros k r' Hk.
  replace (S i + k)%nat with (i + S k)%nat by lia.
  now apply (H (S k)).
Qed.

(** C6. Whenever no lookup fails otherwise than by timing out, the stage
    returns, and the rows it returns are the rows whose own lookup, the one
    made for that row, came back with a location, in their order; a lookup
    that times out, like one that finds nothing, drops its row only. *)
Theorem validate_georeferencing_lookup (df : DataFrame) :
  (mem_str "decimalLatitude" (columns df) = true ->
   mem_str "decimalLongitude" (columns df) = true ->
   (forall i r, nth_error (rows df) i = Some r ->
      (exists location,
         reverse i (cell_of (columns df) "decimalLatitude" r)
                   (cell_of (columns df) "decimalLongitude" r) = Ok location) \/
      reverse i (cell_of (columns df) "decimalLatitude" r)
                (cell_of (columns df) "decimalLongitude" r) =
        Raise GeocoderTimedOut) ->
   exists out, validate_georeferencing df = Ok out) /\
  (forall out,
     validate_georeferencing df = Ok out ->
     rows out = filter_from 0 (located (columns df)) (rows df)) /\
  (forall i r,
     (located (columns df) i r = true <->
      exists location,
        reverse i (cell_of (columns df) "decimalLatitude" r)
                  (cell_of (columns df) "decimalLongitude" r) =
          Ok (Some location)) /\
     (reverse i (cell_of (columns df) "decimalLatitude" r)
                (cell_of (columns df) "decimalLongitude" r) =
        Raise GeocoderTimedOut ->
      located (columns df) i r = false /\
      geocode_point i (cell_of (columns df) "decimalLatitude" r)
                      (cell_of (columns df) "decimalLongitude" r) = Ok false)).
Proof.
  split; [| split].
  - intros Hlat Hlon Hall. unfold validate_georeferencing.
    destruct (@georef_loop_returns (columns df) (rows df) Hlat Hlon 0%nat []
                Hall) as [res ->].
    cbn [bind]. now eexists.
  - intros out. unfold validate_georeferencing.
    destruct (georef_loop (columns df) 0 (rows df) []) as [res|e] eqn:E;
      [| discriminate].
    cbn [bind]. intros H. inversion H; subst; clear H.
    rewrite rows_DataFrame_of_rows.
    now rewrite (georef_loop_filter _ _ _ _ E).
  - intros i r. split.
    + unfold located.
      destruct (reverse i _ _) as [[loc|]|e]; split;
        try discriminate; try (intros [l Hl]; discriminate).
      * intros _. now exists loc.
      * reflexivity.
    + intros H. unfold located, geocode_point. now rewrite H.
Qed.

(* ================================================================ *)
(** * [validate_points_within_shapefile] *)

Lemma index_of_app_new (c : string) (cols : list string) :
  index_of c cols = None ->
  index_of c (cols ++ [c]) = Some (List.length cols).
Proof.
  induction cols as [|x cols IH]; simpl.
  - now rewrite String.eqb_refl.
  - destruct (String.eqb c x); [discriminate |].
    destruct (index_of c cols); [discriminate |].
    intros _. now rewrite IH.
Qed.

Lemma index_of_set_column (df : DataFrame) (c : string) (series : list pyval) :
  index_of c (columns (set_column df c series)) = Some (column_slot df c).
Proof.
  unfold set_column, column_slot.
  destruct (index_of c (columns df)) as [i|] eqn:E; cbn [columns].
  - exact E.
  - now apply index_of_app_new.
Qed.

Lemma rows_set_column (df : DataFrame) (c : string) (series : list pyval) :
  rows (set_column df c series) = set_cells (column_slot df c) (rows df) series.
Proof.
  unfold set_column, column_slot. now destruct (index_of c (columns df)).
Qed.

Lemma mapM_ok_inv {A B} (f : A -> result B) (d : B) (l : list A) (ys : list B) :
  mapM f l = Ok ys ->
  ys = map (fun a => match f a with Ok b => b | Raise _ => d end) l /\
  forall a, In a l -> exists b, f a = Ok b.
Proof.
  revert ys. induction l as [|a l IH]; simpl; intros ys H.
  - inversion H. split; [reflexivity | intros a []].
  - destruct (f a) as [b|e] eqn:Ea; simpl in H; [| discriminate].
    destruct (mapM f l) as [bs|e]; simpl in H; [| discriminate].
    inversion H. destruct (IH bs eq_refl) as [-> Hall].
    split; [reflexivity |].
    intros x [<-|Hx]; [now exists b | now apply Hall].
Qed.

Lemma mapM_returns {A B} (f : A -> result B) (l : list A) :
  (forall a, In a l -> exists b, f a = Ok b) -> exists ys, mapM f l = Ok ys.
Proof.
  induction l as [|a l IH]; simpl; intros H; [now exists [] |].
  destruct (H a (or_introl eq_refl)) as [b Hb]. rewrite Hb. simpl.
  destruct IH as [bs Hbs]; [intros x Hx; apply H; now right |].
  rewrite Hbs. simpl. now eexists.
Qed.

Lemma mapM_first_raise {A B} (f : A -> result B) (before after : list A)
    (a : A) (e : exn) :
  (forall x, In x before -> exists b, f x = Ok b) ->
  f a = Raise e ->
  mapM f (before ++ a :: after) = Raise e.
Proof.
  induction before as [|x before IH]; simpl; intros Hok Ha.
  - now rewrite Ha.
  - destruct (Hok x (or_introl eq_refl)) as [b ->]. cbn [bind].
    rewrite IH; [reflexivity | | exact Ha].
    intros y Hy. apply Hok. now right.
Qed.

Lemma mapM_raises {A B} (f : A -> result B) (l : list A) (e : exn) :
  mapM f l = Raise e -> exists a, In a l /\ f a = Raise e.
Proof.
  induction l as [|a l IH]; simpl; [discriminate |].
  destruct (f a) as [b|e'] eqn:Ea; simpl.
  - destruct (mapM f l) as [bs|e'']; simpl; [discriminate |].
    intros H. inversion H; subst e''.
    destruct (IH eq_refl) as (x & Hx & Hfx). exists x. split; [now right | exact Hfx].
  - intros H. inversion H; subst e'. exists a. split; [now left | exact Ea].
Qed.

Lemma shapely_points_map {A} (f g : A -> pyfloat) (rs : list A) :
  shapely_points (map f rs) (map g rs) =
  map (fun r => PPoint (PFloat (f r)) (PFloat (g r))) rs.
Proof. induction rs as [|r rs IH]; simpl; [reflexivity | now rewrite IH]. Qed.

Lemma to_float64_converted (v : pyval) (x : pyfloat) :
  to_float64 v = Ok x -> converted v = x.
Proof. unfold converted. now intros ->. Qed.

Lemma columns_set_column (df : DataFrame) (c : string) (series : list pyval) :
  columns (set_column df c series) = with_column (columns df) c.
Proof.
  unfold set_column, with_column.
  destruct (index_of c (columns df)) as [i|] eqn:E; cbn [columns].
  - replace (mem_str c (columns df)) with true; [reflexivity |].
    symmetry. apply index_of_mem. now exists i.
  - destruct (mem_str c (columns df)) eqn:Em; [| reflexivity].
    apply index_of_mem in Em. destruct Em as [i Hi]. congruence.
Qed.

Lemma validate_points_within_shapefile_inv (df out : DataFrame)
    (shp : list geometry) :
  validate_points_within_shapefile df shp = Ok out ->
  exists a b gdf,
    index_of "decimalLongitude" (columns df) = Some a /\
    index_of "decimalLatitude" (columns df) = Some b /\
    rows df <> [] /\
    (forall r, In r (rows df) ->
       to_float64 (cell a r) = Ok (converted (cell a r)) /\
       to_float64 (cell b r) = Ok (converted (cell b r))) /\
    gdf = set_column df "geometry"
            (map (fun r => PPoint (PFloat (converted (cell a r)))
                                  (PFloat (converted (cell b r)))) (rows df)) /\
    rows gdf =
      map (fun r => (fst r, set_nth (column_slot df "geometry")
                              (PPoint (PFloat (converted (cell a r)))
                                      (PFloat (converted (cell b r))))
                              (snd r)))
          (rows df) /\
    columns out = with_column (columns gdf) "within_shapefile" /\
    rows out =
      map (fun r => (fst r,
                     set_nth (column_slot gdf "within_shapefile")
                       (PBool (within_any shp
                                 (cell (column_slot df "geometry") r)))
                       (snd r)))
          (rows gdf).
Proof.
  unfold validate_points_within_shapefile, getitem, points_from_xy.
  destruct (index_of "decimalLongitude" (columns df)) as [a|] eqn:Ha;
    [| discriminate].
  destruct (index_of "decimalLatitude" (columns df)) as [b|] eqn:Hb;
    [| discriminate].
  cbn [bind].
  destruct (mapM to_float64 (map (cell a) (rows df))) as [xs|e] eqn:Ex;
    [| discriminate].
  cbn [bind].
  destruct (mapM to_float64 (map (cell b) (rows df))) as [ys|e] eqn:Ey;
    [| discriminate].
  cbn [bind].
  destruct (mapM_ok_inv _ FNaN _ Ex) as [Hxs Hxok].
  destruct (mapM_ok_inv _ FNaN _ Ey) as [Hys Hyok].
  rewrite map_map in Hxs, Hys.
  change (xs = map (fun r => converted (cell a r)) (rows df)) in Hxs.
  change (ys = map (fun r => converted (cell b r)) (rows df)) in Hys.
  subst xs ys. rewrite shapely_points_map.
  set (point := fun r : row => PPoint (PFloat (converted (cell a r)))
                                      (PFloat (converted (cell b r)))).
  set (gdf := set_column df "geometry" (map point (rows df))).
  assert (Hgdf : rows gdf =
            map (fun r => (fst r, set_nth (column_slot df "geometry") (point r)
                                    (snd r))) (rows df)).
  { unfold gdf. rewrite rows_set_column. apply set_cells_map. }
  assert (Hidx : index_of "geometry" (columns gdf) =
                 Some (column_slot df "geometry"))
    by (unfold gdf; apply index_of_set_column).
  destruct (rows gdf) as [|r1 rest] eqn:Eg; [discriminate |].
  rewrite <- Eg in Hgdf |- *. rewrite Hidx. cbn [bind].
  intros H. inversion H as [Hout]. clear H.
  exists a, b, gdf.
  split; [reflexivity |]. split; [reflexivity |].
  split.
  { intros Hnil. rewrite Hnil, Eg in Hgdf. discriminate Hgdf. }
  split.
  { intros r Hr. split.
    - destruct (Hxok (cell a r)) as [x Hx]; [now apply in_map |].
      now rewrite Hx, (to_float64_converted _ Hx).
    - destruct (Hyok (cell b r)) as [y Hy]; [now apply in_map |].
      now rewrite Hy, (to_float64_converted _ Hy). }
  split; [reflexivity |]. split; [exact Hgdf |].
  split; [apply columns_set_column |].
  rewrite rows_set_column, map_map.
  apply (set_cells_map _
           (fun r => PBool (within_any shp (cell (column_slot df "geometry") r)))).
Qed.

Lemma validate_points_within_shapefile_returns (df : DataFrame)
    (shp : list geometry) :
  mem_str "decimalLongitude" (columns df) = true ->
  mem_str "decimalLatitude" (columns df) = true ->
  rows df <> [] ->
  (forall r, In r (rows df) ->
     exists x y,
       to_float64 (cell_of (columns df) "decimalLongitude" r) = Ok x /\
       to_float64 (cell_of (columns df) "decimalLatitude" r) = Ok y) ->
  exists out, validate_points_within_shapefile df shp = Ok out.
Proof.
  intros Hx Hy Hne Hconv. apply index_of_mem in Hx, Hy.
  destruct Hx as [a Ha], Hy as [b Hb].
  unfold validate_points_within_shapefile, getitem, points_from_xy.
  rewrite Ha, Hb. cbn [bind].
  destruct (mapM_returns to_float64 (map (cell a) (rows df))) as [xs ->].
  { intros v Hv. apply in_map_iff in Hv. destruct Hv as (r & <- & Hr).
    destruct (Hconv r Hr) as (x & y & Hlon & _).
    unfold cell_of in Hlon. rewrite Ha in Hlon. now exists x. }
  cbn [bind].
  destruct (mapM_returns to_float64 (map (cell b) (rows df))) as [ys ->].
  { intros v Hv. apply in_map_iff in Hv. destruct Hv as (r & <- & Hr).
    destruct (Hconv r Hr) as (x & y & _ & Hlat).
    unfold cell_of in Hlat. rewrite Hb in Hlat. now exists y. }
  cbn [bind]. rewrite rows_set_column.
  destruct (rows df) as [|r rs] eqn:Er; [contradiction |].
  destruct (shapely_points xs ys) as [|p ps]; cbn [set_cells];
    rewrite index_of_set_column; cbn [bind]; now eexists.
Qed.

(** C7. On a frame with at least one row, with the two coordinate columns
    and with coordinate cells that convert to floats, the function returns.
    The frame it returns has one row for every point row, in the same order
    and under the same label, and the [within_shapefile] cell of that row is
    true exactly when at least one polygon of the boundary set contains the
    point built from the row's longitude and latitude, each converted to a
    float. *)
Theorem validate_points_within_shapefile_any (df : DataFrame)
    (shp : list geometry) :
  (mem_str "decimalLongitude" (columns df) = true ->
   mem_str "decimalLatitude" (columns df) = true ->
   rows df <> [] ->
   (forall r, In r (rows df) ->
      exists x y,
        to_float64 (cell_of (columns df) "decimalLongitude" r) = Ok x /\
        to_float64 (cell_of (columns df) "decimalLatitude" r) = Ok y) ->
   exists out, validate_points_within_shapefile df shp = Ok out) /\
  (forall out,
     validate_points_within_shapefile df shp = Ok out ->
     List.length (rows out) = List.length (rows df) /\
     forall idx r,
       nth_error (rows df) idx = Some r ->
       exists r' b x y,
         nth_error (rows out) idx = Some r' /\
         fst r' = fst r /\
         to_float64 (cell_of (columns df) "decimalLongitude" r) = Ok x /\
         to_float64 (cell_of (columns df) "decimalLatitude" r) = Ok y /\
         cell_of (columns out) "within_shapefile" r' = PBool b /\
         (b = true <->
          exists polygon,
            In polygon shp /\
            contains polygon (PPoint (PFloat x) (PFloat y)) = true)).
Proof.
  split; [apply validate_points_within_shapefile_returns |].
  intros out H.
  destruct (validate_points_within_shapefile_inv _ _ H)
    as (a & b & gdf & Ha & Hb & Hne & Hconv & Hgdf & Hrg & Hco & Hro).
  split; [now rewrite Hro, Hrg, !length_map |].
  intros idx r Hr.
  assert (Hin : In r (rows df)) by (eapply nth_error_In; exact Hr).
  destruct (Hconv r Hin) as [Hx Hy].
  eexists _, _, (converted (cell a r)), (converted (cell b r)).
  split.
  { rewrite Hro, Hrg, map_map. exact (map_nth_error _ idx (rows df) Hr). }
  cbn [fst snd].
  split; [reflexivity |].
  unfold cell_of. rewrite Ha, Hb.
  split; [exact Hx |]. split; [exact Hy |].
  rewrite Hco, <- (columns_set_column gdf "within_shapefile" []),
    index_of_set_column.
  split.
  - unfold cell at 1. cbn [snd]. rewrite nth_set_nth, Nat.eqb_refl.
    unfold cell at 1. cbn [snd]. rewrite nth_set_nth, Nat.eqb_refl.
    reflexivity.
  - unfold within_any. rewrite existsb_exists. reflexivity.
Qed.

(* ================================================================ *)
(** * [initial_cleaning] *)

Lemma key_mem_In (k : list pyval) (seen : list (list pyval)) :
  key_mem k seen = true <-> In k seen.
Proof.
  unfold key_mem. rewrite existsb_exists. split.
  - intros (x & Hx & E).
    destruct (list_eq_dec pyval_eq_dec k x); [now subst | discriminate].
  - intros H. exists k. split; [exact H |].
    destruct (list_eq_dec pyval_eq_dec k k); [reflexivity | contradiction].
Qed.

Lemma drop_dups_In (rs : list row) (seen : list (list pyval)) (r : row) :
  In r (drop_dups seen rs) -> In r rs /\ ~ In (row_key r) seen.
Proof.
  revert seen. induction rs as [|x rs IH]; intros seen; simpl; [ptauto |].
  destruct (key_mem (row_key x) seen) eqn:E.
  - intros H. apply IH in H. ptauto.
  - intros [<-|H].
    + split; [now left |]. intros H. apply key_mem_In in H. congruence.
    + apply IH in H. simpl in H. ptauto.
Qed.

Lemma drop_dups_NoDup (rs : list row) (seen : list (list pyval)) :
  NoDup (map row_key (drop_dups seen rs)).
Proof.
  revert seen. induction rs as [|x rs IH]; intros seen; simpl; [constructor |].
  destruct (key_mem (row_key x) seen); [apply IH |].
  simpl. constructor; [| apply IH].
  intros H. apply in_map_iff in H. destruct H as (r & Hk & Hr).
  apply drop_dups_In in Hr. destruct Hr as [_ Hr]. apply Hr.
  rewrite Hk. now left.
Qed.

(** A list of rows that are pairwise different, and different from the
    rows already seen, passes unchanged. *)
Lemma drop_dups_fixed (rs : list row) (seen : list (list pyval)) :
  NoDup (map row_key rs) ->
  (forall r, In r rs -> ~ In (row_key r) seen) ->
  drop_dups seen rs = rs.
Proof.
  revert seen. induction rs as [|x rs IH]; intros seen Hnd Hseen; simpl;
    [reflexivity |].
  inversion Hnd as [|k ks Hx Hnd']; subst.
  destruct (key_mem (row_key x) seen) eqn:E.
  - apply key_mem_In in E. exfalso. apply (Hseen x); [now left | exact E].
  - f_equal. apply IH; [exact Hnd' |].
    intros r Hr [Hk|Hk].
    + apply Hx. rewrite Hk. now apply in_map.
    + apply (Hseen r); [now right | exact Hk].
Qed.

Lemma drop_duplicates_idempotent (df : DataFrame) :
  drop_duplicates (drop_duplicates df) = drop_duplicates df.
Proof.
  unfold drop_duplicates. cbn [columns rows]. f_equal.
  apply drop_dups_fixed; [apply drop_dups_NoDup |].
  intros r _ [].
Qed.

Lemma filter_nil {A} (p : A -> bool) (l : list A) :
  filter p l = [] <-> forall x, In x l -> p x = false.
Proof.
  induction l as [|a l IH]; simpl; [ptauto |].
  destruct (p a) eqn:E.
  - split; [discriminate |]. intros H. rewrite (H a) in E; [discriminate | now left].
  - rewrite IH. split.
    + intros H x [<-|Hx]; auto.
    + intros H x Hx. apply H. now right.
Qed.

Lemma select_returns (df : DataFrame) (cols : list string) :
  (forall c, In c cols -> mem_str c (columns df) = true) ->
  select df cols =
  Ok {| columns := cols;
        rows := map (fun r => (fst r, map (fun c => cell_of (columns df) c r) cols))
                    (rows df) |}.
Proof.
  intros H. unfold select.
  replace (filter (fun c => negb (mem_str c (columns df))) cols) with (@nil string);
    [reflexivity |].
  symmetry. apply filter_nil. intros c Hc. now rewrite (H c Hc).
Qed.

Lemma select_inv (df out : DataFrame) (cols : list string) :
  select df cols = Ok out ->
  out = {| columns := cols;
           rows := map (fun r => (fst r, map (fun c => cell_of (columns df) c r) cols))
                       (rows df) |}.
Proof.
  unfold select.
  destruct (filter (fun c => negb (mem_str c (columns df))) cols);
    intros H; now inversion H.
Qed.

(** A frame that already has the nine columns, in order, and nine cells
    in every row is its own projection. *)
Lemma select_nine_fixed (df : DataFrame) :
  columns df = nine_columns ->
  (forall r, In r (rows df) -> List.length (snd r) = 9%nat) ->
  select df nine_columns = Ok df.
Proof.
  intros Hc Hr. rewrite select_returns.
  - destruct df as [cols rs]. cbn [columns rows] in *. subst cols.
    f_equal. f_equal.
    rewrite <- (map_id rs) at 2. apply map_ext_in. intros [l cells] Hin.
    specialize (Hr _ Hin). cbn [snd fst] in *.
    do 10 (destruct cells as [|? cells]; try discriminate).
    reflexivity.
  - rewrite Hc. intros c Hc'.
    repeat (destruct Hc' as [<-|Hc']; [reflexivity |]). contradiction.
Qed.

(** C8. On a frame that has the nine columns the cleaner returns, and
    cleaning its result again returns that result unchanged; a frame that is
    already projected to the nine columns and free of duplicate rows is
    returned as it is, rows in their order. *)
Theorem initial_cleaning_idempotent :
  (forall df,
     (forall c, In c nine_columns -> mem_str c (columns df) = true) ->
     exists cleaned,
       initial_cleaning df = Ok cleaned /\
       initial_cleaning cleaned = Ok cleaned) /\
  (forall df cleaned,
     initial_cleaning df = Ok cleaned -> initial_cleaning cleaned = Ok cleaned) /\
  (forall df,
     columns df = nine_columns ->
     (forall r, In r (rows df) -> List.length (snd r) = 9%nat) ->
     NoDup (map row_key (rows df)) ->
     initial_cleaning df = Ok df).
Proof.
  assert (Hfixed : forall df,
    columns df = nine_columns ->
    (forall r, In r (rows df) -> List.length (snd r) = 9%nat) ->
    NoDup (map row_key (rows df)) ->
    initial_cleaning df = Ok df).
  { intros df Hc Hr Hnd. unfold initial_cleaning.
    rewrite (select_nine_fixed df Hc Hr). cbn [bind].
    unfold drop_duplicates. destruct df as [cols rs]. cbn [columns rows] in *.
    f_equal. f_equal. apply drop_dups_fixed; [exact Hnd |]. intros r _ []. }
  assert (Hidem : forall df cleaned,
    initial_cleaning df = Ok cleaned -> initial_cleaning cleaned = Ok cleaned).
  { intros df cleaned. unfold initial_cleaning at 1.
    destruct (select df nine_columns) as [projected|e] eqn:E; [| discriminate].
    cbn [bind]. intros H. inversion H; subst cleaned; clear H.
    apply select_inv in E. subst projected.
    apply Hfixed.
    - reflexivity.
    - cbn [drop_duplicates columns rows]. intros r Hr.
      apply drop_dups_In in Hr. destruct Hr as [Hr _].
      apply in_map_iff in Hr. destruct Hr as (r0 & <- & _). reflexivity.
    - apply drop_dups_NoDup. }
  split; [| split; [exact Hidem | exact Hfixed]].
  intros df Hcols.
  exists (drop_duplicates
            {| columns := nine_columns;
               rows := map (fun r => (fst r, map (fun c => cell_of (columns df) c r)
                                                nine_columns)) (rows df) |}).
  assert (H1 : initial_cleaning df = Ok (drop_duplicates
            {| columns := nine_columns;
               rows := map (fun r => (fst r, map (fun c => cell_of (columns df) c r)
                                                nine_columns)) (rows df) |})).
  { unfold initial_cleaning. now rewrite (select_returns df _ Hcols). }
  split; [exact H1 | exact (Hidem _ _ H1)].
Qed.

(* ================================================================ *)
(** * [curate_data] on an empty stage *)

Lemma validate_georeferencing_empty (df out : DataFrame) :
  validate_georeferencing df = Ok out -> rows out = [] ->
  out = {| columns := []; rows := [] |}.
Proof.
  unfold validate_georeferencing.
  destruct (georef_loop (columns df) 0 (rows df) []) as [res|e];
    [| discriminate].
  cbn [bind]. intros H. inversion H; subst; clear H.
  rewrite rows_DataFrame_of_rows. now intros ->.
Qed.

Lemma taxonomic_validation_no_columns :
  taxonomic_validation {| columns := []; rows := [] |} =
  Raise (KeyError ["species"]).
Proof. reflexivity. Qed.

Lemma initial_cleaning_no_columns (rs : list row) :
  initial_cleaning {| columns := []; rows := rs |} =
  Raise (KeyError nine_columns).
Proof. reflexivity. Qed.

(** C9. When the first request of the fetch returns no record, the run
    writes the raw file and then ends with the missing-column error raised
    by the cleaner; when the stages up to the georeference validation return
    and that validation keeps no row, the run writes the raw file and then
    ends with the missing-column error raised by the taxonomic validation.
    In both cases no curated file and no report is written and no frame is
    returned. *)
Theorem curate_data_empty_stage (fuel : nat) (species_name : string)
    (min_date max_date : timestamp) (limit_per_request : Z) :
  (search 0 species_name limit_per_request 0 = Ok [] ->
   (0 < fuel)%nat ->
   curate_data fuel species_name min_date max_date limit_per_request =
     Some ([CsvFile (file_stem species_name ++ "_gbif_raw_data.csv")
                    {| columns := []; rows := [] |}],
           Raise (KeyError nine_columns))) /\
  (forall requests raw_data url cleaned validated n0 n1 n2 georeferenced,
     fetch_all_gbif_data fuel species_name limit_per_request =
       Some (requests, Ok (raw_data, url)) ->
     initial_cleaning raw_data = Ok cleaned ->
     validate_data cleaned min_date max_date = Ok (validated, n0, n1, n2) ->
     validate_georeferencing validated = Ok georeferenced ->
     rows georeferenced = [] ->
     curate_data fuel species_name min_date max_date limit_per_request =
       Some ([CsvFile (file_stem species_name ++ "_gbif_raw_data.csv") raw_data],
             Raise (KeyError ["species"]))).
Proof.
  split.
  - intros Hs Hfuel. destruct fuel as [|fuel]; [lia |].
    unfold curate_data, fetch_all_gbif_data. cbn [fetch_loop]. rewrite Hs.
    reflexivity.
  - intros requests raw_data url cleaned validated n0 n1 n2 geo
      Hfetch Hclean Hval Hgeo Hrows.
    unfold curate_data, curate_stages. rewrite Hfetch, Hclean. cbn [bind].
    rewrite Hval. cbn [bind]. rewrite Hgeo. cbn [bind].
    rewrite (validate_georeferencing_empty _ Hgeo Hrows).
    now rewrite taxonomic_validation_no_columns.
Qed.

(* ================================================================ *)
(** * Rows through the stages *)

Lemma filter_from_In (p : nat -> row -> bool) (rs : list row) (i : nat) (r : row) :
  In r (filter_from i p rs) -> In r rs.
Proof.
  revert i. induction rs as [|x rs IH]; intros i; simpl; [ptauto |].
  destruct (p i x); simpl; intros H.
  - destruct H as [H|H]; [now left | right; now apply (IH (S i))].
  - right. now apply (IH (S i)).
Qed.

Lemma index_of_lt (c : string) (cols : list string) (i : nat) :
  index_of c cols = Some i -> (i < List.length cols)%nat.
Proof.
  revert i. induction cols as [|x cols IH]; intros i; simpl; [discriminate |].
  destruct (String.eqb c x).
  - intros H. inversion H. lia.
  - destruct (index_of c cols) as [j|]; [| discriminate].
    intros H. inversion H. specialize (IH j eq_refl). lia.
Qed.

Lemma index_of_app_other (c d : string) (cols : list string) :
  c <> d -> index_of c (cols ++ [d]) = index_of c cols.
Proof.
  intros Hne. induction cols as [|x cols IH]; simpl.
  - now rewrite (proj2 (String.eqb_neq c d) Hne).
  - destruct (String.eqb c x); [reflexivity | now rewrite IH].
Qed.

Lemma set_cells_repeat (i : nat) (v : pyval) (rs : list row) :
  set_cells i rs (repeat v (List.length rs)) =
  map (fun r => (fst r, set_nth i v (snd r))) rs.
Proof. induction rs as [|r rs IH]; simpl; [reflexivity | now rewrite IH]. Qed.

Lemma enrich_data_rows (df : DataFrame) :
  rows (enrich_data df) =
  map (fun r => (fst r, set_nth (column_slot df "dataSource") (PStr "GBIF") (snd r)))
      (rows df).
Proof.
  unfold enrich_data, len. rewrite rows_set_column. apply set_cells_repeat.
Qed.

Lemma enrich_data_other_column (df : DataFrame) (c : string) (r : row) :
  c <> "dataSource" ->
  cell_of (columns (enrich_data df)) c
    (fst r, set_nth (column_slot df "dataSource") (PStr "GBIF") (snd r)) =
  cell_of (columns df) c r.
Proof.
  intros Hne. unfold cell_of, enrich_data, set_column, column_slot.
  destruct (index_of "dataSource" (columns df)) as [s|] eqn:Es; cbn [columns].
  - destruct (index_of c (columns df)) as [x|] eqn:Ex; [| reflexivity].
    unfold cell. cbn [snd]. rewrite nth_set_nth.
    destruct (Nat.eqb x s) eqn:E; [| reflexivity].
    apply Nat.eqb_eq in E. subst x. now destruct (Hne (index_of_inj _ _ _ Ex Es)).
  - rewrite (index_of_app_other _ Hne).
    destruct (index_of c (columns df)) as [x|] eqn:Ex; [| reflexivity].
    unfold cell. cbn [snd]. rewrite nth_set_nth.
    apply index_of_lt in Ex.
    now rewrite (proj2 (Nat.eqb_neq x (List.length (columns df)))) by lia.
Qed.

(** C5, rows traced through the stages. Every row that a stage returns comes from one row
    of the stage's input, with the same label; no stage makes a row of its
    own. Cleaning projects the row to the nine columns; coordinate and date
    validation keeps every cell except the latitude and the longitude, which
    are rounded, and the [eventDate], which becomes the date it parses to;
    georeference and taxonomic validation return input rows unchanged;
    enrichment keeps every cell and sets [dataSource] to ['GBIF']. *)
Theorem stages_keep_rows :
  (forall df out,
     initial_cleaning df = Ok out ->
     columns out = nine_columns /\
     forall r', In r' (rows out) ->
       exists r, In r (rows df) /\ fst r' = fst r /\
         snd r' = map (fun c => cell_of (columns df) c r) nine_columns) /\
  (forall df out min_date max_date n0 n1 n2,
     validate_data df min_date max_date = Ok (out, n0, n1, n2) ->
     columns out = columns df /\
     forall r', In r' (rows out) ->
       exists r, In r (rows df) /\ fst r' = fst r /\
         (forall c, c <> "decimalLatitude" -> c <> "decimalLongitude" ->
                    c <> "eventDate" ->
                    cell_of (columns df) c r' = cell_of (columns df) c r) /\
         cell_of (columns df) "decimalLatitude" r' =
           round_cell (cell_of (columns df) "decimalLatitude" r) /\
         cell_of (columns df) "decimalLongitude" r' =
           round_cell (cell_of (columns df) "decimalLongitude" r) /\
         exists t,
           to_datetime (cell_of (columns df) "eventDate" r) = DtTimestamp t /\
           cell_of (columns df) "eventDate" r' = PTimestamp t) /\
  (forall df out,
     validate_georeferencing df = Ok out ->
     forall r, In r (rows out) -> columns out = columns df /\ In r (rows df)) /\
  (forall df out n,
     taxonomic_validation df = Ok (out, n) ->
     columns out = columns df /\
     forall r, In r (rows out) -> In r (rows df)) /\
  (forall df r', In r' (rows (enrich_data df)) ->
     exists r, In r (rows df) /\ fst r' = fst r /\
       (forall c, c <> "dataSource" ->
                  cell_of (columns (enrich_data df)) c r' =
                  cell_of (columns df) c r) /\
       cell_of (columns (enrich_data df)) "dataSource" r' = PStr "GBIF").
Proof.
  split; [| split; [| split; [| split]]].
  - intros df out. unfold initial_cleaning.
    destruct (select df nine_columns) as [projected|e] eqn:E; [| discriminate].
    cbn [bind]. intros H. inversion H; subst; clear H.
    apply select_inv in E. subst projected.
    split; [reflexivity |].
    cbn [drop_duplicates rows columns]. intros r' Hr'.
    apply drop_dups_In in Hr'. destruct Hr' as [Hr' _].
    apply in_map_iff in Hr'. destruct Hr' as (r & <- & Hr).
    now exists r.
  - intros df out min_date max_date n0 n1 n2 H.
    destruct (validate_data_rows _ _ _ H)
      as (i & j & k & Hi & Hj & Hk & -> & _).
    split; [reflexivity |].
    cbn [rows]. intros r' Hr'. unfold validated_rows in Hr'.
    apply filter_In in Hr'. destruct Hr' as [Hr' Hnn].
    rewrite !map_map in Hr'. apply in_map_iff in Hr'.
    destruct Hr' as (r & <- & Hr).
    apply filter_In in Hr. destruct Hr as [Hr _].
    assert (Hij : i <> j).
    { intros ->. discriminate (index_of_inj _ _ _ Hi Hj). }
    assert (Hik : i <> k).
    { intros ->. discriminate (index_of_inj _ _ _ Hi Hk). }
    assert (Hjk : j <> k).
    { intros ->. discriminate (index_of_inj _ _ _ Hj Hk). }
    exists r. split; [exact Hr |]. split; [reflexivity |].
    rewrite !cell_update_cell in Hnn.
    rewrite (proj2 (Nat.eqb_neq k j) (not_eq_sym Hjk)),
      (proj2 (Nat.eqb_neq k i) (not_eq_sym Hik)), !Nat.eqb_refl in Hnn.
    unfold cell_of. rewrite Hi, Hj, Hk.
    split; [| split; [| split]].
    + intros c H1 H2 H3.
      destruct (index_of c (columns df)) as [x|] eqn:Ex; [| reflexivity].
      rewrite !cell_update_cell.
      assert (Hxi : x <> i) by (intros ->; apply H1; exact (index_of_inj _ _ _ Ex Hi)).
      assert (Hxj : x <> j) by (intros ->; apply H2; exact (index_of_inj _ _ _ Ex Hj)).
      assert (Hxk : x <> k) by (intros ->; apply H3; exact (index_of_inj _ _ _ Ex Hk)).
      now rewrite (proj2 (Nat.eqb_neq x k) Hxk), (proj2 (Nat.eqb_neq x j) Hxj),
        (proj2 (Nat.eqb_neq x i) Hxi).
    + rewrite !cell_update_cell.
      now rewrite (proj2 (Nat.eqb_neq i k) Hik), (proj2 (Nat.eqb_neq i j) Hij),
        Nat.eqb_refl.
    + rewrite !cell_update_cell.
      now rewrite (proj2 (Nat.eqb_neq j k) Hjk), !Nat.eqb_refl,
        (proj2 (Nat.eqb_neq j i) (not_eq_sym Hij)).
    + destruct (is_valid_date_timestamp _ _ _ Hnn) as (t & Ht & Hv & _).
      exists t. split; [exact Ht |].
      rewrite !cell_update_cell.
      now rewrite (proj2 (Nat.eqb_neq k j) (not_eq_sym Hjk)),
        (proj2 (Nat.eqb_neq k i) (not_eq_sym Hik)), !Nat.eqb_refl.
  - intros df out. unfold validate_georeferencing.
    destruct (georef_loop (columns df) 0 (rows df) []) as [res|e] eqn:E;
      [| discriminate].
    cbn [bind]. intros H. inversion H; subst; clear H.
    intros r Hr. rewrite rows_DataFrame_of_rows in Hr.
    split; [destruct res; [contradiction | reflexivity] |].
    rewrite (georef_loop_filter _ _ _ _ E) in Hr.
    now apply filter_from_In in Hr.
  - intros df out n H.
    destruct (taxonomic_validation_rows _ H) as (i & _ & -> & _).
    split; [reflexivity |]. cbn [rows]. intros r Hr.
    now apply filter_In in Hr.
  - intros df r' Hr'. rewrite enrich_data_rows in Hr'.
    apply in_map_iff in Hr'. destruct Hr' as (r & <- & Hr).
    exists r. split; [exact Hr |]. split; [reflexivity |].
    split; [intros c Hc; now apply enrich_data_other_column |].
    unfold cell_of, enrich_data. rewrite index_of_set_column.
    unfold cell. cbn [snd]. now rewrite nth_set_nth, Nat.eqb_refl.
Qed.

(* ================================================================ *)
(** * Further facts: [fetch_all_gbif_data] *)

Lemma fetch_loop_failure (pages : list (list pydict)) (e : exn) :
  forall fuel n species_name p offset all_records requests,
    fails_after n species_name p offset pages e ->
    (List.length pages < fuel)%nat ->
    fetch_loop fuel n species_name p offset all_records requests =
    Some ((requests ++ offsets_from offset p (S (List.length pages)))%list,
          Raise e).
Proof.
  induction pages as [|page rest IH];
    intros fuel n species_name p offset all_records requests Hs Hfuel.
  - destruct fuel as [|fuel]; [simpl in Hfuel; lia |].
    simpl in Hs. simpl. now rewrite Hs.
  - destruct fuel as [|fuel]; [simpl in Hfuel; lia |].
    destruct Hs as (Hpage & Hne & Hrest).
    cbn [fetch_loop]. rewrite Hpage.
    destruct page as [|rec page]; [contradiction |].
    rewrite (IH fuel (S n) species_name p (offset + p)) by
      (try exact Hrest; simpl in Hfuel; lia).
    cbn [List.length offsets_from].
    now rewrite <- !app_assoc.
Qed.

(** X1. A request that fails ends the fetch with its exception: when the
    service answers the first requests with non-empty pages and fails on the
    next one, the fetch makes no further request, returns none of the records
    already received, and the run writes no file. *)
Theorem fetch_request_failure_is_fatal (species_name : string) (p : Z)
    (pages : list (list pydict)) (e : exn) (fuel : nat)
    (min_date max_date : timestamp) :
  fails_after 0 species_name p 0 pages e ->
  (List.length pages < fuel)%nat ->
  fetch_all_gbif_data fuel species_name p =
    Some (offsets_from 0 p (S (List.length pages)), Raise e) /\
  curate_data fuel species_name min_date max_date p = Some ([], Raise e).
Proof.
  intros Hs Hfuel.
  assert (H : fetch_all_gbif_data fuel species_name p =
              Some (offsets_from 0 p (S (List.length pages)), Raise e)).
  { unfold fetch_all_gbif_data.
    now rewrite (@fetch_loop_failure pages e fuel 0%nat species_name p 0 [] []
                   Hs Hfuel). }
  split; [exact H |]. unfold curate_data. now rewrite H.
Qed.

Lemma fetch_loop_never_empty (species_name : string) (p : Z) :
  (forall n offset, exists record records,
     search n species_name p offset = Ok (record :: records)) ->
  forall fuel n offset all_records requests,
    fetch_loop fuel n species_name p offset all_records requests = None.
Proof.
  intros Hall. induction fuel as [|fuel IH];
    intros n offset all_records requests; [reflexivity |].
  cbn [fetch_loop]. destruct (Hall n offset) as (rec & recs & ->). apply IH.
Qed.

(** X2. The fetch has no bound of its own on the number of requests: when
    the service answers every request with a non-empty page, the loop is still
    running after any number of steps, and so is the run, which has then
    written nothing. *)
Theorem fetch_runs_while_pages_come (species_name : string) (p : Z)
    (min_date max_date : timestamp) :
  (forall n offset, exists record records,
     search n species_name p offset = Ok (record :: records)) ->
  forall fuel,
    fetch_all_gbif_data fuel species_name p = None /\
    curate_data fuel species_name min_date max_date p = None.
Proof.
  intros Hall fuel.
  assert (H : fetch_all_gbif_data fuel species_name p = None).
  { unfold fetch_all_gbif_data. now rewrite fetch_loop_never_empty. }
  split; [exact H |]. unfold curate_data. now rewrite H.
Qed.


(* ================================================================ *)
(** * Further facts: [initial_cleaning] *)

Lemma mem_str_In (c : string) (l : list string) : mem_str c l = true <-> In c l.
Proof.
  unfold mem_str. rewrite existsb_exists. split.
  - intros (x & Hx & E). apply String.eqb_eq in E. now subst.
  - intros H. exists c. split; [exact H | apply String.eqb_refl].
Qed.

Lemma drop_dups_length (rs : list row) (seen : list (list pyval)) :
  (List.length (drop_dups seen rs) <= List.length rs)%nat.
Proof.
  revert seen. induction rs as [|r rs IH]; intros seen; simpl; [lia |].
  destruct (key_mem (row_key r) seen); simpl.
  - specialize (IH seen). lia.
  - specialize (IH (row_key r :: seen)). lia.
Qed.

Lemma drop_dups_subseq (rs : list row) (seen : list (list pyval)) :
  subseq (drop_dups seen rs) rs.
Proof.
  revert seen. induction rs as [|r rs IH]; intros seen; simpl; [constructor |].
  destruct (key_mem (row_key r) seen); constructor; apply IH.
Qed.

Lemma drop_dups_complete (rs : list row) (seen : list (list pyval)) (r : row) :
  In r rs ->
  In (row_key r) seen \/
  exists r', In r' (drop_dups seen rs) /\ row_key r' = row_key r.
Proof.
  revert seen. induction rs as [|x rs IH]; intros seen; simpl; [intros [] |].
  intros [<-|Hr].
  - destruct (key_mem (row_key x) seen) eqn:E.
    + left. now apply key_mem_In.
    + right. exists x. split; [now left | reflexivity].
  - destruct (key_mem (row_key x) seen) eqn:E.
    + apply IH, Hr.
    + destruct (IH (row_key x :: seen) Hr) as [[Hk|Hk]|(r' & Hr' & Hk)].
      * right. exists x. split; [now left | exact Hk].
      * now left.
      * right. exists r'. split; [now right | exact Hk].
Qed.

Lemma drop_dups_first (l1 l2 : list row) (r : row) (seen : list (list pyval)) :
  ~ In (row_key r) seen ->
  (forall x, In x l1 -> row_key x <> row_key r) ->
  In r (drop_dups seen (l1 ++ r :: l2)).
Proof.
  revert seen. induction l1 as [|x l1 IH]; intros seen Hseen Hl1; simpl.
  - destruct (key_mem (row_key r) seen) eqn:E; [| now left].
    apply key_mem_In in E. contradiction.
  - assert (Hx : row_key x <> row_key r) by (apply Hl1; now left).
    assert (Hrest : forall y, In y l1 -> row_key y <> row_key r)
      by (intros y Hy; apply Hl1; now right).
    destruct (key_mem (row_key x) seen).
    + now apply IH.
    + right. apply IH; [| exact Hrest]. intros [H|H]; [now apply Hx | now apply Hseen].
Qed.

(** X4. The cleaner returns exactly when the frame has the nine columns,
    whatever other columns it has; what it returns has the nine columns in the
    fixed order, nine cells in every row and no more rows than the input.
    Otherwise it raises [KeyError] with the required columns that the frame
    lacks, and only those. *)
Theorem initial_cleaning_schema (df : DataFrame) :
  ((exists out, initial_cleaning df = Ok out) <->
   forall c, In c nine_columns -> In c (columns df)) /\
  (forall out,
     initial_cleaning df = Ok out ->
     columns out = nine_columns /\
     (forall r, In r (rows out) -> List.length (snd r) = 9%nat) /\
     (len out <= len df)%nat) /\
  (forall e,
     initial_cleaning df = Raise e ->
     exists missing,
       e = KeyError missing /\ missing <> [] /\
       forall c, In c missing <-> In c nine_columns /\ ~ In c (columns df)).
Proof.
  assert (Hmissing : forall c,
    In c (filter (fun c => negb (mem_str c (columns df))) nine_columns) <->
    In c nine_columns /\ ~ In c (columns df)).
  { intros c. rewrite filter_In, negb_true_iff, <- not_true_iff_false,
      mem_str_In. reflexivity. }
  split; [| split].
  - split.
    + intros [out H] c Hc.
      unfold initial_cleaning, select in H.
      destruct (filter (fun c => negb (mem_str c (columns df))) nine_columns)
        as [|m ms] eqn:E; [| discriminate].
      destruct (in_dec string_dec c (columns df)) as [Hin|Hout]; [exact Hin |].
      assert (Hm : In c []) by (apply Hmissing; now split). destruct Hm.
    + intros H. unfold initial_cleaning.
      rewrite select_returns by (intros c Hc; now apply mem_str_In, H).
      cbn [bind]. now eexists.
  - intros out. unfold initial_cleaning.
    destruct (select df nine_columns) as [projected|e] eqn:E; [| discriminate].
    cbn [bind]. intros H. inversion H; subst; clear H.
    apply select_inv in E. subst projected.
    split; [reflexivity |]. split.
    + cbn [drop_duplicates rows columns]. intros r Hr.
      apply drop_dups_In in Hr. destruct Hr as [Hr _].
      apply in_map_iff in Hr. destruct Hr as (r0 & <- & _). reflexivity.
    + unfold len. cbn [drop_duplicates rows columns].
      pose proof (drop_dups_length
        (map (fun r => (fst r, map (fun c => cell_of (columns df) c r) nine_columns))
             (rows df)) []) as Hlen.
      now rewrite length_map in Hlen.
  - intros e. unfold initial_cleaning, select.
    destruct (filter (fun c => negb (mem_str c (columns df))) nine_columns)
      as [|m ms] eqn:E; [discriminate |].
    cbn [bind]. intros H. inversion H; subst; clear H.
    exists (m :: ms). split; [reflexivity |]. split; [discriminate |].
    intros c. apply Hmissing.
Qed.

(** X5. Duplicate removal keeps the first of every group of equal rows:
    the rows returned are rows of the projected input in their order, no two
    of them are equal, every projected row has an equal among them, and a row
    that no earlier row equals is itself returned. *)
Theorem initial_cleaning_keeps_first (df out : DataFrame) :
  initial_cleaning df = Ok out ->
  let projected :=
    map (fun r => (fst r, map (fun c => cell_of (columns df) c r) nine_columns))
        (rows df) in
  subseq (rows out) projected /\
  NoDup (map row_key (rows out)) /\
  (forall r, In r projected ->
     exists r', In r' (rows out) /\ row_key r' = row_key r) /\
  (forall earlier r later,
     projected = (earlier ++ r :: later)%list ->
     (forall x, In x earlier -> row_key x <> row_key r) ->
     In r (rows out)).
Proof.
  unfold initial_cleaning.
  destruct (select df nine_columns) as [selected|e] eqn:E; [| discriminate].
  cbn [bind]. intros H. inversion H; subst; clear H.
  apply select_inv in E. subst selected.
  cbn [drop_duplicates rows columns].
  split; [apply drop_dups_subseq |].
  split; [apply drop_dups_NoDup |].
  split.
  - intros r Hr. destruct (drop_dups_complete _ [] _ Hr) as [[]|H]. exact H.
  - intros earlier r later Heq Hfirst. rewrite Heq.
    apply drop_dups_first; [intros [] | exact Hfirst].
Qed.


(* ================================================================ *)
(** * Further facts: [validate_data] *)

Lemma between_not_orderable (lo hi : Z) (v : pyval) :
  orderable v = false -> between lo hi v = Raise TypeError.
Proof. destruct v; simpl; intros H; try discriminate; reflexivity. Qed.

Lemma mapM_between_raises (lo hi : Z) (l : list pyval) :
  (exists v, In v l /\ orderable v = false) ->
  mapM (between lo hi) l = Raise TypeError.
Proof.
  induction l as [|x l IH]; intros (v & Hv & Ho); [destruct Hv |].
  simpl. destruct (orderable x) eqn:Ex.
  - destruct (between_orderable lo hi x Ex) as [b ->]. cbn [bind].
    rewrite IH; [reflexivity |].
    destruct Hv as [->|Hv]; [congruence | now exists v].
  - now rewrite (between_not_orderable lo hi x Ex).
Qed.

Lemma mapM_between_returns (lo hi : Z) (l : list pyval) :
  (forall v, In v l -> orderable v = true) ->
  exists bs, mapM (between lo hi) l = Ok bs.
Proof.
  intros H. apply mapM_total. intros v Hv. now apply between_orderable, H.
Qed.

Lemma index_of_not_mem (c : string) (cols : list string) :
  mem_str c cols = false -> index_of c cols = None.
Proof.
  intros H. destruct (index_of c cols) as [i|] eqn:E; [| reflexivity].
  assert (mem_str c cols = true) by (apply index_of_mem; now exists i).
  congruence.
Qed.

(** X6. What [validate_data] raises, in the order in which it reads the
    frame: [KeyError] for a missing latitude column; [TypeError] when a
    latitude cell is a text or a date, rather than dropping that row;
    [KeyError] for a missing longitude column; [TypeError] for such a
    longitude cell; and [KeyError] for a missing [eventDate] column, which is
    looked for only after the coordinates have been filtered. *)
Theorem validate_data_raises (df : DataFrame) (min_date max_date : timestamp) :
  (mem_str "decimalLatitude" (columns df) = false ->
   validate_data df min_date max_date =
     Raise (KeyError ["decimalLatitude"])) /\
  (mem_str "decimalLatitude" (columns df) = true ->
   (exists r, In r (rows df) /\
      orderable (cell_of (columns df) "decimalLatitude" r) = false) ->
   validate_data df min_date max_date = Raise TypeError) /\
  (mem_str "decimalLatitude" (columns df) = true ->
   (forall r, In r (rows df) ->
      orderable (cell_of (columns df) "decimalLatitude" r) = true) ->
   (mem_str "decimalLongitude" (columns df) = false ->
    validate_data df min_date max_date =
      Raise (KeyError ["decimalLongitude"])) /\
   (mem_str "decimalLongitude" (columns df) = true ->
    (exists r, In r (rows df) /\
       orderable (cell_of (columns df) "decimalLongitude" r) = false) ->
    validate_data df min_date max_date = Raise TypeError) /\
   (mem_str "decimalLongitude" (columns df) = true ->
    (forall r, In r (rows df) ->
       orderable (cell_of (columns df) "decimalLongitude" r) = true) ->
    mem_str "eventDate" (columns df) = false ->
    validate_data df min_date max_date = Raise (KeyError ["eventDate"]))).
Proof.
  split; [| split].
  - intros H. unfold validate_data, getitem.
    now rewrite (index_of_not_mem _ _ H).
  - intros Hlat (r & Hr & Ho). apply index_of_mem in Hlat.
    destruct Hlat as [i Hi]. unfold validate_data, getitem. rewrite Hi.
    cbn [bind]. rewrite mapM_between_raises; [reflexivity |].
    exists (cell i r). split; [now apply in_map |].
    unfold cell_of in Ho. now rewrite Hi in Ho.
  - intros Hlat Hall. apply index_of_mem in Hlat. destruct Hlat as [i Hi].
    destruct (mapM_between_returns (-90) 90 (map (cell i) (rows df)))
      as [lat_range Hlatr].
    { intros v Hv. apply in_map_iff in Hv. destruct Hv as (r & <- & Hr).
      specialize (Hall r Hr). unfold cell_of in Hall. now rewrite Hi in Hall. }
    split; [| split].
    + intros H. unfold validate_data, getitem. rewrite Hi. cbn [bind].
      rewrite Hlatr. cbn [bind]. now rewrite (index_of_not_mem _ _ H).
    + intros Hlon (r & Hr & Ho). apply index_of_mem in Hlon.
      destruct Hlon as [j Hj]. unfold validate_data, getitem. rewrite Hi.
      cbn [bind]. rewrite Hlatr. cbn [bind]. rewrite Hj. cbn [bind].
      rewrite mapM_between_raises; [reflexivity |].
      exists (cell j r). split; [now apply in_map |].
      unfold cell_of in Ho. now rewrite Hj in Ho.
    + intros Hlon Hall2 Hdate. apply index_of_mem in Hlon.
      destruct Hlon as [j Hj].
      destruct (mapM_between_returns (-180) 180 (map (cell j) (rows df)))
        as [lon_range Hlonr].
      { intros v Hv. apply in_map_iff in Hv. destruct Hv as (r & <- & Hr).
        specialize (Hall2 r Hr). unfold cell_of in Hall2.
        now rewrite Hj in Hall2. }
      unfold validate_data, getitem.
      rewrite Hi. cbn [bind]. rewrite Hlatr. cbn [bind].
      rewrite Hj. cbn [bind]. rewrite Hlonr. cbn [bind].
      assert (Hm : filter_mask df
                (and_mask (and_mask (and_mask lat_range lon_range)
                                    (map valid_decimals (map (cell i) (rows df))))
                          (map valid_decimals (map (cell j) (rows df)))) =
              {| columns := columns df;
                 rows := filter (coord_ok (columns df)) (rows df) |}).
      { unfold filter_mask. now rewrite (coordinate_mask df Hi Hj Hlatr Hlonr). }
      rewrite Hm. clear Hm.
      cbn [columns]. rewrite Hi. cbn [bind].
      rewrite set_column_update by exact Hi.
      cbn [columns]. rewrite Hj. cbn [bind].
      rewrite set_column_update by exact Hj.
      cbn [columns]. now rewrite (index_of_not_mem _ _ Hdate).
Qed.

Lemma subseq_refl {A} (l : list A) : subseq l l.
Proof. induction l; constructor; assumption. Qed.

Lemma subseq_trans {A} (a b c : list A) : subseq a b -> subseq b c -> subseq a c.
Proof.
  intros Hab Hbc. revert a Hab.
  induction Hbc as [|x sub l Hbc IH|x sub l Hbc IH]; intros a Hab.
  - exact Hab.
  - constructor. now apply IH.
  - inversion Hab; subst; constructor; now apply IH.
Qed.

Lemma subseq_filter {A} (p : A -> bool) (l : list A) : subseq (filter p l) l.
Proof.
  induction l as [|x l IH]; simpl; [constructor |].
  destruct (p x); constructor; exact IH.
Qed.

Lemma subseq_map {A B} (f : A -> B) (a b : list A) :
  subseq a b -> subseq (map f a) (map f b).
Proof. induction 1; simpl; constructor; assumption. Qed.

Lemma subseq_length {A} (a b : list A) :
  subseq a b -> (List.length a <= List.length b)%nat.
Proof. induction 1; simpl; lia. Qed.

Lemma length_filter_le {A} (p : A -> bool) (l : list A) :
  (List.length (filter p l) <= List.length l)%nat.
Proof. apply subseq_length, subseq_filter. Qed.

(** X7. The stage returns the frame under the same columns, its rows
    labelled as rows of the input were and in the input's order, and the
    three counts never grow: the count after the date filter is at most the
    count after the coordinate filter, which is at most the input count. *)
Theorem validate_data_shape (df out : DataFrame)
    (min_date max_date : timestamp) (n0 n1 n2 : nat) :
  validate_data df min_date max_date = Ok (out, n0, n1, n2) ->
  columns out = columns df /\
  subseq (map fst (rows out)) (map fst (rows df)) /\
  (n2 <= n1)%nat /\ (n1 <= n0)%nat /\ n0 = len df /\ n2 = len out.
Proof.
  intros H.
  destruct (validate_data_rows _ _ _ H)
    as (i & j & k & _ & _ & _ & Hout & H0 & H1 & H2).
  subst out n0 n1. cbn [columns rows] in *.
  split; [reflexivity |]. unfold validated_rows in *.
  split; [| split; [| split; [| split; [reflexivity | exact H2]]]].
  - eapply subseq_trans; [apply subseq_map, subseq_filter |].
    rewrite !map_map. cbn [update_cell fst].
    apply subseq_map, subseq_filter.
  - subst n2.
    eapply Nat.le_trans; [apply length_filter_le |]. now rewrite !length_map.
  - apply length_filter_le.
Qed.

(** X8. A date survives only if it can be ordered against both bounds: the
    date of every row returned has the time-zone awareness of [min_date] and
    of [max_date] and its instant lies between theirs. So a zone-aware date is
    dropped under naive bounds, nothing is returned when one bound is aware
    and the other is not, and nothing is returned when [max_date] is before
    [min_date]. *)
Theorem validate_data_date_bounds (df out : DataFrame)
    (min_date max_date : timestamp) (n0 n1 n2 : nat) :
  validate_data df min_date max_date = Ok (out, n0, n1, n2) ->
  (forall r, In r (rows out) ->
     exists t,
       cell_of (columns out) "eventDate" r = PTimestamp t /\
       ts_aware t = ts_aware min_date /\ ts_aware t = ts_aware max_date /\
       ts_instant min_date <= ts_instant t <= ts_instant max_date) /\
  (ts_aware min_date <> ts_aware max_date -> rows out = [] /\ n2 = 0%nat) /\
  (ts_instant max_date < ts_instant min_date -> rows out = [] /\ n2 = 0%nat).
Proof.
  intros H.
  destruct (validate_data_rows _ _ _ H)
    as (i & j & k & _ & _ & Hk & Hout & _ & _ & H2).
  assert (Hrows : forall r, In r (rows out) ->
     exists t,
       cell_of (columns out) "eventDate" r = PTimestamp t /\
       ts_aware t = ts_aware min_date /\ ts_aware t = ts_aware max_date /\
       ts_instant min_date <= ts_instant t <= ts_instant max_date).
  { intros r Hr. rewrite Hout in Hr |- *. cbn [columns rows] in Hr |- *.
    unfold validated_rows in Hr. apply filter_In in Hr. destruct Hr as [Hr Hnn].
    apply in_map_iff in Hr. destruct Hr as (r1 & <- & Hr1).
    rewrite cell_update_cell, Nat.eqb_refl in Hnn.
    destruct (is_valid_date_timestamp _ _ _ Hnn) as (t & _ & Hv & Hlo & Hhi).
    exists t. unfold cell_of. rewrite Hk, cell_update_cell, Nat.eqb_refl.
    split; [exact Hv |].
    unfold ts_le in Hlo, Hhi.
    destruct (Bool.eqb (ts_aware min_date) (ts_aware t)) eqn:E1; [| discriminate].
    destruct (Bool.eqb (ts_aware t) (ts_aware max_date)) eqn:E2; [| discriminate].
    apply Bool.eqb_prop in E1, E2. inversion Hlo as [Hlo']. inversion Hhi as [Hhi'].
    apply Z.leb_le in Hlo', Hhi'. auto. }
  assert (Hempty : (forall r, In r (rows out) -> False) ->
                   rows out = [] /\ n2 = 0%nat).
  { intros Hno. destruct (rows out) as [|r rs] eqn:E.
    - split; [reflexivity |]. rewrite H2; try rewrite E; reflexivity.
    - destruct (Hno r (or_introl eq_refl)). }
  split; [exact Hrows |]. split; intros Hb; apply Hempty; intros r Hr;
    destruct (Hrows r Hr) as (t & _ & Ha1 & Ha2 & Hi1); [congruence | lia].
Qed.

Lemma coordinate_is_finite_float (lo hi : Z) (v : pyval) :
  ok_or_false (between lo hi v) = true -> valid_decimals v = true ->
  exists neg ds decpt, v = PFloat (FFin neg ds decpt).
Proof.
  destruct v as [| | b | n | f | s | t | x y]; simpl;
    try discriminate; intros Hb Hv.
  - destruct b; discriminate.
  - rewrite valid_decimals_no_point in Hv by apply int_str_no_point.
    discriminate.
  - destruct f as [| neg | neg ds decpt]; [discriminate | | now eexists _, _, _].
    destruct neg; discriminate.
Qed.

(** X9. Only rows whose two coordinates are finite floats are returned: a
    row whose latitude or longitude is missing, NaN, infinite, or an integer
    (the text of an integer has no decimal point) is always dropped. *)
Theorem validate_data_keeps_finite_floats (df out : DataFrame)
    (min_date max_date : timestamp) (n0 n1 n2 : nat) :
  validate_data df min_date max_date = Ok (out, n0, n1, n2) ->
  forall r', In r' (rows out) ->
    exists r,
      In r (rows df) /\ fst r' = fst r /\
      (exists neg ds decpt,
         cell_of (columns df) "decimalLatitude" r = PFloat (FFin neg ds decpt)) /\
      (exists neg ds decpt,
         cell_of (columns df) "decimalLongitude" r = PFloat (FFin neg ds decpt)).
Proof.
  intros H r' Hr'.
  destruct (validate_data_rows _ _ _ H) as (i & j & k & _ & _ & _ & Hout & _).
  rewrite Hout in Hr'. cbn [rows] in Hr'. unfold validated_rows in Hr'.
  apply filter_In in Hr'. destruct Hr' as [Hr' _].
  rewrite !map_map in Hr'. apply in_map_iff in Hr'.
  destruct Hr' as (r & <- & Hr). apply filter_In in Hr. destruct Hr as [Hr Hc].
  exists r. split; [exact Hr |]. split; [reflexivity |].
  unfold coord_ok in Hc.
  apply andb_true_iff in Hc. destruct Hc as [Hc H4].
  apply andb_true_iff in Hc. destruct Hc as [Hc H3].
  apply andb_true_iff in Hc. destruct Hc as [H1 H2].
  split.
  - exact (coordinate_is_finite_float (-90) 90 _ H1 H3).
  - exact (coordinate_is_finite_float (-180) 180 _ H2 H4).
Qed.


(* ================================================================ *)
(** * Further facts: [taxonomic_validation] *)

Lemma taxonomic_loop_raises (before after : list pyval) (name : pyval) (e : exn) :
  forall valid_species,
    (forall x, In x before -> exists key, validate_taxonomic_name x = Ok key) ->
    validate_taxonomic_name name = Raise e ->
    taxonomic_loop (before ++ name :: after) valid_species = Raise e.
Proof.
  induction before as [|x before IH]; intros acc Hok Hraise; simpl.
  - now rewrite Hraise.
  - destruct (Hok x (or_introl eq_refl)) as [key ->]. cbn [bind].
    apply IH; [| exact Hraise]. intros y Hy. apply Hok. now right.
Qed.

Lemma taxonomic_loop_fails (names : list pyval) :
  forall valid_species,
    (exists name e, In name names /\ validate_taxonomic_name name = Raise e) ->
    exists e', taxonomic_loop names valid_species = Raise e'.
Proof.
  induction names as [|x names IH]; intros acc (name & e & Hin & He);
    [destruct Hin |].
  simpl. destruct (validate_taxonomic_name x) as [key|e'] eqn:Ex.
  - cbn [bind]. apply IH. destruct Hin as [->|Hin]; [congruence |].
    now exists name, e.
  - now exists e'.
Qed.

(** X10. What [taxonomic_validation] raises: [KeyError] when the frame
    has no species column; and when the lookup of one name fails, the stage
    fails as a whole and returns no row. A lookup fails with the backbone's
    own exception, with [KeyError] when the match has no classification, and
    with [KeyError] when a match classified otherwise than ['NONE'] has no
    usage key. *)
Theorem taxonomic_validation_raises (df : DataFrame) :
  (mem_str "species" (columns df) = false ->
   taxonomic_validation df = Raise (KeyError ["species"])) /\
  (mem_str "species" (columns df) = true ->
   (exists r e, In r (rows df) /\
      validate_taxonomic_name (cell_of (columns df) "species" r) = Raise e) ->
   exists e', taxonomic_validation df = Raise e') /\
  (forall name,
     (forall e, name_backbone name = Raise e ->
                validate_taxonomic_name name = Raise e) /\
     (forall match_,
        name_backbone name = Ok match_ ->
        (dict_find "matchType" match_ = None ->
         validate_taxonomic_name name = Raise (KeyError ["matchType"])) /\
        (forall matchType,
           dict_find "matchType" match_ = Some matchType ->
           matchType <> PStr "NONE" ->
           dict_find "usageKey" match_ = None ->
           validate_taxonomic_name name = Raise (KeyError ["usageKey"])))).
Proof.
  split; [| split].
  - intros H. unfold taxonomic_validation, getitem.
    now rewrite (index_of_not_mem _ _ H).
  - intros Hc (r & e & Hr & He). apply index_of_mem in Hc.
    destruct Hc as [i Hi]. unfold taxonomic_validation, getitem.
    rewrite Hi. cbn [bind].
    destruct (taxonomic_loop_fails (unique (map (cell i) (rows df))) [])
      as [e' ->]; [| now exists e'].
    exists (cell i r), e. split.
    + apply unique_In. now apply in_map.
    + unfold cell_of in He. now rewrite Hi in He.
  - intros name. unfold validate_taxonomic_name, dict_get. split.
    + intros e ->. reflexivity.
    + intros m ->. cbn [bind]. split.
      * intros ->. reflexivity.
      * intros mt -> Hne Hkey. cbn [bind].
        destruct (pyval_eqb mt (PStr "NONE")) eqn:E.
        -- apply pyval_eqb_eq in E. contradiction.
        -- cbn [negb]. now rewrite Hkey.
Qed.

Lemma unique_aux_length (l seen : list pyval) :
  (List.length (unique_aux seen l) <= List.length l)%nat.
Proof.
  revert seen. induction l as [|v l IH]; intros seen; simpl; [lia |].
  destruct (existsb (pyval_eqb v) seen); simpl.
  - specialize (IH seen). lia.
  - specialize (IH (v :: seen)). lia.
Qed.

(** X11. The frame and the count of the taxonomic stage agree: the rows
    returned are rows of the input in their order, the count is at most the
    number of rows returned, which is at most the number of input rows, and
    the count is zero exactly when no row is returned. *)
Theorem taxonomic_validation_counts (df out : DataFrame) (n : nat) :
  taxonomic_validation df = Ok (out, n) ->
  subseq (rows out) (rows df) /\
  (n <= len out)%nat /\ (len out <= len df)%nat /\
  (n = 0%nat <-> rows out = []).
Proof.
  intros H. destruct (taxonomic_validation_rows _ H) as (i & Hi & -> & ->).
  cbn [rows]. unfold len. cbn [rows].
  set (names := filter name_accepted (unique (map (cell i) (rows df)))).
  set (kept := filter (fun r => name_accepted (cell i r)) (rows df)).
  assert (Hincl : incl names (map (cell i) kept)).
  { intros x Hx. apply filter_In in Hx. destruct Hx as [Hx Ha].
    apply unique_In, in_map_iff in Hx. destruct Hx as (r & <- & Hr).
    apply in_map. apply filter_In. now split. }
  assert (Hnd : NoDup names) by apply NoDup_filter, unique_NoDup.
  assert (Hle : (List.length names <= List.length kept)%nat).
  { rewrite <- (length_map (cell i) kept). now apply NoDup_incl_length. }
  split; [apply subseq_filter |].
  split; [exact Hle |].
  split; [apply length_filter_le |].
  split.
  - intros H0. destruct kept as [|r rs] eqn:E; [reflexivity |].
    assert (Hr : In r kept) by (rewrite E; now left).
    unfold kept in Hr. apply filter_In in Hr. destruct Hr as [Hr Ha].
    assert (Hin : In (cell i r) names).
    { apply filter_In. split; [| exact Ha].
      apply unique_In. now apply in_map. }
    destruct names; [destruct Hin | discriminate].
  - intros ->. simpl in Hle. lia.
Qed.

(* ================================================================ *)
(** * Further facts: [validate_georeferencing] *)

Lemma georef_loop_raises (cols : list string) (before after : list row)
    (r : row) (e : exn) :
  mem_str "decimalLatitude" cols = true ->
  mem_str "decimalLongitude" cols = true ->
  e <> GeocoderTimedOut ->
  forall i valid_geolocation,
    (forall k x, nth_error before k = Some x ->
       (exists location,
          reverse (i + k) (cell_of cols "decimalLatitude" x)
                          (cell_of cols "decimalLongitude" x) = Ok location) \/
       reverse (i + k) (cell_of cols "decimalLatitude" x)
                       (cell_of cols "decimalLongitude" x) =
         Raise GeocoderTimedOut) ->
    reverse (i + List.length before) (cell_of cols "decimalLatitude" r)
            (cell_of cols "decimalLongitude" r) = Raise e ->
    georef_loop cols i (before ++ r :: after) valid_geolocation = Raise e.
Proof.
  intros Hlat Hlon Hne. apply index_of_mem in Hlat, Hlon.
  destruct Hlat as [a Ha], Hlon as [b Hb].
  induction before as [|x before IH]; intros i acc Hok Hraise; simpl.
  - unfold row_get. rewrite Ha, Hb. cbn [bind].
    simpl in Hraise. rewrite Nat.add_0_r in Hraise.
    unfold cell_of in Hraise. rewrite Ha, Hb in Hraise.
    unfold geocode_point. rewrite Hraise.
    destruct e; try reflexivity. contradiction.
  - unfold row_get. rewrite Ha, Hb. cbn [bind].
    specialize (Hok O x eq_refl) as H0. rewrite Nat.add_0_r in H0.
    unfold cell_of in H0. rewrite Ha, Hb in H0.
    assert (Hg : exists found, geocode_point i (cell a x) (cell b x) = Ok found).
    { unfold geocode_point. destruct H0 as [[[loc|] ->] | ->]; now eexists. }
    destruct Hg as [found ->]. cbn [bind].
    apply IH.
    + intros k y Hk. replace (S i + k)%nat with (i + S k)%nat by lia.
      now apply (Hok (S k)).
    + simpl in Hraise.
      now replace (S i + List.length before)%nat
        with (i + S (List.length before))%nat by lia.
Qed.

(** X12. What [validate_georeferencing] does at its edges: a frame
    without rows gives a frame without rows and without columns, whatever
    columns it had; with at least one row, a missing coordinate column raises
    [KeyError]; and a lookup that fails otherwise than by timing out ends the
    stage with its exception, the rows kept so far being lost. *)
Theorem validate_georeferencing_edges (df : DataFrame) :
  (rows df = [] ->
   validate_georeferencing df = Ok {| columns := []; rows := [] |}) /\
  (rows df <> [] ->
   (mem_str "decimalLatitude" (columns df) = false ->
    validate_georeferencing df = Raise (KeyError ["decimalLatitude"])) /\
   (mem_str "decimalLatitude" (columns df) = true ->
    mem_str "decimalLongitude" (columns df) = false ->
    validate_georeferencing df = Raise (KeyError ["decimalLongitude"]))) /\
  (forall before r after e,
     rows df = (before ++ r :: after)%list ->
     mem_str "decimalLatitude" (columns df) = true ->
     mem_str "decimalLongitude" (columns df) = true ->
     e <> GeocoderTimedOut ->
     (forall k x, nth_error before k = Some x ->
        (exists location,
           reverse k (cell_of (columns df) "decimalLatitude" x)
                     (cell_of (columns df) "decimalLongitude" x) = Ok location) \/
        reverse k (cell_of (columns df) "decimalLatitude" x)
                  (cell_of (columns df) "decimalLongitude" x) =
          Raise GeocoderTimedOut) ->
     reverse (List.length before) (cell_of (columns df) "decimalLatitude" r)
             (cell_of (columns df) "decimalLongitude" r) = Raise e ->
     validate_georeferencing df = Raise e).
Proof.
  unfold validate_georeferencing. split; [| split].
  - intros ->. reflexivity.
  - intros Hne. destruct (rows df) as [|r rs]; [contradiction |]. split.
    + intros H. cbn [georef_loop]. unfold row_get.
      now rewrite (index_of_not_mem _ _ H).
    + intros Hlat Hlon. apply index_of_mem in Hlat. destruct Hlat as [a Ha].
      cbn [georef_loop]. unfold row_get.
      now rewrite Ha, (index_of_not_mem _ _ Hlon).
  - intros before r after e Hrows Hlat Hlon Hne Hok Hraise. rewrite Hrows.
    now rewrite (@georef_loop_raises (columns df) before after r e Hlat Hlon Hne
                   0%nat [] Hok Hraise).
Qed.

Lemma filter_from_subseq (p : nat -> row -> bool) (rs : list row) (i : nat) :
  subseq (filter_from i p rs) rs.
Proof.
  revert i. induction rs as [|r rs IH]; intros i; simpl; [constructor |].
  destruct (p i r); constructor; apply IH.
Qed.

Lemma filter_from_all (p : nat -> row -> bool) (rs : list row) (i : nat) :
  (forall k r, nth_error rs k = Some r -> p (i + k)%nat r = true) ->
  filter_from i p rs = rs.
Proof.
  revert i. induction rs as [|r rs IH]; intros i H; simpl; [reflexivity |].
  specialize (H O r eq_refl) as H0. rewrite Nat.add_0_r in H0. rewrite H0.
  f_equal. apply IH. intros k x Hk.
  replace (S i + k)%nat with (i + S k)%nat by lia. now apply (H (S k)).
Qed.

(** X13. What [validate_georeferencing] returns, the rows being told by
    their labels: the labels of the rows returned are labels of input rows,
    in their order; the columns are the input's when at least one row is kept
    and there is no column at all otherwise; and when the coordinates are
    floats and every lookup finds a location, a row is returned for every
    input row. *)
Theorem validate_georeferencing_shape (df out : DataFrame) :
  validate_georeferencing df = Ok out ->
  subseq (map fst (rows out)) (map fst (rows df)) /\
  (len out <= len df)%nat /\
  (rows out <> [] -> columns out = columns df) /\
  (rows out = [] -> columns out = []) /\
  ((forall i r, nth_error (rows df) i = Some r ->
      (exists latitude longitude,
         cell_of (columns df) "decimalLatitude" r = PFloat latitude /\
         cell_of (columns df) "decimalLongitude" r = PFloat longitude) /\
      located (columns df) i r = true) ->
   map fst (rows out) = map fst (rows df)).
Proof.
  unfold validate_georeferencing.
  destruct (georef_loop (columns df) 0 (rows df) []) as [res|e] eqn:E;
    [| discriminate].
  cbn [bind]. intros H. inversion H; subst; clear H.
  apply georef_loop_filter in E. simpl in E. subst res.
  rewrite rows_DataFrame_of_rows.
  split; [apply subseq_map, filter_from_subseq |].
  split; [unfold len; rewrite rows_DataFrame_of_rows;
          apply subseq_length, filter_from_subseq |].
  split; [| split].
  - intros Hne. destruct (filter_from 0 (located (columns df)) (rows df));
      [contradiction | reflexivity].
  - intros ->. reflexivity.
  - intros Hall. f_equal. apply filter_from_all.
    intros k r Hr. now apply Hall.
Qed.

(* ================================================================ *)
(** * Further facts: [enrich_data] *)

Lemma set_nth_idempotent (i : nat) (v : pyval) (cells : list pyval) :
  set_nth i v (set_nth i v cells) = set_nth i v cells.
Proof.
  revert cells. induction i as [|i IH]; intros cells.
  - now destruct cells.
  - destruct cells as [|x cells]; simpl; f_equal; apply IH.
Qed.

Lemma column_slot_set_column (df : DataFrame) (c : string) (series : list pyval) :
  column_slot (set_column df c series) c = column_slot df c.
Proof.
  unfold column_slot at 1. now rewrite index_of_set_column.
Qed.

(** X14. Enrichment is idempotent and changes nothing but the
    [dataSource] column: enriching twice gives what enriching once gives; the
    rows keep their number, labels and order; the column list is the input's
    when it has a [dataSource] column and the input's followed by
    [dataSource] otherwise. *)
Theorem enrich_data_idempotent (df : DataFrame) :
  enrich_data (enrich_data df) = enrich_data df /\
  len (enrich_data df) = len df /\
  map fst (rows (enrich_data df)) = map fst (rows df) /\
  columns (enrich_data df) =
    (if mem_str "dataSource" (columns df) then columns df
     else columns df ++ ["dataSource"])%list.
Proof.
  assert (Hlen : len (enrich_data df) = len df).
  { unfold len. now rewrite enrich_data_rows, length_map. }
  assert (Hcols : columns (enrich_data df) =
    (if mem_str "dataSource" (columns df) then columns df
     else columns df ++ ["dataSource"])%list).
  { unfold enrich_data, set_column.
    destruct (index_of "dataSource" (columns df)) as [i|] eqn:E.
    - replace (mem_str "dataSource" (columns df)) with true; [reflexivity |].
      symmetry. apply index_of_mem. now exists i.
    - destruct (mem_str "dataSource" (columns df)) eqn:Em; [| reflexivity].
      apply index_of_mem in Em. destruct Em as [i Hi]. congruence. }
  split; [| split; [exact Hlen | split; [| exact Hcols]]].
  - assert (Hidx : index_of "dataSource" (columns (enrich_data df)) =
                   Some (column_slot df "dataSource"))
      by apply index_of_set_column.
    assert (Hrows := enrich_data_rows (enrich_data df)).
    unfold column_slot in Hrows at 1. rewrite Hidx in Hrows.
    rewrite (enrich_data_rows df), map_map in Hrows. cbn [fst snd] in Hrows.
    assert (Hrows' : rows (enrich_data (enrich_data df)) = rows (enrich_data df)).
    { rewrite Hrows, (enrich_data_rows df). apply map_ext. intros r.
      now rewrite set_nth_idempotent. }
    assert (Hc2 : columns (enrich_data (enrich_data df)) =
                  columns (enrich_data df)).
    { unfold enrich_data at 1. unfold set_column. now rewrite Hidx. }
    destruct (enrich_data (enrich_data df)) as [c2 r2].
    destruct (enrich_data df) as [c1 r1]. cbn [columns rows] in *. congruence.
  - rewrite enrich_data_rows, map_map. reflexivity.
Qed.


(* ================================================================ *)
(** * Further facts: [curate_data] *)

Lemma validate_data_surviving_date (df out : DataFrame)
    (min_date max_date : timestamp) (n0 n1 n2 : nat) :
  validate_data df min_date max_date = Ok (out, n0, n1, n2) ->
  forall r, In r (rows out) ->
    exists t,
      cell_of (columns out) "eventDate" r = PTimestamp t /\
      ts_aware t = ts_aware min_date /\ ts_aware t = ts_aware max_date /\
      ts_instant min_date <= ts_instant t <= ts_instant max_date.
Proof.
  intros H.
  destruct (validate_data_rows _ _ _ H)
    as (i & j & k & _ & _ & Hk & Hout & _ & _ & H2).
  intros r Hr. rewrite Hout in Hr |- *. cbn [columns rows] in Hr |- *.
  unfold validated_rows in Hr. apply filter_In in Hr. destruct Hr as [Hr Hnn].
  apply in_map_iff in Hr. destruct Hr as (r1 & <- & Hr1).
  rewrite cell_update_cell, Nat.eqb_refl in Hnn.
  destruct (is_valid_date_timestamp _ _ _ Hnn) as (t & _ & Hv & Hlo & Hhi).
  exists t. unfold cell_of. rewrite Hk, cell_update_cell, Nat.eqb_refl.
  split; [exact Hv |].
  unfold ts_le in Hlo, Hhi.
  destruct (Bool.eqb (ts_aware min_date) (ts_aware t)) eqn:E1; [| discriminate].
  destruct (Bool.eqb (ts_aware t) (ts_aware max_date)) eqn:E2; [| discriminate].
  apply Bool.eqb_prop in E1, E2. inversion Hlo as [Hlo']. inversion Hhi as [Hhi'].
  apply Z.leb_le in Hlo', Hhi'. auto.
Qed.

Lemma validate_data_lengths (df out : DataFrame)
    (min_date max_date : timestamp) (n0 n1 n2 : nat) :
  validate_data df min_date max_date = Ok (out, n0, n1, n2) ->
  columns out = columns df /\
  n0 = len df /\ n2 = len out /\ (n1 <= n0)%nat /\ (n2 <= n1)%nat.
Proof.
  intros H.
  destruct (validate_data_rows _ _ _ H)
    as (i & j & k & _ & _ & _ & Hout & H0 & H1 & H2).
  split; [now rewrite Hout |]. split; [exact H0 |]. split; [exact H2 |].
  split.
  - rewrite H0, H1. apply length_filter_le.
  - rewrite H2, H1, Hout. cbn [rows]. unfold validated_rows.
    eapply Nat.le_trans; [apply length_filter_le |]. now rewrite !length_map.
Qed.

Lemma validate_georeferencing_inv (df out : DataFrame) :
  validate_georeferencing df = Ok out ->
  out = DataFrame_of_rows (columns df)
          (filter_from 0 (located (columns df)) (rows df)).
Proof.
  unfold validate_georeferencing.
  destruct (georef_loop (columns df) 0 (rows df) []) as [res|e] eqn:E;
    [| discriminate].
  cbn [bind]. intros H. inversion H; subst; clear H.
  apply georef_loop_filter in E. simpl in E. now subst res.
Qed.

Lemma initial_cleaning_inv (df out : DataFrame) :
  initial_cleaning df = Ok out ->
  columns out = nine_columns /\ (len out <= len df)%nat /\
  forall c, In c nine_columns -> mem_str c (columns df) = true.
Proof.
  unfold initial_cleaning.
  destruct (select df nine_columns) as [sel|e] eqn:E; [| discriminate].
  cbn [bind]. intros H. inversion H; subst; clear H.
  assert (Hall : forall c, In c nine_columns -> mem_str c (columns df) = true).
  { unfold select in E.
    destruct (filter (fun c => negb (mem_str c (columns df))) nine_columns)
      eqn:Ef; [| discriminate].
    intros c Hc. apply (proj1 (filter_nil _ _) Ef) in Hc.
    now apply negb_false_iff in Hc. }
  apply select_inv in E. subst sel. unfold drop_duplicates, len.
  cbn [columns rows]. split; [reflexivity |]. split; [| exact Hall].
  eapply Nat.le_trans; [apply drop_dups_length |]. now rewrite length_map.
Qed.

Lemma curate_stages_inv (species_name url : string) (raw_data out : DataFrame)
    (min_date max_date : timestamp) (report : string) :
  curate_stages species_name url raw_data min_date max_date = Ok (out, report) ->
  exists cleaned validated n0 n1 n2 georeferenced named n4,
    initial_cleaning raw_data = Ok cleaned /\
    validate_data cleaned min_date max_date = Ok (validated, n0, n1, n2) /\
    validate_georeferencing validated = Ok georeferenced /\
    taxonomic_validation georeferenced = Ok (named, n4) /\
    out = enrich_data named /\
    report = report_text species_name url n0 n1 n2 (len georeferenced) n4
               (len out).
Proof.
  unfold curate_stages.
  destruct (initial_cleaning raw_data) as [cleaned|e] eqn:E1; [| discriminate].
  cbn [bind].
  destruct (validate_data cleaned min_date max_date)
    as [[[[validated n0] n1] n2]|e] eqn:E2; [| discriminate].
  cbn [bind].
  destruct (validate_georeferencing validated) as [geo|e] eqn:E3;
    [| discriminate].
  cbn [bind].
  destruct (taxonomic_validation geo) as [[named n4]|e] eqn:E4;
    [| discriminate].
  cbn [bind]. intros H. inversion H; subst; clear H.
  now exists cleaned, validated, n0, n1, n2, geo, named, n4.
Qed.

Lemma curate_stages_shape (species_name url : string) (raw_data out : DataFrame)
    (min_date max_date : timestamp) (report : string) :
  curate_stages species_name url raw_data min_date max_date = Ok (out, report) ->
  exists n0 n1 n2 n3 n4,
    report = report_text species_name url n0 n1 n2 n3 n4 (len out) /\
    (exists cleaned, initial_cleaning raw_data = Ok cleaned /\ n0 = len cleaned) /\
    (n0 <= len raw_data)%nat /\ (n1 <= n0)%nat /\ (n2 <= n1)%nat /\
    (n3 <= n2)%nat /\ (len out <= n3)%nat /\ (n4 <= len out)%nat /\
    (0 < n3)%nat /\
    columns out = (nine_columns ++ ["dataSource"])%list /\
    (forall c, In c nine_columns -> mem_str c (columns raw_data) = true).
Proof.
  intros H. apply curate_stages_inv in H.
  destruct H as (cleaned & validated & n0 & n1 & n2 & geo & named & n4 &
                 Hclean & Hval & Hgeo & Htax & Hout & Hrep).
  destruct (initial_cleaning_inv _ Hclean) as (Hc1 & Hl1 & Hall).
  destruct (validate_data_lengths _ _ _ Hval) as (Hc2 & H0 & H2 & H10 & H21).
  apply validate_georeferencing_inv in Hgeo.
  destruct (taxonomic_validation_rows _ Htax) as (i & Hi & Hnamed & Hn4).
  assert (Hgne : filter_from 0 (located (columns validated)) (rows validated) <> []).
  { intros Hnil. rewrite Hnil in Hgeo. subst geo. discriminate. }
  assert (Hgcols : columns geo = nine_columns).
  { subst geo.
    destruct (filter_from 0 (located (columns validated)) (rows validated));
      [contradiction |]. cbn [DataFrame_of_rows columns]. congruence. }
  assert (Hgrows : rows geo =
            filter_from 0 (located (columns validated)) (rows validated)).
  { subst geo. apply rows_DataFrame_of_rows. }
  assert (Hlen_out : len out = len named).
  { subst out. unfold len. now rewrite enrich_data_rows, length_map. }
  assert (Hn3 : (len geo <= n2)%nat).
  { rewrite H2. unfold len. rewrite Hgrows.
    apply subseq_length, filter_from_subseq. }
  assert (Hnamed_le : (len named <= len geo)%nat).
  { rewrite Hnamed. unfold len. cbn [rows]. apply length_filter_le. }
  exists n0, n1, n2, (len geo), n4.
  split; [exact Hrep |].
  split; [exists cleaned; now split |].
  split; [rewrite H0; exact Hl1 |].
  split; [exact H10 |]. split; [exact H21 |]. split; [exact Hn3 |].
  split; [rewrite Hlen_out; exact Hnamed_le |].
  split.
  { rewrite Hlen_out, Hn4, Hnamed. unfold len. cbn [rows].
    set (names := filter name_accepted (unique (map (cell i) (rows geo)))).
    set (kept := filter (fun r => name_accepted (cell i r)) (rows geo)).
    rewrite <- (length_map (cell i) kept).
    apply NoDup_incl_length; [apply NoDup_filter, unique_NoDup |].
    intros x Hx. apply filter_In in Hx. destruct Hx as [Hx Ha].
    apply unique_In, in_map_iff in Hx. destruct Hx as (r & <- & Hr).
    apply in_map. apply filter_In. now split. }
  split.
  { unfold len. rewrite Hgrows.
    destruct (filter_from 0 (located (columns validated)) (rows validated));
      [contradiction | simpl; lia]. }
  split; [| exact Hall].
  subst out. unfold enrich_data, set_column.
  replace (columns named) with nine_columns
    by (rewrite Hnamed; cbn [columns]; congruence).
  reflexivity.
Qed.

Lemma curate_data_inv (fuel : nat) (species_name : string)
    (min_date max_date : timestamp) (limit_per_request : Z)
    (files : list output) (r : result DataFrame) :
  curate_data fuel species_name min_date max_date limit_per_request =
    Some (files, r) ->
  (exists requests e,
     fetch_all_gbif_data fuel species_name limit_per_request =
       Some (requests, Raise e) /\ files = [] /\ r = Raise e) \/
  (exists requests raw_data,
     fetch_all_gbif_data fuel species_name limit_per_request =
       Some (requests, Ok (raw_data, gbif_url species_name)) /\
     ((exists e,
         curate_stages species_name (gbif_url species_name) raw_data
           min_date max_date = Raise e /\
         files = [CsvFile (file_stem species_name ++ "_gbif_raw_data.csv")
                    raw_data] /\
         r = Raise e) \/
      (exists out report,
         curate_stages species_name (gbif_url species_name) raw_data
           min_date max_date = Ok (out, report) /\
         files = [CsvFile (file_stem species_name ++ "_gbif_raw_data.csv")
                    raw_data;
                  CsvFile (file_stem species_name ++ "_gbif_curated_data.csv")
                    out;
                  TextFile (file_stem species_name ++ "_gbif_report.txt")
                    report] /\
         r = Ok out))).
Proof.
  unfold curate_data.
  assert (Hurl : forall requests raw_data url,
    fetch_all_gbif_data fuel species_name limit_per_request =
      Some (requests, Ok (raw_data, url)) -> url = gbif_url species_name).
  { unfold fetch_all_gbif_data. intros requests raw_data url.
    destruct (fetch_loop fuel 0 species_name limit_per_request 0 [] [])
      as [[reqs [recs|e]]|]; intros H; now inversion H. }
  destruct (fetch_all_gbif_data fuel species_name limit_per_request)
    as [[requests [[raw_data url]|e]]|] eqn:Ef; [| | discriminate].
  - rewrite (Hurl _ _ _ eq_refl) in *. intros H. right.
    exists requests, raw_data. split; [reflexivity |].
    destruct (curate_stages species_name (gbif_url species_name) raw_data
                min_date max_date) as [[out report]|e];
      inversion H; subst; clear H.
    + right. now exists out, report.
    + left. now exists e.
  - intros H. inversion H; subst; clear H. left. now exists requests, e.
Qed.

(** X15. The files of a run. A run that returns a frame has written
    three files, in this order: the raw records, the frame it returns, and
    the report; the frame has the nine columns followed by [dataSource], the
    raw records had all nine columns, and the frame has no more rows than
    there were raw records. A run that ends with an exception has written
    nothing, or the raw records only: never a curated file or a report. *)
Theorem curate_data_files (fuel : nat) (species_name : string)
    (min_date max_date : timestamp) (limit_per_request : Z)
    (files : list output) (r : result DataFrame) :
  curate_data fuel species_name min_date max_date limit_per_request =
    Some (files, r) ->
  (forall out, r = Ok out ->
     exists raw_data report,
       files = [CsvFile (file_stem species_name ++ "_gbif_raw_data.csv") raw_data;
                CsvFile (file_stem species_name ++ "_gbif_curated_data.csv") out;
                TextFile (file_stem species_name ++ "_gbif_report.txt") report] /\
       columns out = (nine_columns ++ ["dataSource"])%list /\
       (forall c, In c nine_columns -> mem_str c (columns raw_data) = true) /\
       (len out <= len raw_data)%nat) /\
  (forall e, r = Raise e ->
     files = [] \/
     exists raw_data,
       files = [CsvFile (file_stem species_name ++ "_gbif_raw_data.csv") raw_data]).
Proof.
  intros H. apply curate_data_inv in H.
  destruct H as [(requests & e & _ & Hfiles & Hr) |
                 (requests & raw & _ & [(e & _ & Hfiles & Hr) |
                                        (out & report & Hst & Hfiles & Hr)])].
  - split; [intros out Ho; congruence |]. intros _ _. now left.
  - split; [intros out Ho; congruence |]. intros _ _. right. now exists raw.
  - split; [| intros e He; congruence].
    intros out' Ho. rewrite Hr in Ho. inversion Ho; subst out'; clear Ho.
    exists raw, report. split; [exact Hfiles |].
    destruct (curate_stages_shape _ _ _ _ _ Hst)
      as (n0 & n1 & n2 & n3 & n4 & _ & _ & H0 & H1 & H2 & H3 & H4 & _ & _ &
          Hcols & Hall).
    split; [exact Hcols |]. split; [exact Hall |]. lia.
Qed.

(** X16. The counts of the report never grow from one line to the next,
    up to the valid-names line: the ['Total records fetched'] is the number
    of rows left by the cleaning, hence at most the number of records
    fetched; then come the rows after the coordinate filter, after the date
    filter, and after the georeference validation, which is not zero, and
    the curated rows. The number of valid names is at most the number of
    curated rows. *)
Theorem curate_stages_report (species_name url : string)
    (raw_data out : DataFrame) (min_date max_date : timestamp)
    (report : string) :
  curate_stages species_name url raw_data min_date max_date = Ok (out, report) ->
  exists initial_count coord_valid_count date_valid_count georef_count
         valid_species_count,
    report = report_text species_name url initial_count coord_valid_count
               date_valid_count georef_count valid_species_count (len out) /\
    (exists cleaned,
       initial_cleaning raw_data = Ok cleaned /\ initial_count = len cleaned) /\
    (initial_count <= len raw_data)%nat /\
    (coord_valid_count <= initial_count)%nat /\
    (date_valid_count <= coord_valid_count)%nat /\
    (georef_count <= date_valid_count)%nat /\
    (0 < georef_count)%nat /\
    (len out <= georef_count)%nat /\
    (valid_species_count <= len out)%nat.
Proof.
  intros H.
  destruct (curate_stages_shape _ _ _ _ _ H)
    as (n0 & n1 & n2 & n3 & n4 & Hrep & Hc & H0 & H1 & H2 & H3 & H4 & H5 & H6 & _).
  exists n0, n1, n2, n3, n4. repeat (split; [assumption |]). assumption.
Qed.

(** X17. Bounds that no date can lie between: when [max_date] is before
    [min_date], or one of them is zone-aware and the other is not, a run
    never returns a frame, and so never writes a curated file or a report;
    when the fetch, the cleaning and the coordinate and date validation
    return, the run ends with the [KeyError] for [species] that the
    taxonomic validation raises on a frame without columns. *)
Theorem curate_data_empty_range (fuel : nat) (species_name : string)
    (min_date max_date : timestamp) (limit_per_request : Z)
    (files : list output) (r : result DataFrame) :
  ts_instant max_date < ts_instant min_date \/
  ts_aware min_date <> ts_aware max_date ->
  curate_data fuel species_name min_date max_date limit_per_request =
    Some (files, r) ->
  (exists e, r = Raise e) /\
  (forall requests raw_data url cleaned validated n0 n1 n2,
     fetch_all_gbif_data fuel species_name limit_per_request =
       Some (requests, Ok (raw_data, url)) ->
     initial_cleaning raw_data = Ok cleaned ->
     validate_data cleaned min_date max_date = Ok (validated, n0, n1, n2) ->
     r = Raise (KeyError ["species"])).
Proof.
  intros Hb H.
  assert (Hnone : forall cleaned validated n0 n1 n2,
    validate_data cleaned min_date max_date = Ok (validated, n0, n1, n2) ->
    rows validated = []).
  { intros cleaned validated n0 n1 n2 Hval.
    destruct (rows validated) as [|x rs] eqn:E; [reflexivity |].
    destruct (validate_data_surviving_date _ _ _ Hval x) as (t & _ & A1 & A2 & Hi).
    - rewrite E. now left.
    - destruct Hb as [Hb|Hb]; [lia | congruence]. }
  assert (Hgeo : forall validated,
    rows validated = [] ->
    validate_georeferencing validated = Ok {| columns := []; rows := [] |}).
  { intros validated Hrows. unfold validate_georeferencing. now rewrite Hrows. }
  split.
  - apply curate_data_inv in H.
    destruct H as [(requests & e & _ & _ & Hr) |
                   (requests & raw & _ & [(e & _ & _ & Hr) |
                                          (out & report & Hst & _ & Hr)])];
      [now exists e | now exists e |].
    apply curate_stages_inv in Hst.
    destruct Hst as (cleaned & validated & n0 & n1 & n2 & geo & named & n4 &
                     _ & Hval & Hg & Htax & _).
    rewrite (Hgeo _ (Hnone _ _ _ _ _ Hval)) in Hg. inversion Hg; subst geo.
    rewrite taxonomic_validation_no_columns in Htax. discriminate.
  - intros requests raw url cleaned validated n0 n1 n2 Hf Hc Hval.
    unfold curate_data, curate_stages in H. rewrite Hf, Hc in H. cbn [bind] in H.
    rewrite Hval in H. cbn [bind] in H.
    rewrite (Hgeo _ (Hnone _ _ _ _ _ Hval)) in H. cbn [bind] in H.
    rewrite taxonomic_validation_no_columns in H. cbn [bind] in H.
    now inversion H.
Qed.


(* ================================================================ *)
(** * Further facts: [validate_points_within_shapefile] and the [main]s *)

Lemma cell_of_set_column_other (df : DataFrame) (d c : string)
    (series : list pyval) (v : pyval) (r : row) :
  c <> d ->
  cell_of (columns (set_column df d series)) c
    (fst r, set_nth (column_slot df d) v (snd r)) =
  cell_of (columns df) c r.
Proof.
  intros Hne. unfold cell_of, set_column, column_slot.
  destruct (index_of d (columns df)) as [s|] eqn:Es; cbn [columns].
  - destruct (index_of c (columns df)) as [x|] eqn:Ex; [| reflexivity].
    unfold cell. cbn [snd]. rewrite nth_set_nth.
    destruct (Nat.eqb x s) eqn:E; [| reflexivity].
    apply Nat.eqb_eq in E. subst x.
    destruct Hne. exact (index_of_inj _ _ _ Ex Es).
  - rewrite (index_of_app_other _ Hne).
    destruct (index_of c (columns df)) as [x|] eqn:Ex; [| reflexivity].
    unfold cell. cbn [snd]. rewrite nth_set_nth.
    apply index_of_lt in Ex.
    now rewrite (proj2 (Nat.eqb_neq x (List.length (columns df)))) by lia.
Qed.

Lemma cell_of_set_column_same (df : DataFrame) (d : string)
    (series : list pyval) (v : pyval) (r : row) :
  cell_of (columns (set_column df d series)) d
    (fst r, set_nth (column_slot df d) v (snd r)) = v.
Proof.
  unfold cell_of. rewrite index_of_set_column. unfold cell. cbn [snd].
  now rewrite nth_set_nth, Nat.eqb_refl.
Qed.

Lemma set_cells_nonempty (i : nat) (r : row) (rs : list row)
    (series : list pyval) :
  set_cells i (r :: rs) series <> [].
Proof. destruct series; discriminate. Qed.

(** X18. The failures of [validate_points_within_shapefile], in the order
    in which they can happen: [KeyError] for a missing longitude column,
    whether or not there is a latitude column; [KeyError] for a missing
    latitude column; the exception of the first longitude cell that does not
    convert to a float; then that of the first latitude cell that does not;
    and [ValueError] on a frame without rows. The containment test being a
    predicate that always answers, an exception raised is one of these. *)
Theorem validate_points_within_shapefile_raises (df : DataFrame)
    (shp : list geometry) :
  (mem_str "decimalLongitude" (columns df) = false ->
   validate_points_within_shapefile df shp =
     Raise (KeyError ["decimalLongitude"])) /\
  (mem_str "decimalLongitude" (columns df) = true ->
   mem_str "decimalLatitude" (columns df) = false ->
   validate_points_within_shapefile df shp =
     Raise (KeyError ["decimalLatitude"])) /\
  (mem_str "decimalLongitude" (columns df) = true ->
   mem_str "decimalLatitude" (columns df) = true ->
   (forall before r after e,
      rows df = (before ++ r :: after)%list ->
      (forall x, In x before ->
         exists v, to_float64 (cell_of (columns df) "decimalLongitude" x) = Ok v) ->
      to_float64 (cell_of (columns df) "decimalLongitude" r) = Raise e ->
      validate_points_within_shapefile df shp = Raise e) /\
   ((forall x, In x (rows df) ->
       exists v, to_float64 (cell_of (columns df) "decimalLongitude" x) = Ok v) ->
    forall before r after e,
      rows df = (before ++ r :: after)%list ->
      (forall x, In x before ->
         exists v, to_float64 (cell_of (columns df) "decimalLatitude" x) = Ok v) ->
      to_float64 (cell_of (columns df) "decimalLatitude" r) = Raise e ->
      validate_points_within_shapefile df shp = Raise e) /\
   (rows df = [] ->
    validate_points_within_shapefile df shp = Raise ValueError)) /\
  (forall e,
     validate_points_within_shapefile df shp = Raise e ->
     (e = KeyError ["decimalLongitude"] /\
      mem_str "decimalLongitude" (columns df) = false) \/
     (e = KeyError ["decimalLatitude"] /\
      mem_str "decimalLatitude" (columns df) = false) \/
     (exists r, In r (rows df) /\
        (to_float64 (cell_of (columns df) "decimalLongitude" r) = Raise e \/
         to_float64 (cell_of (columns df) "decimalLatitude" r) = Raise e)) \/
     (e = ValueError /\ rows df = [])).
Proof.
  unfold validate_points_within_shapefile, getitem, points_from_xy.
  split; [| split; [| split]].
  - intros H. now rewrite (index_of_not_mem _ _ H).
  - intros Hx Hy. apply index_of_mem in Hx. destruct Hx as [a ->].
    now rewrite (index_of_not_mem _ _ Hy).
  - intros Hx Hy. apply index_of_mem in Hx, Hy.
    destruct Hx as [a Ha], Hy as [b Hb]. unfold cell_of. rewrite Ha, Hb.
    cbn [bind]. split; [| split].
    + intros before r after e Hrows Hok Hr.
      rewrite Hrows, map_app. cbn [map].
      rewrite (mapM_first_raise to_float64 (map (cell a) before)
                 (map (cell a) after) (cell a r) (e := e)); [reflexivity | | exact Hr].
      intros v Hv. apply in_map_iff in Hv. destruct Hv as (x & <- & Hx).
      now apply Hok.
    + intros Hlon before r after e Hrows Hok Hr.
      destruct (mapM_returns to_float64 (map (cell a) (rows df))) as [xs ->].
      { intros v Hv. apply in_map_iff in Hv. destruct Hv as (x & <- & Hx).
        now apply Hlon. }
      cbn [bind]. rewrite Hrows, map_app. cbn [map].
      rewrite (mapM_first_raise to_float64 (map (cell b) before)
                 (map (cell b) after) (cell b r) (e := e)); [reflexivity | | exact Hr].
      intros v Hv. apply in_map_iff in Hv. destruct Hv as (x & <- & Hx).
      now apply Hok.
    + intros Hnil. rewrite Hnil. cbn [map mapM bind shapely_points].
      now rewrite rows_set_column, Hnil.
  - intros e.
    destruct (index_of "decimalLongitude" (columns df)) as [a|] eqn:Ha.
    2:{ cbn [bind]. intros H. inversion H. left. split; [reflexivity |].
        destruct (mem_str "decimalLongitude" (columns df)) eqn:Em;
          [| reflexivity].
        apply index_of_mem in Em. destruct Em as [i Hi]. congruence. }
    destruct (index_of "decimalLatitude" (columns df)) as [b|] eqn:Hb.
    2:{ cbn [bind]. intros H. inversion H. right. left. split; [reflexivity |].
        destruct (mem_str "decimalLatitude" (columns df)) eqn:Em;
          [| reflexivity].
        apply index_of_mem in Em. destruct Em as [i Hi]. congruence. }
    cbn [bind]. unfold cell_of. rewrite Ha, Hb.
    destruct (mapM to_float64 (map (cell a) (rows df))) as [xs|e'] eqn:Ex.
    2:{ cbn [bind]. intros H. inversion H; subst e'.
        apply mapM_raises in Ex. destruct Ex as (v & Hv & Hf).
        apply in_map_iff in Hv. destruct Hv as (r & <- & Hr).
        right. right. left. exists r. split; [exact Hr | now left]. }
    cbn [bind].
    destruct (mapM to_float64 (map (cell b) (rows df))) as [ys|e'] eqn:Ey.
    2:{ cbn [bind]. intros H. inversion H; subst e'.
        apply mapM_raises in Ey. destruct Ey as (v & Hv & Hf).
        apply in_map_iff in Hv. destruct Hv as (r & <- & Hr).
        right. right. left. exists r. split; [exact Hr | now right]. }
    cbn [bind]. rewrite rows_set_column.
    destruct (rows df) as [|r rs] eqn:Er.
    + cbn [set_cells]. intros H. inversion H. right. right. right. now split.
    + destruct (set_cells (column_slot df "geometry") (r :: rs)
                  (shapely_points xs ys)) as [|r1 rest] eqn:Es.
      * destruct (set_cells_nonempty _ _ _ _ Es).
      * rewrite index_of_set_column. discriminate.
Qed.

(** X19. The boundary check changes nothing of the points it is given.
    The frame returned has the input's columns, then [geometry] and
    [within_shapefile] where the input did not have them; the rows keep
    their labels and order; every cell of a column other than those two is
    the input's cell; and the [geometry] cell is the point built from the
    row's longitude and latitude, in that order, each converted to a
    float. *)
Theorem validate_points_within_shapefile_keeps (df out : DataFrame)
    (shp : list geometry) :
  rows df <> [] ->
  validate_points_within_shapefile df shp = Ok out ->
  columns out =
    with_column (with_column (columns df) "geometry") "within_shapefile" /\
  map fst (rows out) = map fst (rows df) /\
  forall idx r,
    nth_error (rows df) idx = Some r ->
    exists r',
      nth_error (rows out) idx = Some r' /\
      (forall c, c <> "geometry" -> c <> "within_shapefile" ->
                 cell_of (columns out) c r' = cell_of (columns df) c r) /\
      exists x y,
        to_float64 (cell_of (columns df) "decimalLongitude" r) = Ok x /\
        to_float64 (cell_of (columns df) "decimalLatitude" r) = Ok y /\
        cell_of (columns out) "geometry" r' = PPoint (PFloat x) (PFloat y).
Proof.
  intros _ H.
  destruct (validate_points_within_shapefile_inv _ _ H)
    as (a & b & gdf & Ha & Hb & _ & Hconv & Hgdf & Hrg & Hco & Hro).
  assert (Hcg : columns gdf = with_column (columns df) "geometry")
    by (rewrite Hgdf; apply columns_set_column).
  split; [now rewrite Hco, Hcg |].
  split; [rewrite Hro, Hrg, !map_map; reflexivity |].
  intros idx r Hr.
  assert (Hin : In r (rows df)) by (eapply nth_error_In; exact Hr).
  destruct (Hconv r Hin) as [Hx Hy].
  set (point := PPoint (PFloat (converted (cell a r)))
                       (PFloat (converted (cell b r)))).
  eexists. split.
  { rewrite Hro, Hrg, map_map. exact (map_nth_error _ idx (rows df) Hr). }
  cbn [fst snd]. fold point.
  assert (Hout_cols : columns out =
    columns (set_column gdf "within_shapefile" [])).
  { now rewrite Hco, columns_set_column. }
  split.
  - intros c Hg Hw. rewrite Hout_cols.
    rewrite (cell_of_set_column_other gdf [] _
               (fst r, set_nth (column_slot df "geometry") point (snd r)) Hw).
    rewrite Hgdf. now apply cell_of_set_column_other.
  - exists (converted (cell a r)), (converted (cell b r)).
    unfold cell_of at 1 2. rewrite Ha, Hb.
    split; [exact Hx |]. split; [exact Hy |].
    rewrite Hout_cols.
    rewrite (cell_of_set_column_other gdf [] _
               (fst r, set_nth (column_slot df "geometry") point (snd r)));
      [| discriminate].
    rewrite Hgdf. apply cell_of_set_column_same.
Qed.

Lemma series_sum_complement (flags : list bool) :
  (series_sum (map PBool flags) +
   series_sum (series_invert (map PBool flags)))%nat = List.length flags.
Proof.
  unfold series_sum, series_invert.
  induction flags as [|b flags IH]; [reflexivity |].
  destruct b; simpl in *; lia.
Qed.

Lemma series_sum_filter {A} (p : A -> bool) (l : list A) :
  series_sum (map (fun x => PBool (p x)) l) = List.length (filter p l).
Proof.
  unfold series_sum. induction l as [|x l IH]; [reflexivity |].
  simpl. destruct (p x); simpl; now rewrite IH.
Qed.

(** X20. The two numbers printed by [main] of [vsSHP_BUFFER.py]: on a
    frame with at least one row, with the two coordinate columns and with
    coordinate cells that convert to floats, [main] writes the checked frame
    to one file and prints the number of points that some polygon contains
    and the number of the other points; the two numbers add up to the number
    of rows, and with no polygon the first is zero. *)
Theorem vsSHP_BUFFER_main_counts (df : DataFrame) (shp : list geometry) :
  rows df <> [] ->
  mem_str "decimalLongitude" (columns df) = true ->
  mem_str "decimalLatitude" (columns df) = true ->
  (forall r, In r (rows df) ->
     exists x y,
       to_float64 (cell_of (columns df) "decimalLongitude" r) = Ok x /\
       to_float64 (cell_of (columns df) "decimalLatitude" r) = Ok y) ->
  exists validated_gdf inside outside,
    validate_points_within_shapefile df shp = Ok validated_gdf /\
    vsSHP_BUFFER_main df shp =
      Ok ([CsvFile "validated_points_within_shapefile.csv" validated_gdf],
          ["Validation complete. Points within shapefile: " ++
             nat_str inside ++ ". Points not within shapefile: " ++
             nat_str outside ++ ".";
           "Results saved to 'validated_points_within_shapefile.csv'."]) /\
    (inside + outside)%nat = len df /\
    inside =
      List.length
        (filter (fun r =>
                   within_any shp
                     (PPoint
                        (PFloat (converted
                                   (cell_of (columns df) "decimalLongitude" r)))
                        (PFloat (converted
                                   (cell_of (columns df) "decimalLatitude" r)))))
                (rows df)) /\
    (shp = [] -> inside = 0%nat /\ outside = len df).
Proof.
  intros Hne Hx Hy Hconv.
  destruct (@validate_points_within_shapefile_returns df shp Hx Hy Hne Hconv)
    as [out E].
  destruct (validate_points_within_shapefile_inv _ _ E)
    as (a & b & gdf & Ha & Hb & _ & _ & Hgdf & Hrg & Hco & Hro).
  set (flag := fun r : row =>
                 within_any shp (PPoint (PFloat (converted (cell a r)))
                                        (PFloat (converted (cell b r))))).
  assert (Hseries : getitem out "within_shapefile" =
                    Ok (map PBool (map flag (rows df)))).
  { unfold getitem.
    replace (index_of "within_shapefile" (columns out))
      with (Some (column_slot gdf "within_shapefile")).
    2:{ rewrite Hco, <- (columns_set_column gdf "within_shapefile" []).
        symmetry. apply index_of_set_column. }
    f_equal. rewrite Hro, Hrg, !map_map. apply map_ext. intros r.
    unfold cell. cbn [snd]. rewrite !nth_set_nth, !Nat.eqb_refl. reflexivity. }
  exists out, (series_sum (map PBool (map flag (rows df)))),
    (series_sum (series_invert (map PBool (map flag (rows df))))).
  split; [exact E |].
  split.
  { unfold vsSHP_BUFFER_main. rewrite E. cbn [bind]. rewrite Hseries.
    reflexivity. }
  split.
  { rewrite series_sum_complement. unfold len. now rewrite length_map. }
  assert (Hin : series_sum (map PBool (map flag (rows df))) =
                List.length (filter flag (rows df))).
  { rewrite map_map. apply series_sum_filter. }
  split.
  { rewrite Hin. unfold flag, cell_of. now rewrite Ha, Hb. }
  intros ->.
  assert (H0 : series_sum (map PBool (map flag (rows df))) = 0%nat).
  { rewrite Hin. replace (filter flag (rows df)) with (@nil row); [reflexivity |].
    symmetry. apply filter_nil. intros r _. reflexivity. }
  split; [exact H0 |].
  pose proof (series_sum_complement (map flag (rows df))) as Hsum.
  rewrite H0, length_map in Hsum. exact Hsum.
Qed.

Lemma days_before_year_next (year : Z) :
  days_before_year (year + 1) =
  days_before_year year + (if is_leap year then 366 else 365).
Proof.
  unfold days_before_year, is_leap.
  replace (year + 1 - 1) with (year - 1 + 1) by lia.
  set (y := year - 1). replace year with (y + 1) by (unfold y; lia).
  destruct ((y + 1) mod 4 =? 0) eqn:E4;
    destruct ((y + 1) mod 100 =? 0) eqn:E100;
    destruct ((y + 1) mod 400 =? 0) eqn:E400;
    cbn [andb orb negb];
    rewrite ?Z.eqb_eq, ?Z.eqb_neq in *;
    Z.div_mod_to_equations; lia.
Qed.

Lemma days_before_year_mono (a b : Z) :
  a < b -> days_before_year a + 365 <= days_before_year b.
Proof.
  intros H. replace b with (a + 1 + Z.of_nat (Z.to_nat (b - a - 1))) by lia.
  induction (Z.to_nat (b - a - 1)) as [|n IH].
  - rewrite Z.add_0_r, days_before_year_next. destruct (is_leap a); lia.
  - replace (a + 1 + Z.of_nat (S n)) with (a + 1 + Z.of_nat n + 1) by lia.
    rewrite days_before_year_next. destruct (is_leap (a + 1 + Z.of_nat n)); lia.
Qed.

Lemma datetime_year_start (year : Z) :
  datetime year 1 1 =
  if ((1 <=? year) && (year <=? 9999))%bool
  then Some {| ts_aware := false;
               ts_instant := (days_before_year year + 1 - 719163) *
                             nanoseconds_per_day |}
  else None.
Proof.
  unfold datetime, ymd2ord, days_before_month, days_in_month.
  change (1 =? 2) with false. change (2 <? 1) with false.
  change (1 <=? 1) with true. change (1 <=? 12) with true.
  change (nth (Z.to_nat 1) DAYS_IN_MONTH (-1)) with 31.
  change (nth (Z.to_nat 1) DAYS_BEFORE_MONTH (-1)) with 0.
  cbn [andb]. change (1 <=? 31) with true.
  destruct ((1 <=? year) && (year <=? 9999))%bool; cbn [andb];
    [| reflexivity].
  do 3 f_equal. lia.
Qed.

Lemma datetime_year_end (year : Z) :
  datetime year 12 31 =
  if ((1 <=? year) && (year <=? 9999))%bool
  then Some {| ts_aware := false;
               ts_instant := (days_before_year (year + 1) - 719163) *
                             nanoseconds_per_day |}
  else None.
Proof.
  rewrite days_before_year_next.
  unfold datetime, ymd2ord, days_before_month, days_in_month.
  change (12 =? 2) with false. change (2 <? 12) with true.
  change (1 <=? 12) with true. change (12 <=? 12) with true.
  change (1 <=? 31) with true.
  change (nth (Z.to_nat 12) DAYS_IN_MONTH (-1)) with 31.
  change (nth (Z.to_nat 12) DAYS_BEFORE_MONTH (-1)) with 334.
  cbn [andb]. change (31 <=? 31) with true.
  destruct ((1 <=? year) && (year <=? 9999))%bool; cbn [andb];
    [| reflexivity].
  do 3 f_equal. destruct (is_leap year); lia.
Qed.

(** X21. [main] of [gbifcurador.py] and the two years: a year outside
    1..9999 ends the run with the exception of [datetime] before anything
    is fetched, and no other year does; the
    run completes, with the three files written and its one line printed,
    only if the minimum year is at most the maximum year; and when the
    minimum year entered is greater than the maximum year, a run that ends
    ends with an exception, without a curated file and without a report. *)
Theorem main_years (fuel : nat) (species_name : string) (max_year min_year : Z) :
  (main fuel species_name max_year min_year = DateError <->
   ~ (1 <= min_year <= 9999 /\ 1 <= max_year <= 9999)) /\
  (forall files printed,
     main fuel species_name max_year min_year = Completed files printed ->
     1 <= min_year /\ min_year <= max_year /\ max_year <= 9999 /\
     printed = ["Curated data for " ++ species_name ++ " has been saved."] /\
     exists raw_data curated_data report,
       files =
         [CsvFile (file_stem species_name ++ "_gbif_raw_data.csv") raw_data;
          CsvFile (file_stem species_name ++ "_gbif_curated_data.csv")
            curated_data;
          TextFile (file_stem species_name ++ "_gbif_report.txt") report]) /\
  (max_year < min_year ->
   1 <= max_year -> min_year <= 9999 ->
   main fuel species_name max_year min_year = Running \/
   exists files e,
     main fuel species_name max_year min_year = Failed files e /\
     (files = [] \/
      exists raw_data,
        files = [CsvFile (file_stem species_name ++ "_gbif_raw_data.csv")
                   raw_data])).
Proof.
  unfold main. rewrite datetime_year_start, datetime_year_end.
  destruct ((1 <=? min_year) && (min_year <=? 9999))%bool eqn:Emin.
  2:{ split; [| split].
      - split; [| reflexivity]. intros _ [H _].
        apply andb_false_iff in Emin. destruct Emin as [E|E];
          apply Z.leb_gt in E; lia.
      - discriminate.
      - intros H1 H2 H3. apply andb_false_iff in Emin.
        destruct Emin as [E|E]; apply Z.leb_gt in E; lia. }
  apply andb_true_iff in Emin. destruct Emin as [Emin1 Emin2].
  apply Z.leb_le in Emin1, Emin2.
  destruct ((1 <=? max_year) && (max_year <=? 9999))%bool eqn:Emax.
  2:{ split; [| split].
      - split; [| reflexivity]. intros _ [_ H].
        apply andb_false_iff in Emax. destruct Emax as [E|E];
          apply Z.leb_gt in E; lia.
      - discriminate.
      - intros H1 H2 H3. apply andb_false_iff in Emax.
        destruct Emax as [E|E]; apply Z.leb_gt in E; lia. }
  apply andb_true_iff in Emax. destruct Emax as [Emax1 Emax2].
  apply Z.leb_le in Emax1, Emax2.
  set (min_date := {| ts_aware := false;
                      ts_instant := (days_before_year min_year + 1 - 719163) *
                                    nanoseconds_per_day |}).
  set (max_date := {| ts_aware := false;
                      ts_instant := (days_before_year (max_year + 1) - 719163) *
                                    nanoseconds_per_day |}).
  assert (Hinv : max_year < min_year ->
                 ts_instant max_date < ts_instant min_date).
  { intros Hlt. cbn [ts_instant min_date max_date].
    assert (days_before_year (max_year + 1) <= days_before_year min_year).
    { destruct (Z.eq_dec (max_year + 1) min_year) as [->|Hne]; [lia |].
      assert (Hstep : max_year + 1 < min_year) by lia.
      apply days_before_year_mono in Hstep. lia. }
    unfold nanoseconds_per_day. lia. }
  destruct (curate_data fuel species_name min_date max_date 5000)
    as [[files [out|e]]|] eqn:Ec.
  - split; [| split].
    + split; [discriminate | intros H; destruct H; lia].
    + intros files' printed H. inversion H; subst files' printed; clear H.
      split; [lia |]. split.
      { destruct (Z.le_gt_cases min_year max_year) as [Hle|Hgt]; [exact Hle |].
        exfalso. apply curate_data_inv in Ec.
        destruct Ec as [(requests & e & _ & _ & Hr) |
                        (requests & raw & _ & [(e & _ & _ & Hr) |
                                               (o & report & Hst & _ & Hr)])];
          try discriminate.
        apply curate_stages_inv in Hst.
        destruct Hst as (cleaned & validated & n0 & n1 & n2 & geo & named & n4 &
                         _ & Hval & Hg & Htax & _).
        assert (Hnil : rows validated = []).
        { destruct (rows validated) as [|x rs] eqn:E; [reflexivity |].
          destruct (validate_data_surviving_date _ _ _ Hval x)
            as (t & _ & _ & _ & Hi); [rewrite E; now left |].
          specialize (Hinv Hgt). lia. }
        unfold validate_georeferencing in Hg. rewrite Hnil in Hg.
        cbn in Hg. inversion Hg; subst geo.
        rewrite taxonomic_validation_no_columns in Htax. discriminate. }
      split; [lia |]. split; [reflexivity |].
      apply curate_data_inv in Ec.
      destruct Ec as [(requests & e & _ & _ & Hr) |
                      (requests & raw & _ & [(e & _ & _ & Hr) |
                                             (o & report & _ & Hfiles & Hr)])];
        try discriminate.
      inversion Hr; subst o. now exists raw, out, report.
    + intros Hlt _ _. exfalso.
      apply curate_data_inv in Ec.
      destruct Ec as [(requests & e & _ & _ & Hr) |
                      (requests & raw & _ & [(e & _ & _ & Hr) |
                                             (o & report & Hst & _ & Hr)])];
        try discriminate.
      apply curate_stages_inv in Hst.
      destruct Hst as (cleaned & validated & n0 & n1 & n2 & geo & named & n4 &
                       _ & Hval & Hg & Htax & _).
      assert (Hnil : rows validated = []).
      { destruct (rows validated) as [|x rs] eqn:E; [reflexivity |].
        destruct (validate_data_surviving_date _ _ _ Hval x)
          as (t & _ & _ & _ & Hi); [rewrite E; now left |].
        specialize (Hinv Hlt). lia. }
      unfold validate_georeferencing in Hg. rewrite Hnil in Hg.
      cbn in Hg. inversion Hg; subst geo.
      rewrite taxonomic_validation_no_columns in Htax. discriminate.
  - split; [| split].
    + split; [discriminate | intros H; destruct H; lia].
    + discriminate.
    + intros _ _ _. right. exists files, e. split; [reflexivity |].
      apply curate_data_inv in Ec.
      destruct Ec as [(requests & e' & _ & Hfiles & _) |
                      (requests & raw & _ & [(e' & _ & Hfiles & _) |
                                             (o & report & _ & _ & Hr)])];
        try discriminate.
      * now left.
      * right. now exists raw.
  - split; [| split].
    + split; [discriminate | intros H; destruct H; lia].
    + discriminate.
    + intros _ _ _. now left.
Qed.


End Pipeline.

(* ================================================================== *)
(** * Rounding to eight decimals keeps a coordinate in its interval

    Each of the three steps of the rounding gives the float nearest an exact
    value. An integer below 2^53 is a float, so the float nearest a value
    that does not exceed such an integer does not exceed it either: this
    holds of 90 and 180, and of 90 * 10^8 and 180 * 10^8 after the
    multiplication. The shortest digits of the result spell a decimal that
    does not exceed the bound either. *)



























(* ================================================================== *)
(** * The rows that [validate_data] returns *)


(* ================================================================== *)
(** * The theorems on the samples *)


Lemma precision_check_positional_witness :
  positional (PFloat f_12_345) = true /\
  valid_decimals sample_str_object (PFloat f_12_345) =
    precision_rule (py_str sample_str_object (PFloat f_12_345)) /\
  after_point (py_str sample_str_object (PInt 12)) = None /\
  valid_decimals sample_str_object (PInt 12) = false.
Proof.
  destruct (precision_check_positional sample_to_datetime numpy_round8
              sample_str_object) as (Hpos & Hnone & _).
  split; [reflexivity |].
  split; [apply Hpos; reflexivity |].
  split; [reflexivity | apply Hnone; reflexivity].
Defined.

(** C2. On a coordinate that [str] prints with an exponent, the precision
    check counts the characters of the exponent with the decimals. The
    float [1.5e-08] has one digit after the decimal point of its text, which
    the rule of three to eight decimals rejects, and the check accepts it,
    the piece after the point, [5e-08], being five characters long. The
    float [1.23456e-05] has five digits after the point of its text, which
    the rule accepts, and the check rejects it, the piece after the point
    being nine characters long. *)
Theorem valid_decimals_counts_exponent :
  (py_str sample_str_object (PFloat f_1_5e_08) = "1.5e-08" /\
   fraction_digits "1.5e-08" = Some 1%nat /\
   precision_rule (py_str sample_str_object (PFloat f_1_5e_08)) = false /\
   valid_decimals sample_str_object (PFloat f_1_5e_08) = true) /\
  (py_str sample_str_object (PFloat f_1_23456e_05) = "1.23456e-05" /\
   fraction_digits "1.23456e-05" = Some 5%nat /\
   str_count is_digit "23456e-05" = 7%nat /\
   precision_rule (py_str sample_str_object (PFloat f_1_23456e_05)) = true /\
   valid_decimals sample_str_object (PFloat f_1_23456e_05) = false).
Proof. repeat split; reflexivity. Qed.

Lemma page_5000_length : Z.of_nat (List.length page_5000) = 5000.
Proof. unfold page_5000. now rewrite repeat_length. Qed.

Lemma page_1200_length : Z.of_nat (List.length page_1200) = 1200.
Proof. unfold page_1200. now rewrite repeat_length. Qed.

Lemma sample_pages_served :
  serves_from sample_search 0 "Panthera onca" 5000 0
    [page_5000; page_5000; page_1200].
Proof.
  assert (H5 : page_5000 <> []).
  { intros H. pose proof page_5000_length as L. rewrite H in L. discriminate. }
  assert (H1 : page_1200 <> []).
  { intros H. pose proof page_1200_length as L. rewrite H in L. discriminate. }
  simpl. repeat split; assumption.
Qed.

Lemma fetch_all_gbif_data_pages_witness :
  fetch_all_gbif_data sample_search 4 "Panthera onca" 5000 =
    Some ([0; 5000; 10000; 15000],
          Ok (DataFrame_of_records (List.concat [page_5000; page_5000; page_1200]),
              gbif_url "Panthera onca")) /\
  Z.of_nat (len (DataFrame_of_records
                   (List.concat [page_5000; page_5000; page_1200]))) = 11200 /\
  gbif_url "Panthera onca" =
    "https://www.gbif.org/occurrence/search?scientificName=Panthera%20onca".
Proof.
  destruct (@fetch_all_gbif_data_pages sample_search "Panthera onca" 5000
              [page_5000; page_5000; page_1200] 4%nat sample_pages_served
              (le_n 4))
    as (Hfetch & _ & Hurl & _ & Hexample).
  split; [exact Hfetch |]. split; [| exact Hurl].
  destruct (Hexample page_5000 page_5000 page_1200 eq_refl eq_refl
              page_5000_length page_5000_length page_1200_length)
    as (df & url & Hf & Hlen).
  rewrite Hfetch in Hf. inversion Hf; subst df. exact Hlen.
Defined.

Lemma taxonomic_validation_valid_names_witness :
  taxonomic_validation sample_backbone sample_validated =
    Ok (sample_validated, 1%nat) /\
  exists valid_species,
    NoDup valid_species /\ 1%nat = List.length valid_species /\
    rows sample_validated =
      filter (fun r => if in_dec pyval_eq_dec
                            (cell_of nine_columns "species" r) valid_species
                       then true else false)
             (rows sample_validated).
Proof.
  assert (H : taxonomic_validation sample_backbone sample_validated =
              Ok (sample_validated, 1%nat)) by (vm_compute; reflexivity).
  split; [exact H |].
  destruct (proj2 (taxonomic_validation_valid_names sample_backbone
                     sample_validated) _ _ H)
    as (vs & _ & Hnd & Hn & _ & Hrows).
  exists vs. auto.
Defined.

(** C4 read without the usage key fails on a backbone whose match is
    classified ['EXACT'] and carries the usage key 0: the name is classified
    otherwise than ['NONE'], and no row and no name is kept. *)
Lemma taxonomic_validation_zero_key_counterexample :
  name_matched zero_key_backbone (PStr "Panthera onca") = true /\
  taxonomic_validation zero_key_backbone sample_validated =
    Ok ({| columns := nine_columns; rows := [] |}, 0%nat).
Proof. split; vm_compute; reflexivity. Qed.

Lemma taxonomic_validation_usage_key_witness :
  taxonomic_validation zero_key_backbone sample_validated =
    Ok ({| columns := nine_columns; rows := [] |}, 0%nat) /\
  classified zero_key_backbone (PStr "Panthera onca") (PStr "EXACT") (PInt 0) /\
  ~ In (validated_row 0 f_12_345) [].
Proof.
  assert (H : taxonomic_validation zero_key_backbone sample_validated =
              Ok ({| columns := nine_columns; rows := [] |}, 0%nat))
    by (vm_compute; reflexivity).
  assert (Hc : classified zero_key_backbone (PStr "Panthera onca")
                 (PStr "EXACT") (PInt 0)).
  { eexists. repeat split. }
  destruct (proj2 (taxonomic_validation_usage_key zero_key_backbone
                     sample_validated) _ _ H)
    as (_ & Hdrop & _).
  split; [exact H |]. split; [exact Hc |].
  apply (Hdrop (validated_row 0 f_12_345) (PStr "EXACT") (PInt 0));
    [exact Hc | discriminate | reflexivity].
Defined.

Lemma stages_keep_rows_witness :
  In (validated_row 0 f_12_345) (rows sample_validated) /\
  exists r, In r (rows sample_frame) /\ fst (validated_row 0 f_12_345) = fst r /\
    cell_of nine_columns "species" (validated_row 0 f_12_345) =
      cell_of nine_columns "species" r /\
    cell_of nine_columns "eventDate" (validated_row 0 f_12_345) =
      PTimestamp ts_2020_06_15.
Proof.
  assert (H : validate_data sample_to_datetime numpy_round8 sample_str_object
                sample_frame ts_2000_01_01 ts_2023_12_31 =
              Ok (sample_validated, 5%nat, 4%nat, 3%nat))
    by (vm_compute; reflexivity).
  assert (Hin : In (validated_row 0 f_12_345) (rows sample_validated))
    by (left; reflexivity).
  destruct (stages_keep_rows sample_backbone sample_reverse sample_to_datetime
              numpy_round8 sample_str_object) as (_ & Hval & _).
  destruct (Hval _ _ _ _ _ _ _ H) as (_ & Hrows).
  destruct (Hrows _ Hin) as (r & Hr & Hl & Hother & _ & _ & t & Ht & Hd).
  change (columns sample_frame) with nine_columns in Hother, Ht, Hd.
  split; [exact Hin |].
  exists r. split; [exact Hr |]. split; [exact Hl |].
  split; [apply Hother; discriminate | reflexivity].
Defined.

(** C5 read as equality by value fails at the coordinate and date stage:
    the rows returned carry the parsed date in [eventDate], which no row of
    the input does, so they are not rows of the input by value. *)
Lemma validate_data_alters_rows_counterexample :
  validate_data sample_to_datetime numpy_round8 sample_str_object
    sample_frame ts_2000_01_01 ts_2023_12_31 =
    Ok (sample_validated, 5%nat, 4%nat, 3%nat) /\
  ~ rows_by_value sample_validated sample_frame.
Proof.
  split; [vm_compute; reflexivity |].
  intros H. destruct (H (validated_row 0 f_12_345) (or_introl eq_refl)) as (r & Hr & Hc).
  assert (Hin : In "eventDate" nine_columns) by (simpl; tauto).
  specialize (Hc "eventDate" Hin Hin).
  destruct Hr as [<-|[<-|[<-|[<-|[<-|[]]]]]]; vm_compute in Hc; discriminate.
Qed.

Lemma validate_georeferencing_lookup_witness :
  validate_georeferencing sample_reverse sample_frame =
    Ok {| columns := nine_columns;
          rows := [onca_row 0 f_12_345 f_m45_6789 "2020-06-15"] |} /\
  rows {| columns := nine_columns;
          rows := [onca_row 0 f_12_345 f_m45_6789 "2020-06-15"] |} =
    filter_from 0 (located sample_reverse nine_columns) (rows sample_frame) /\
  located sample_reverse nine_columns 1
    (onca_row 1 f_12_345 f_m45_6789 "2020-06-15") = false.
Proof.
  destruct (validate_georeferencing_lookup sample_reverse sample_frame)
    as (Hret & Hrows & Hrow).
  assert (H : validate_georeferencing sample_reverse sample_frame =
              Ok {| columns := nine_columns;
                    rows := [onca_row 0 f_12_345 f_m45_6789 "2020-06-15"] |})
    by (vm_compute; reflexivity).
  split; [exact H |]. split; [exact (Hrows _ H) |].
  apply (proj2 (Hrow 1%nat (onca_row 1 f_12_345 f_m45_6789 "2020-06-15"))).
  reflexivity.
Defined.

Lemma sample_validated_converts (r : row) :
  In r (rows sample_validated) ->
  exists x y,
    to_float64 sample_float_of_text sample_float64
      (cell_of (columns sample_validated) "decimalLongitude" r) = Ok x /\
    to_float64 sample_float_of_text sample_float64
      (cell_of (columns sample_validated) "decimalLatitude" r) = Ok y.
Proof.
  intros [<-|[<-|[<-|[]]]]; eexists _, _; split; reflexivity.
Qed.

Lemma validate_points_within_shapefile_any_witness :
  (exists out,
     validate_points_within_shapefile box_contains sample_float_of_text sample_float64
       sample_validated brazil_boxes = Ok out /\
     exists r', nth_error (rows out) 0 = Some r' /\
       cell_of (columns out) "within_shapefile" r' = PBool true) /\
  (exists out,
     validate_points_within_shapefile box_contains sample_float_of_text sample_float64
       sample_validated far_boxes = Ok out /\
     exists r', nth_error (rows out) 0 = Some r' /\
       cell_of (columns out) "within_shapefile" r' = PBool false).
Proof.
  assert (Hne : rows sample_validated <> []) by discriminate.
  split.
  - destruct (validate_points_within_shapefile_any box_contains sample_float_of_text sample_float64
                sample_validated brazil_boxes) as (Hret & Hall).
    destruct (Hret eq_refl eq_refl Hne sample_validated_converts) as (out & Hout).
    exists out. split; [exact Hout |].
    destruct (Hall out Hout) as (_ & Hrow).
    destruct (Hrow 0%nat (validated_row 0 f_12_345) eq_refl)
      as (r' & b & x & y & Hn & _ & Hx & Hy & Hc & Hb).
    vm_compute in Hx, Hy. inversion Hx; subst x. inversion Hy; subst y.
    exists r'. split; [exact Hn |]. rewrite Hc. f_equal. apply Hb.
    exists {| x_min := -50; x_max := -34; y_min := -34; y_max := 20 |}.
    split; [simpl; tauto | reflexivity].
  - destruct (validate_points_within_shapefile_any box_contains sample_float_of_text sample_float64
                sample_validated far_boxes) as (Hret & Hall).
    destruct (Hret eq_refl eq_refl Hne sample_validated_converts) as (out & Hout).
    exists out. split; [exact Hout |].
    destruct (Hall out Hout) as (_ & Hrow).
    destruct (Hrow 0%nat (validated_row 0 f_12_345) eq_refl)
      as (r' & b & x & y & Hn & _ & Hx & Hy & Hc & Hb).
    vm_compute in Hx, Hy. inversion Hx; subst x. inversion Hy; subst y.
    exists r'. split; [exact Hn |]. rewrite Hc. f_equal.
    destruct b; [| reflexivity].
    destruct (proj1 Hb eq_refl) as (polygon & [<-|[]] & Hp). discriminate Hp.
Defined.

Lemma initial_cleaning_idempotent_witness :
  initial_cleaning sample_frame = Ok sample_cleaned /\
  initial_cleaning sample_cleaned = Ok sample_cleaned.
Proof.
  assert (H : initial_cleaning sample_frame = Ok sample_cleaned)
    by (vm_compute; reflexivity).
  split; [exact H |].
  exact (proj1 (proj2 initial_cleaning_idempotent) sample_frame sample_cleaned H).
Defined.

Lemma curate_data_empty_stage_witness :
  curate_data empty_search sample_backbone sample_reverse sample_to_datetime
    numpy_round8 sample_str_object 1 "Panthera onca" ts_2000_01_01
    ts_2023_12_31 5000 =
    Some ([CsvFile "Panthera_onca_gbif_raw_data.csv"
             {| columns := []; rows := [] |}],
          Raise (KeyError nine_columns)) /\
  exists raw_data,
    curate_data one_record_search sample_backbone nowhere_reverse
      sample_to_datetime numpy_round8 sample_str_object 2 "Panthera onca"
      ts_2000_01_01 ts_2023_12_31 5000 =
      Some ([CsvFile "Panthera_onca_gbif_raw_data.csv" raw_data],
            Raise (KeyError ["species"])).
Proof.
  split.
  - exact (proj1 (curate_data_empty_stage empty_search sample_backbone
                    sample_reverse sample_to_datetime numpy_round8
                    sample_str_object 1 "Panthera onca" ts_2000_01_01
                    ts_2023_12_31 5000) eq_refl (le_n 1)).
  - eexists.
    apply (proj2 (curate_data_empty_stage one_record_search sample_backbone
                    nowhere_reverse sample_to_datetime numpy_round8
                    sample_str_object 2 "Panthera onca" ts_2000_01_01
                    ts_2023_12_31 5000)
             [0; 5000] (DataFrame_of_records [sample_record])
             (gbif_url "Panthera onca")
             {| columns := nine_columns;
                rows := [onca_row 0 f_12_345 f_m45_6789 "2020-06-15"] |}
             {| columns := nine_columns; rows := [validated_row 0 f_12_345] |}
             1%nat 1%nat 1%nat {| columns := []; rows := [] |});
      vm_compute; reflexivity.
Defined.

(* ================================================================== *)
(** * The further facts on the samples *)

Lemma fetch_request_failure_is_fatal_witness :
  fetch_all_gbif_data failing_search 2 "Panthera onca" 5000 =
    Some ([0; 5000], Raise (ServiceError "503 Service Unavailable")) /\
  curate_data failing_search sample_backbone sample_reverse sample_to_datetime
    numpy_round8 sample_str_object 2 "Panthera onca" ts_2000_01_01
    ts_2023_12_31 5000 =
    Some ([], Raise (ServiceError "503 Service Unavailable")).
Proof.
  assert (Hfails : fails_after failing_search 0 "Panthera onca" 5000 0
                     [[sample_record]] (ServiceError "503 Service Unavailable")).
  { simpl. split; [reflexivity |]. split; [discriminate | reflexivity]. }
  exact (@fetch_request_failure_is_fatal failing_search sample_backbone
           sample_reverse sample_to_datetime numpy_round8 sample_str_object
           "Panthera onca" 5000 [[sample_record]]
           (ServiceError "503 Service Unavailable") 2%nat ts_2000_01_01
           ts_2023_12_31 Hfails (le_n 2)).
Defined.

Lemma fetch_runs_while_pages_come_witness :
  fetch_all_gbif_data endless_search 1000 "Panthera onca" 5000 = None /\
  curate_data endless_search sample_backbone sample_reverse sample_to_datetime
    numpy_round8 sample_str_object 1000 "Panthera onca" ts_2000_01_01
    ts_2023_12_31 5000 = None.
Proof.
  apply (@fetch_runs_while_pages_come endless_search sample_backbone
           sample_reverse sample_to_datetime numpy_round8 sample_str_object
           "Panthera onca" 5000 ts_2000_01_01 ts_2023_12_31).
  intros n offset. now exists sample_record, [].
Defined.

Lemma initial_cleaning_schema_witness :
  (exists out, initial_cleaning sample_frame = Ok out) /\
  exists missing,
    initial_cleaning {| columns := ["species"; "country"]; rows := [] |} =
      Raise (KeyError missing) /\
    missing <> [] /\ ~ In "species" missing /\ In "eventDate" missing.
Proof.
  split.
  - apply (proj1 (initial_cleaning_schema sample_frame)). intros c Hc. exact Hc.
  - destruct (initial_cleaning_schema
                {| columns := ["species"; "country"]; rows := [] |})
      as (_ & _ & Hraise).
    destruct (initial_cleaning {| columns := ["species"; "country"]; rows := [] |})
      as [out|e] eqn:E; [discriminate E |].
    destruct (Hraise e eq_refl) as (missing & He & Hne & Hmem).
    exists missing. split; [now rewrite He |]. split; [exact Hne |]. split.
    + intros Hin. apply Hmem in Hin. destruct Hin as [_ Hnot].
      apply Hnot. simpl. tauto.
    + apply Hmem. split; [simpl; tauto |].
      simpl. intros [H|[H|[]]]; discriminate H.
Defined.

Lemma initial_cleaning_keeps_first_witness :
  initial_cleaning sample_frame = Ok sample_cleaned /\
  NoDup (map row_key (rows sample_cleaned)) /\
  In (onca_row 2 f_12_3 f_m45_6789 "2020-06-15") (rows sample_cleaned) /\
  initial_cleaning numbered_frame =
    Ok {| columns := nine_columns;
          rows := [numbered_row 0 (PInt 1); numbered_row 2 (PInt 2)] |} /\
  row_key (numbered_row 1 (PFloat f_1_0)) = row_key (numbered_row 0 (PInt 1)) /\
  In (numbered_row 2 (PInt 2))
     (rows {| columns := nine_columns;
              rows := [numbered_row 0 (PInt 1); numbered_row 2 (PInt 2)] |}).
Proof.
  assert (H : initial_cleaning sample_frame = Ok sample_cleaned)
    by (vm_compute; reflexivity).
  pose proof (initial_cleaning_keeps_first sample_frame H) as K.
  cbv zeta in K. destruct K as (_ & Hnd & _ & Hfirst).
  split; [exact H |]. split; [exact Hnd |].
  split.
  { apply (Hfirst [onca_row 0 f_12_345 f_m45_6789 "2020-06-15";
                   onca_row 1 f_12_345 f_m45_6789 "2020-06-15"]
                  (onca_row 2 f_12_3 f_m45_6789 "2020-06-15")
                  [onca_row 3 f_12_345 f_m45_6789 "not a date";
                   onca_row 4 f_1_2345e_07 f_m45_6789 "2020-06-15"]).
    - reflexivity.
    - intros x [<-|[<-|[]]] Hk; vm_compute in Hk; discriminate Hk. }
  assert (H' : initial_cleaning numbered_frame =
               Ok {| columns := nine_columns;
                     rows := [numbered_row 0 (PInt 1); numbered_row 2 (PInt 2)] |})
    by (vm_compute; reflexivity).
  pose proof (initial_cleaning_keeps_first numbered_frame H') as K'.
  cbv zeta in K'. destruct K' as (_ & _ & _ & Hfirst').
  split; [exact H' |]. split; [vm_compute; reflexivity |].
  apply (Hfirst' [numbered_row 0 (PInt 1); numbered_row 1 (PFloat f_1_0)]
                 (numbered_row 2 (PInt 2)) []).
  - reflexivity.
  - intros x [<-|[<-|[]]] Hk; vm_compute in Hk; discriminate Hk.
Defined.

Lemma validate_data_raises_witness :
  validate_data sample_to_datetime numpy_round8 sample_str_object
    {| columns := ["species"]; rows := [] |} ts_2000_01_01 ts_2023_12_31 =
    Raise (KeyError ["decimalLatitude"]) /\
  validate_data sample_to_datetime numpy_round8 sample_str_object
    text_latitude_frame ts_2000_01_01 ts_2023_12_31 = Raise TypeError.
Proof.
  split.
  - apply (proj1 (validate_data_raises sample_to_datetime numpy_round8
                    sample_str_object {| columns := ["species"]; rows := [] |}
                    ts_2000_01_01 ts_2023_12_31)).
    reflexivity.
  - apply (proj1 (proj2 (validate_data_raises sample_to_datetime numpy_round8
                           sample_str_object text_latitude_frame
                           ts_2000_01_01 ts_2023_12_31))).
    + reflexivity.
    + eexists. split; [left; reflexivity | reflexivity].
Defined.

Lemma validate_data_shape_witness :
  validate_data sample_to_datetime numpy_round8 sample_str_object
    sample_frame ts_2000_01_01 ts_2023_12_31 =
    Ok (sample_validated, 5%nat, 4%nat, 3%nat) /\
  subseq [0; 1; 4] [0; 1; 2; 3; 4] /\
  5%nat = len sample_frame /\ 3%nat = len sample_validated.
Proof.
  assert (H : validate_data sample_to_datetime numpy_round8 sample_str_object
                sample_frame ts_2000_01_01 ts_2023_12_31 =
              Ok (sample_validated, 5%nat, 4%nat, 3%nat))
    by (vm_compute; reflexivity).
  destruct (@validate_data_shape sample_to_datetime numpy_round8
              sample_str_object _ _ _ _ _ _ _ H)
    as (_ & Hsub & _ & _ & H0 & H2).
  split; [exact H |]. split; [exact Hsub |]. now split.
Defined.

Lemma validate_data_date_bounds_witness :
  validate_data sample_to_datetime numpy_round8 sample_str_object
    sample_frame ts_2023_12_31 ts_2000_01_01 =
    Ok ({| columns := nine_columns; rows := [] |}, 5%nat, 4%nat, 0%nat) /\
  exists t,
    cell_of nine_columns "eventDate" (validated_row 0 f_12_345) = PTimestamp t /\
    ts_aware t = false /\
    ts_instant ts_2000_01_01 <= ts_instant t <= ts_instant ts_2023_12_31.
Proof.
  split; [vm_compute; reflexivity |].
  assert (H : validate_data sample_to_datetime numpy_round8 sample_str_object
                sample_frame ts_2000_01_01 ts_2023_12_31 =
              Ok (sample_validated, 5%nat, 4%nat, 3%nat))
    by (vm_compute; reflexivity).
  destruct (@validate_data_date_bounds sample_to_datetime numpy_round8
              sample_str_object _ _ _ _ _ _ _ H) as (Hrows & _).
  destruct (Hrows (validated_row 0 f_12_345) (or_introl eq_refl))
    as (t & Hc & Ha & _ & Hi).
  exists t. split; [exact Hc |]. split; [exact Ha | exact Hi].
Defined.

Lemma validate_data_keeps_finite_floats_witness :
  validate_data sample_to_datetime numpy_round8 sample_str_object
    sample_frame ts_2000_01_01 ts_2023_12_31 =
    Ok (sample_validated, 5%nat, 4%nat, 3%nat) /\
  exists r,
    In r (rows sample_frame) /\ fst (validated_row 4 f_1_2e_07) = fst r /\
    exists neg ds decpt,
      cell_of nine_columns "decimalLatitude" r = PFloat (FFin neg ds decpt).
Proof.
  assert (H : validate_data sample_to_datetime numpy_round8 sample_str_object
                sample_frame ts_2000_01_01 ts_2023_12_31 =
              Ok (sample_validated, 5%nat, 4%nat, 3%nat))
    by (vm_compute; reflexivity).
  destruct (@validate_data_keeps_finite_floats sample_to_datetime numpy_round8
              sample_str_object _ _ _ _ _ _ _ H (validated_row 4 f_1_2e_07))
    as (r & Hr & Hl & Hlat & _).
  { right. right. left. reflexivity. }
  split; [exact H |]. exists r. split; [exact Hr |]. split; [exact Hl | exact Hlat].
Defined.

Lemma taxonomic_validation_raises_witness :
  taxonomic_validation sample_backbone {| columns := []; rows := [] |} =
    Raise (KeyError ["species"]) /\
  (exists e, taxonomic_validation failing_backbone sample_validated = Raise e) /\
  validate_taxonomic_name zero_key_backbone (PStr "Panthera onca") = Ok (PInt 0) /\
  validate_taxonomic_name (fun _ => Ok [("matchType", PStr "EXACT")])
    (PStr "Panthera onca") = Raise (KeyError ["usageKey"]).
Proof.
  split; [| split; [| split]].
  - apply (proj1 (taxonomic_validation_raises sample_backbone
                    {| columns := []; rows := [] |})).
    reflexivity.
  - apply (proj1 (proj2 (taxonomic_validation_raises failing_backbone
                           sample_validated))).
    + reflexivity.
    + exists (validated_row 0 f_12_345), (ServiceError "backbone unavailable").
      split; [left; reflexivity | reflexivity].
  - reflexivity.
  - destruct (proj2 (proj2 (taxonomic_validation_raises
                              (fun _ => Ok [("matchType", PStr "EXACT")])
                              {| columns := []; rows := [] |}))
                (PStr "Panthera onca")) as (_ & Hmatch).
    destruct (Hmatch [("matchType", PStr "EXACT")] eq_refl) as (_ & Hkey).
    apply (Hkey (PStr "EXACT")); [reflexivity | discriminate | reflexivity].
Defined.

Lemma taxonomic_validation_counts_witness :
  taxonomic_validation sample_backbone sample_validated =
    Ok (sample_validated, 1%nat) /\
  subseq (rows sample_validated) (rows sample_validated) /\
  (1 <= len sample_validated)%nat /\
  (1%nat = 0%nat <-> rows sample_validated = []).
Proof.
  assert (H : taxonomic_validation sample_backbone sample_validated =
              Ok (sample_validated, 1%nat)) by (vm_compute; reflexivity).
  destruct (taxonomic_validation_counts sample_backbone sample_validated H)
    as (Hsub & Hn & _ & Hz).
  split; [exact H |]. split; [exact Hsub |]. split; [exact Hn | exact Hz].
Defined.

Lemma validate_georeferencing_edges_witness :
  validate_georeferencing failing_reverse sample_frame =
    Raise (ServiceError "geocoder unavailable") /\
  validate_georeferencing failing_reverse {| columns := nine_columns; rows := [] |} =
    Ok {| columns := []; rows := [] |}.
Proof.
  destruct (validate_georeferencing_edges failing_reverse sample_frame)
    as (_ & _ & Hfatal).
  split.
  - apply (Hfatal [onca_row 0 f_12_345 f_m45_6789 "2020-06-15";
                   onca_row 1 f_12_345 f_m45_6789 "2020-06-15"]
                  (onca_row 2 f_12_3 f_m45_6789 "2020-06-15")
                  [onca_row 3 f_12_345 f_m45_6789 "not a date";
                   onca_row 4 f_1_2345e_07 f_m45_6789 "2020-06-15"]
                  (ServiceError "geocoder unavailable")).
    + reflexivity.
    + reflexivity.
    + reflexivity.
    + discriminate.
    + intros [|[|k]] x Hx.
      * left. now exists (Some "Brazil").
      * right. reflexivity.
      * destruct k; discriminate Hx.
    + reflexivity.
  - apply (proj1 (validate_georeferencing_edges failing_reverse
                    {| columns := nine_columns; rows := [] |})).
    reflexivity.
Defined.

Lemma validate_georeferencing_shape_witness :
  validate_georeferencing sample_reverse sample_frame =
    Ok {| columns := nine_columns;
          rows := [onca_row 0 f_12_345 f_m45_6789 "2020-06-15"] |} /\
  subseq [0] [0; 1; 2; 3; 4] /\
  (1 <= len sample_frame)%nat.
Proof.
  assert (H : validate_georeferencing sample_reverse sample_frame =
              Ok {| columns := nine_columns;
                    rows := [onca_row 0 f_12_345 f_m45_6789 "2020-06-15"] |})
    by (vm_compute; reflexivity).
  destruct (validate_georeferencing_shape sample_reverse sample_frame H)
    as (Hsub & Hlen & _).
  split; [exact H |]. split; [exact Hsub | exact Hlen].
Defined.

Lemma curate_data_files_witness :
  exists files out raw_data report,
    curate_data one_record_search sample_backbone sample_reverse
      sample_to_datetime numpy_round8 sample_str_object 2 "Panthera onca"
      ts_2000_01_01 ts_2023_12_31 5000 = Some (files, Ok out) /\
    files = [CsvFile "Panthera_onca_gbif_raw_data.csv" raw_data;
             CsvFile "Panthera_onca_gbif_curated_data.csv" out;
             TextFile "Panthera_onca_gbif_report.txt" report] /\
    columns out = (nine_columns ++ ["dataSource"])%list /\
    (len out <= len raw_data)%nat.
Proof.
  destruct (curate_data one_record_search sample_backbone sample_reverse
              sample_to_datetime numpy_round8 sample_str_object 2
              "Panthera onca" ts_2000_01_01 ts_2023_12_31 5000)
    as [[files [out|e]]|] eqn:E;
    [| vm_compute in E; discriminate E | vm_compute in E; discriminate E].
  destruct (proj1 (@curate_data_files one_record_search sample_backbone
                     sample_reverse sample_to_datetime numpy_round8
                     sample_str_object _ _ _ _ _ _ _ E) out eq_refl)
    as (raw_data & report & Hfiles & Hcols & _ & Hlen).
  exists files, out, raw_data, report.
  split; [reflexivity |]. split; [exact Hfiles |]. split; [exact Hcols | exact Hlen].
Defined.

Lemma curate_stages_report_witness :
  exists out report,
    curate_stages sample_backbone sample_reverse sample_to_datetime
      numpy_round8 sample_str_object "Panthera onca"
      (gbif_url "Panthera onca") (DataFrame_of_records [sample_record; sample_record])
      ts_2000_01_01 ts_2023_12_31 = Ok (out, report) /\
    exists initial_count coord_valid_count date_valid_count georef_count
           valid_species_count,
      report = report_text "Panthera onca" (gbif_url "Panthera onca")
                 initial_count coord_valid_count date_valid_count georef_count
                 valid_species_count (len out) /\
      (initial_count <= 2)%nat /\
      (coord_valid_count <= initial_count)%nat /\
      (date_valid_count <= coord_valid_count)%nat /\
      (georef_count <= date_valid_count)%nat /\
      (len out <= georef_count)%nat /\
      (valid_species_count <= len out)%nat.
Proof.
  destruct (curate_stages sample_backbone sample_reverse sample_to_datetime
              numpy_round8 sample_str_object "Panthera onca"
              (gbif_url "Panthera onca")
              (DataFrame_of_records [sample_record; sample_record])
              ts_2000_01_01 ts_2023_12_31)
    as [[out report]|e] eqn:E; [| vm_compute in E; discriminate E].
  destruct (@curate_stages_report sample_backbone sample_reverse
              sample_to_datetime numpy_round8 sample_str_object _ _ _ _ _ _ _ E)
    as (n0 & n1 & n2 & n3 & n4 & Hrep & _ & H0 & H1 & H2 & H3 & _ & H4 & H5).
  exists out, report. split; [reflexivity |].
  exists n0, n1, n2, n3, n4.
  split; [exact Hrep |]. split; [exact H0 |]. split; [exact H1 |].
  split; [exact H2 |]. split; [exact H3 |]. split; [exact H4 | exact H5].
Defined.

Lemma curate_data_empty_range_witness :
  ts_instant ts_2000_01_01 < ts_instant ts_2023_12_31 /\
  exists raw_data,
    curate_data one_record_search sample_backbone sample_reverse
      sample_to_datetime numpy_round8 sample_str_object 2 "Panthera onca"
      ts_2023_12_31 ts_2000_01_01 5000 =
    Some ([CsvFile "Panthera_onca_gbif_raw_data.csv" raw_data],
          Raise (KeyError ["species"])).
Proof.
  assert (Hlt : ts_instant ts_2000_01_01 < ts_instant ts_2023_12_31)
    by reflexivity.
  split; [exact Hlt |].
  destruct (curate_data one_record_search sample_backbone sample_reverse
              sample_to_datetime numpy_round8 sample_str_object 2
              "Panthera onca" ts_2023_12_31 ts_2000_01_01 5000)
    as [[files r]|] eqn:E; [| vm_compute in E; discriminate E].
  destruct (@curate_data_empty_range one_record_search sample_backbone
              sample_reverse sample_to_datetime numpy_round8
              sample_str_object _ _ _ _ _ _ _ (or_introl Hlt) E)
    as ((e & He) & _).
  subst r. vm_compute in E. inversion E; subst files e.
  eexists. reflexivity.
Defined.

Lemma validate_points_within_shapefile_raises_witness :
  validate_points_within_shapefile box_contains sample_float_of_text sample_float64
    {| columns := ["decimalLatitude"]; rows := [] |} brazil_boxes =
    Raise (KeyError ["decimalLongitude"]) /\
  validate_points_within_shapefile box_contains sample_float_of_text sample_float64
    unknown_latitude_frame brazil_boxes = Raise ValueError /\
  validate_points_within_shapefile box_contains sample_float_of_text sample_float64
    {| columns := columns unknown_latitude_frame; rows := [] |} brazil_boxes =
    Raise ValueError.
Proof.
  split; [| split].
  - apply (proj1 (validate_points_within_shapefile_raises box_contains
                    sample_float_of_text sample_float64
                    {| columns := ["decimalLatitude"]; rows := [] |}
                    brazil_boxes)).
    reflexivity.
  - destruct (proj1 (proj2 (proj2 (validate_points_within_shapefile_raises
                                     box_contains sample_float_of_text sample_float64
                                     unknown_latitude_frame brazil_boxes)))
                eq_refl eq_refl) as (_ & Hlat & _).
    apply (Hlat) with (before := [(0, [PFloat f_12_345; PFloat f_m45_6789])])
                      (r := (1, [PStr "unknown"; PFloat f_m45_6789]))
                      (after := []).
    + intros x [<-|[<-|[]]]; eexists; reflexivity.
    + reflexivity.
    + intros x [<-|[]]. eexists. reflexivity.
    + reflexivity.
  - destruct (proj1 (proj2 (proj2 (validate_points_within_shapefile_raises
                                     box_contains sample_float_of_text sample_float64
                                     {| columns := columns unknown_latitude_frame;
                                        rows := [] |} brazil_boxes)))
                eq_refl eq_refl) as (_ & _ & Hempty).
    apply Hempty. reflexivity.
Defined.

Lemma validate_points_within_shapefile_keeps_witness :
  exists out,
    validate_points_within_shapefile box_contains sample_float_of_text sample_float64
      sample_validated brazil_boxes = Ok out /\
    columns out = (nine_columns ++ ["geometry"; "within_shapefile"])%list /\
    map fst (rows out) = [0; 1; 4] /\
    exists r',
      nth_error (rows out) 2 = Some r' /\
      cell_of (columns out) "species" r' = PStr "Panthera onca" /\
      cell_of (columns out) "geometry" r' =
        PPoint (PFloat f_m45_6789) (PFloat f_1_2e_07).
Proof.
  destruct (validate_points_within_shapefile box_contains sample_float_of_text sample_float64
              sample_validated brazil_boxes) as [out|e] eqn:E;
    [| vm_compute in E; discriminate E].
  assert (Hne : rows sample_validated <> []) by discriminate.
  destruct (@validate_points_within_shapefile_keeps box box_contains
              sample_float_of_text sample_float64 sample_validated out brazil_boxes Hne E)
    as (Hcols & Hlab & Hrow).
  destruct (Hrow 2%nat (validated_row 4 f_1_2e_07) eq_refl)
    as (r' & Hn & Hother & x & y & Hx & Hy & Hgeom).
  vm_compute in Hx, Hy. inversion Hx; subst x. inversion Hy; subst y.
  exists out. split; [reflexivity |]. split; [exact Hcols |].
  split; [exact Hlab |].
  exists r'. split; [exact Hn |]. split; [| exact Hgeom].
  rewrite (Hother "species"); [reflexivity | discriminate | discriminate].
Defined.

Lemma vsSHP_BUFFER_main_counts_witness :
  exists validated_gdf,
    vsSHP_BUFFER_main box_contains sample_float_of_text sample_float64 sample_validated
      brazil_boxes =
      Ok ([CsvFile "validated_points_within_shapefile.csv" validated_gdf],
          ["Validation complete. Points within shapefile: 3. Points not within shapefile: 0.";
           "Results saved to 'validated_points_within_shapefile.csv'."]) /\
    exists outside,
      vsSHP_BUFFER_main box_contains sample_float_of_text sample_float64 sample_validated
        far_boxes =
        Ok ([CsvFile "validated_points_within_shapefile.csv" outside],
            ["Validation complete. Points within shapefile: 0. Points not within shapefile: 3.";
             "Results saved to 'validated_points_within_shapefile.csv'."]).
Proof.
  assert (Hne : rows sample_validated <> []) by discriminate.
  destruct (@vsSHP_BUFFER_main_counts box box_contains sample_float_of_text sample_float64
              sample_validated brazil_boxes Hne eq_refl eq_refl
              sample_validated_converts)
    as (gdf & inside & outside & _ & Hmain & Hsum & Hin & _).
  assert (Hinside : inside = 3%nat) by (rewrite Hin; vm_compute; reflexivity).
  assert (Houtside : outside = 0%nat).
  { rewrite Hinside in Hsum. change (len sample_validated) with 3%nat in Hsum.
    apply (Nat.add_cancel_l outside 0 3). rewrite Hsum. reflexivity. }
  rewrite Hinside, Houtside in Hmain.
  exists gdf. split; [exact Hmain |].
  destruct (@vsSHP_BUFFER_main_counts box box_contains sample_float_of_text sample_float64
              sample_validated far_boxes Hne eq_refl eq_refl
              sample_validated_converts)
    as (gdf' & inside' & outside' & _ & Hmain' & Hsum' & Hin' & _).
  assert (Hinside' : inside' = 0%nat) by (rewrite Hin'; vm_compute; reflexivity).
  assert (Houtside' : outside' = 3%nat).
  { rewrite Hinside' in Hsum'. exact Hsum'. }
  rewrite Hinside', Houtside' in Hmain'.
  exists gdf'. exact Hmain'.
Defined.

Lemma main_years_witness :
  datetime 2000 1 1 = Some ts_2000_01_01 /\
  datetime 2023 12 31 = Some ts_2023_12_31 /\
  main one_record_search sample_backbone sample_reverse sample_to_datetime
    numpy_round8 sample_str_object 2 "Panthera onca" 10000 2000 = DateError /\
  (exists files printed,
     main one_record_search sample_backbone sample_reverse sample_to_datetime
       numpy_round8 sample_str_object 2 "Panthera onca" 2023 2000 =
     Completed files printed /\
     printed = ["Curated data for Panthera onca has been saved."]) /\
  (exists files e,
     main one_record_search sample_backbone sample_reverse sample_to_datetime
       numpy_round8 sample_str_object 2 "Panthera onca" 2000 2023 =
     Failed files e).
Proof.
  split; [reflexivity |]. split; [reflexivity |]. split; [| split].
  - apply (proj1 (main_years one_record_search sample_backbone sample_reverse
                    sample_to_datetime numpy_round8 sample_str_object 2
                    "Panthera onca" 10000 2000)).
    intros [_ H]. lia.
  - destruct (main one_record_search sample_backbone sample_reverse
                sample_to_datetime numpy_round8 sample_str_object 2
                "Panthera onca" 2023 2000) as [| | files e | files printed] eqn:E;
      try (vm_compute in E; discriminate E).
    destruct (proj1 (proj2 (main_years one_record_search sample_backbone
                              sample_reverse sample_to_datetime numpy_round8
                              sample_str_object 2 "Panthera onca" 2023 2000))
                files printed E) as (_ & _ & _ & Hprinted & _).
    exists files, printed. split; [reflexivity | exact Hprinted].
  - destruct (proj2 (proj2 (main_years one_record_search sample_backbone
                              sample_reverse sample_to_datetime numpy_round8
                              sample_str_object 2 "Panthera onca" 2000 2023)))
      as [Hrun | (files & e & Hfailed & _)]; [lia | lia | lia | |].
    + vm_compute in Hrun. discriminate Hrun.
    + exists files, e. exact Hfailed.
Defined.
